(** * ioBroker.nightscout: the socket client (lib/client.js)

    A shallow embedding of [NightscoutClient]: the JavaScript values the
    feed delivers, the calendar arithmetic the client asks of [moment],
    the treatment-age selection [_getLatestTreatmentsInfo], the recovery
    computation [_recalcAges], the event handlers registered on the socket
    and [close].

    Numbers are the integers of JavaScript (epoch milliseconds, hours,
    days), modelled as [Z]; fractional numbers are outside the model. *)

From Stdlib Require Import ZArith List String Ascii Bool Lia DecimalString.
From Stdlib Require Import Permutation.
Import ListNotations.
Set Warnings "-register-all".
Local Open Scope string_scope.
Local Open Scope list_scope.
Local Open Scope Z_scope.

(** ** JavaScript values *)

Module JS.

(** What [JSON.parse] may deliver ([VNull], [VBool], [VNum], [VStr], [VArr],
    [VObj]) together with [undefined] and [NaN], which the client computes
    with.  An object is the list of its own properties. *)
Inductive value : Type :=
| VUndefined
| VNull
| VBool (b : bool)
| VNum (z : Z)
| VNaN
| VStr (s : string)
| VArr (items : list value)
| VObj (fields : list (string * value)).

(** ToBoolean. *)
Definition truthy (v : value) : bool :=
  match v with
  | VUndefined | VNull | VNaN => false
  | VBool b => b
  | VNum z => negb (z =? 0)
  | VStr s => negb (s =? "")%string
  | VArr _ | VObj _ => true
  end.

(** [x || y] on values. *)
Definition or_else (x y : value) : value := if truthy x then x else y.

(** [x === y].  Arrays and objects compare by identity; the two sides the
    client compares never are the same object (one comes from the payload
    being handled, the other from an earlier payload or is a literal), so
    the comparison of two arrays or objects is [false]. *)
Definition strict_eq (x y : value) : bool :=
  match x, y with
  | VUndefined, VUndefined => true
  | VNull, VNull => true
  | VBool a, VBool b => Bool.eqb a b
  | VNum a, VNum b => a =? b
  | VStr a, VStr b => (a =? b)%string
  | _, _ => false
  end.

Fixpoint lookup (k : string) (fields : list (string * value)) : option value :=
  match fields with
  | [] => None
  | (k', v) :: rest => if (k =? k')%string then Some v else lookup k rest
  end.

(** The outcome of an expression: a value, or a thrown [TypeError]. *)
Inductive completion (A : Type) : Type :=
| Normal (a : A)
| TypeError (msg : string).
Arguments Normal {A} a.
Arguments TypeError {A} msg.

(** [o.k] for the data properties the client reads.  Reading a property of
    [undefined] or [null] throws; a string and an array have a [length];
    any other missing property is [undefined]. *)
Definition get (o : value) (k : string) : completion value :=
  match o with
  | VUndefined | VNull => TypeError ("Cannot read property '" ++ k ++ "'")%string
  | VObj fields =>
      Normal (match lookup k fields with Some v => v | None => VUndefined end)
  | VArr items =>
      Normal (if (k =? "length")%string
              then VNum (Z.of_nat (List.length items)) else VUndefined)
  | VStr s =>
      Normal (if (k =? "length")%string
              then VNum (Z.of_nat (String.length s)) else VUndefined)
  | VBool _ | VNum _ | VNaN => Normal VUndefined
  end.

(** [String.prototype.includes]. *)
Fixpoint str_includes (s sub : string) : bool :=
  String.prefix sub s ||
  match s with
  | EmptyString => false
  | String _ rest => str_includes rest sub
  end.

(** [v.includes(sub)] for a string [sub]: a substring test on a string,
    a membership test on an array, and a [TypeError] on anything else
    (no other value has a callable [includes]). *)
Definition includes (v : value) (sub : string) : completion bool :=
  match v with
  | VStr s => Normal (str_includes s sub)
  | VArr items => Normal (existsb (fun x => strict_eq x (VStr sub)) items)
  | _ => TypeError "includes is not a function"
  end.

(** [a.pop()]: only an array has it.  The array loses its last element;
    the client never looks at the array again. *)
Definition pop (a : value) : completion value :=
  match a with
  | VArr items => Normal (List.last items VUndefined)
  | _ => TypeError "pop is not a function"
  end.

(** The decimal numeral of an integer, as [String(n)] prints it. *)
Definition decimal (z : Z) : string := NilZero.string_of_int (Z.to_int z).

Definition join (sep : string) (parts : list string) : string :=
  match parts with
  | [] => ""
  | p :: rest => fold_left (fun acc q => (acc ++ sep ++ q)%string) rest p
  end.

End JS.
Import JS.

(** ** The host: time zone, date parsing and number conversion *)

(** What the JavaScript engine, its configuration and the moment library
    decide: the offset of local time from UTC, in minutes, at an instant
    (what [moment] reports as [utcOffset()]); [Date.parse] of a string
    ([None] is [NaN]); how an integer beyond 2^53 prints (the shortest
    digits that read back, in exponent form from 1e21); the number a string
    converts to ([None] is [NaN]); and the instant [moment] makes of a
    value that is not a number ([None] is an invalid moment). *)
Class Host : Type := {
  utcOffset : Z -> Z;
  Date_parse : string -> option Z;
  Number_toString : Z -> string;
  StringToNumber : string -> option Z;
  moment_valueOf : value -> option Z
}.

(** The largest time value of a [Date]. *)
Definition maxTime : Z := 8640000000000000.

(** ToString, as a template literal and [+] with a string apply it.  An
    object converts by its [toString]: one that has an own [toString]
    property (never a function in a decoded payload) cannot be converted,
    which throws; an array converts its elements and joins them. *)
Fixpoint to_string `{Host} (v : value) : completion string :=
  match v with
  | VUndefined => Normal "undefined"
  | VNull => Normal "null"
  | VBool true => Normal "true"
  | VBool false => Normal "false"
  | VNum z =>
      Normal (if Z.abs z <=? 9007199254740992 then decimal z
              else Number_toString z)
  | VNaN => Normal "NaN"
  | VStr s => Normal s
  | VArr items =>
      let fix elements (l : list value) : completion (list string) :=
        match l with
        | [] => Normal []
        | x :: rest =>
            match match x with
                  | VUndefined | VNull => Normal ""
                  | _ => to_string x
                  end with
            | TypeError e => TypeError e
            | Normal part =>
                match elements rest with
                | TypeError e => TypeError e
                | Normal parts => Normal (part :: parts)
                end
            end
        end in
      match elements items with
      | TypeError e => TypeError e
      | Normal parts => Normal (join "," parts)
      end
  | VObj fields =>
      match lookup "toString" fields with
      | Some _ => TypeError "Cannot convert object to primitive value"
      | None => Normal "[object Object]"
      end
  end.

(** ToPrimitive: an array or an object becomes its string. *)
Definition ToPrimitive `{Host} (v : value) : completion value :=
  match v with
  | VArr _ | VObj _ =>
      match to_string v with
      | TypeError e => TypeError e
      | Normal s => Normal (VStr s)
      end
  | _ => Normal v
  end.

(** ToNumber of a primitive; [None] is [NaN]. *)
Definition ToNumber `{Host} (p : value) : option Z :=
  match p with
  | VNull => Some 0
  | VBool b => Some (if b then 1 else 0)
  | VNum z => Some z
  | VStr s => StringToNumber s
  | _ => None
  end.

(** [px < py] on primitives: two strings compare as strings, anything else
    as numbers; [None] when one of the numbers is [NaN]. *)
Definition less `{Host} (px py : value) : option bool :=
  match px, py with
  | VStr a, VStr b => Some (String.ltb a b)
  | _, _ =>
      match ToNumber px, ToNumber py with
      | Some x, Some y => Some (x <? y)
      | _, _ => None
      end
  end.

(** [a > b] and [a <= b]; the left operand is converted first. *)
Definition gt `{Host} (a b : value) : completion bool :=
  match ToPrimitive a with
  | TypeError e => TypeError e
  | Normal pa =>
      match ToPrimitive b with
      | TypeError e => TypeError e
      | Normal pb =>
          Normal match less pb pa with Some r => r | None => false end
      end
  end.

Definition le `{Host} (a b : value) : completion bool :=
  match ToPrimitive a with
  | TypeError e => TypeError e
  | Normal pa =>
      match ToPrimitive b with
      | TypeError e => TypeError e
      | Normal pb =>
          Normal match less pb pa with Some r => negb r | None => false end
      end
  end.

(** [new Date(v).getTime()]; an array or an object is converted to its
    string first, which may throw. *)
Definition Date_getTime `{Host} (v : value) : completion value :=
  let clip t := if Z.abs t <=? maxTime then VNum t else VNaN in
  let parse s := match Date_parse s with Some t => clip t | None => VNaN end in
  match v with
  | VUndefined | VNaN => Normal VNaN
  | VNull => Normal (VNum 0)
  | VBool b => Normal (VNum (if b then 1 else 0))
  | VNum z => Normal (clip z)
  | VStr s => Normal (parse s)
  | VArr _ | VObj _ =>
      match to_string v with
      | TypeError e => TypeError e
      | Normal s => Normal (parse s)
      end
  end.

(** ** moment: elapsed hours and days

    [moment(t)] of an epoch millisecond is that instant in local time.  For
    [a = moment(ta)] and [b = moment(tb)], [a.diff(b, unit)] is, in moment's
    own code, [(a - b) / 36e5] for hours and [(a - b - zoneDelta) / 864e5]
    for days, with [zoneDelta = (b.utcOffset() - a.utcOffset()) * 6e4], and
    the quotient is rounded towards zero. *)

Module Moment.
Section Diff.
Context `{Host}.

(** [a.diff(b, 'hours')] *)
Definition diff_hours (ta tb : Z) : Z := (ta - tb) ÷ 3600000.

(** The change of the local offset between the two instants, in
    milliseconds. *)
Definition zoneDelta (ta tb : Z) : Z := (utcOffset tb - utcOffset ta) * 60000.

(** [a.diff(b, 'days')] *)
Definition diff_days (ta tb : Z) : Z := (ta - tb - zoneDelta ta tb) ÷ 86400000.
End Diff.
End Moment.
Import Moment.

(** ** Treatments and their age *)

(** A treatment record as the age selection reads it: [mills] is the epoch
    millisecond of the event. *)
Record treatment : Type := Treatment {
  eventType : value;
  mills : Z
}.

(** The Age Info the selection fills in. *)
Record treatmentInfo : Type := TreatmentInfo {
  found : bool;
  age : Z;
  days : Z;
  hours : Z;
  millis : Z
}.

Definition noTreatment : treatmentInfo :=
  {| found := false; age := 0; days := 0; hours := 0; millis := 0 |}.

Section Age.
Context `{Host}.

(** The body of the [forEach] callback: the state is [prevDate] and the
    [treatmentInfo] being filled in. *)
Definition visit (now : Z) (st : Z * treatmentInfo) (t : treatment)
  : Z * treatmentInfo :=
  let '(prevDate, info) := st in
  let treatmentDate := mills t in
  if (treatmentDate >? prevDate) && (treatmentDate <=? now) then
    let days_ := diff_days now treatmentDate in
    let hours_ := diff_hours now treatmentDate - days_ * 24 in
    let age_ := diff_hours now treatmentDate in
    if negb (found info) || ((age_ >=? 0) && (age_ <? age info)) then
      (treatmentDate,
       {| found := true; age := age_; days := days_; hours := hours_;
          millis := treatmentDate |})
    else (treatmentDate, info)
  else (prevDate, info).

(** [_getLatestTreatmentsInfo(treatments)], with [now] the value of
    [Date.now()] read inside it.  The guard on [treatments.length] is the
    empty case of the fold. *)
Definition _getLatestTreatmentsInfo (now : Z) (treatments : list treatment)
  : treatmentInfo :=
  match treatments with
  | [] => noTreatment
  | _ => snd (fold_left (visit now) treatments (0, noTreatment))
  end.

(** The [then] callback of [_recalcAges]: [treatmentDate] is [state.val]
    of the stored [changed] state. *)
Definition recalc (now treatmentDate : Z) : treatmentInfo :=
  let days_ := diff_days now treatmentDate in
  let hours_ := diff_hours now treatmentDate - days_ * 24 in
  let age_ := diff_hours now treatmentDate in
  {| found := true; age := age_; days := days_; hours := hours_;
     millis := treatmentDate |}.
End Age.

(** *** The selection on the records as they come

    [treatment.mills] of a decoded record may be any value: the two
    comparisons of the loop convert it, and [moment] makes of it what it
    can.  The info then holds values: an age is a number, or [NaN] when the
    moment is invalid, and [millis] is the [mills] as it came. *)

Record rawInfo : Type := {
  rfound : bool;
  rage : value;
  rdays : value;
  rhours : value;
  rmillis : value
}.

Definition rawNone : rawInfo :=
  {| rfound := false; rage := VNum 0; rdays := VNum 0; rhours := VNum 0;
     rmillis := VNum 0 |}.

(** The typed info as the values the handler sets. *)
Definition asRaw (info : treatmentInfo) : rawInfo :=
  {| rfound := found info; rage := VNum (age info); rdays := VNum (days info);
     rhours := VNum (hours info); rmillis := VNum (millis info) |}.

Section RawAge.
Context `{Host}.

(** [moment(v)]: a number in the range of a [Date] is that instant, a
    number outside it, [NaN] and [null] are invalid, anything else is the
    host's ([undefined] never passes the comparisons before it). *)
Definition moment (v : value) : option Z :=
  match v with
  | VNum z => if Z.abs z <=? maxTime then Some z else None
  | VNull | VNaN => None
  | _ => moment_valueOf v
  end.

(** The body of the [forEach] callback on a decoded record. *)
Definition rawVisit (now : Z) (st : value * rawInfo) (t : value)
  : completion (value * rawInfo) :=
  let '(prevDate, info) := st in
  match get t "mills" with
  | TypeError e => TypeError e
  | Normal treatmentDate =>
      match gt treatmentDate prevDate with
      | TypeError e => TypeError e
      | Normal false => Normal (prevDate, info)
      | Normal true =>
          match le treatmentDate (VNum now) with
          | TypeError e => TypeError e
          | Normal false => Normal (prevDate, info)
          | Normal true =>
              let b := moment treatmentDate in
              let days_ := match b with
                           | Some tb => VNum (diff_days now tb)
                           | None => VNaN
                           end in
              let hours_ := match b with
                            | Some tb =>
                                VNum (diff_hours now tb - diff_days now tb * 24)
                            | None => VNaN
                            end in
              let age_ := match b with
                          | Some tb => VNum (diff_hours now tb)
                          | None => VNaN
                          end in
              let notNegative :=
                match less age_ (VNum 0) with
                | Some r => negb r
                | None => false
                end in
              let closer :=
                match less age_ (rage info) with
                | Some r => r
                | None => false
                end in
              if negb (rfound info) || (notNegative && closer) then
                Normal (treatmentDate,
                        {| rfound := true; rage := age_; rdays := days_;
                           rhours := hours_; rmillis := treatmentDate |})
              else Normal (treatmentDate, info)
          end
      end
  end.

Fixpoint rawForEach (now : Z) (treatments : list value) (st : value * rawInfo)
  : completion (value * rawInfo) :=
  match treatments with
  | [] => Normal st
  | t :: rest =>
      match rawVisit now st t with
      | TypeError e => TypeError e
      | Normal st' => rawForEach now rest st'
      end
  end.

(** [_getLatestTreatmentsInfo(treatments)] on decoded records, with [now]
    the value of [Date.now()] read inside it. *)
Definition selectLatest (now : Z) (treatments : list value) : completion rawInfo :=
  match treatments with
  | [] => Normal rawNone
  | _ =>
      match rawForEach now treatments (VNum 0, rawNone) with
      | TypeError e => TypeError e
      | Normal st => Normal (snd st)
      end
  end.
End RawAge.

(** ** What the client does to the outside *)

(** The second argument of [adapter.setState]: a state object
    [{ts, ack, val}], a bare value with the [ack] flag, or the
    [JSON.stringify] of a payload (kept as the payload) with the flag. *)
Inductive state_arg : Type :=
| StateObj (ts : value) (ack : bool) (val : value)
| StateVal (val : value) (ack : bool)
| StateJson (payload : value) (ack : bool).

Inductive level : Type := debug | error.

Inductive effect : Type :=
| SetState (id : string) (st : state_arg)
| GetStateAsync (id : string)
| Log (lvl : level) (msg : string)
| Emit (event : string) (arg : bool)
| SocketEmit (event : string) (client : string) (secret : value) (history : Z)
| SocketClose.

(** ** Handlers as computations

    The client object: the Dedup Cursor [previousNotifyTimestamp], the
    credential and the transport handle [nsSocket] ([None] is [null]). *)
Record NightscoutClient : Type := {
  previousNotifyTimestamp : value;
  secretHash : value;
  nsSocket : option string
}.

(** [new NightscoutClient(adapter, URL, secretHash)]: the cursor starts at
    [null] and the socket is created.  The credential is the given hash;
    without one it is the SHA-1 digest [sha1] of the configured
    [remoteSecret] when there is one, and [null] otherwise. *)
Definition NightscoutClient_new (URL : string) (hash remoteSecret : value)
  (sha1 : value -> value) : NightscoutClient :=
  {| previousNotifyTimestamp := VNull;
     secretHash := if negb (truthy hash) && truthy remoteSecret
                   then sha1 remoteSecret
                   else or_else hash VNull;
     nsSocket := Some URL |}.

(** What a handler runs on: the client and the number of readings of the
    clock made so far. *)
Record machine : Type := {
  this : NightscoutClient;
  reads : nat
}.

(** A handler reads and writes the client, reads the clock ([Date.now()],
    the [n]-th reading is [clock n]), performs effects in order, and returns
    or throws.  What was written and performed before a throw stays. *)
Definition M (A : Type) : Type :=
  (nat -> Z) -> machine -> completion A * list effect * machine.

Definition ret {A} (a : A) : M A := fun _ s => (Normal a, [], s).

Definition bind {A B} (m : M A) (k : A -> M B) : M B :=
  fun clock s =>
    match m clock s with
    | (Normal a, out, s') =>
        let '(r, out', s'') := k a clock s' in (r, out ++ out', s'')
    | (TypeError e, out, s') => (TypeError e, out, s')
    end.

Definition lift {A} (c : completion A) : M A := fun _ s => (c, [], s).

Definition tell (e : effect) : M unit := fun _ s => (Normal tt, [e], s).

Definition Date_now : M Z :=
  fun clock s =>
    (Normal (clock (reads s)), [], {| this := this s; reads := S (reads s) |}).

Definition get_this : M NightscoutClient := fun _ s => (Normal (this s), [], s).

Definition set_this (c : NightscoutClient) : M unit :=
  fun _ s => (Normal tt, [], {| this := c; reads := reads s |}).

(** [try { body } catch (error) { handler(error) }]. *)
Definition try_catch (body : M unit) (handler : string -> M unit) : M unit :=
  fun clock s =>
    match body clock s with
    | (Normal a, out, s') => (Normal a, out, s')
    | (TypeError e, out, s') =>
        let '(r, out', s'') := handler e clock s' in (r, out ++ out', s'')
    end.

Notation "'let*' x ':=' m 'in' k" := (bind m (fun x => k))
  (at level 10, x name, m at level 100, k at level 200).
Notation "m ;; k" := (bind m (fun _ => k))
  (at level 100, k at level 200, right associativity).

Definition result {A} (r : completion A * list effect * machine) : completion A :=
  fst (fst r).
Definition outputs {A} (r : completion A * list effect * machine) : list effect :=
  snd (fst r).
Definition after {A} (r : completion A * list effect * machine) : machine :=
  snd r.

Definition setState (id : string) (st : state_arg) : M unit :=
  tell (SetState id st).
Definition log (lvl : level) (msg : string) : M unit := tell (Log lvl msg).
Definition prop (o : value) (k : string) : M value := lift (get o k).

(** [o && o.k]. *)
Definition and_prop (o : value) (k : string) : M value :=
  if truthy o then prop o k else ret o.

Definition when (c : value) (m : M unit) : M unit :=
  if truthy c then m else ret tt.

(** [a.filter(p)]: only an array has it; [p] may throw. *)
Fixpoint filter_items (p : value -> completion bool) (items : list value)
  : completion (list value) :=
  match items with
  | [] => Normal []
  | x :: rest =>
      match p x with
      | TypeError e => TypeError e
      | Normal b =>
          match filter_items p rest with
          | TypeError e => TypeError e
          | Normal kept => Normal (if b then x :: kept else kept)
          end
      end
  end.

Definition filter (a : value) (p : value -> completion bool)
  : completion (list value) :=
  match a with
  | VArr items => filter_items p items
  | _ => TypeError "filter is not a function"
  end.

(** [treatment.eventType && treatment.eventType.includes('Site Change')] *)
Definition isSiteChange (t : value) : completion bool :=
  match get t "eventType" with
  | TypeError e => TypeError e
  | Normal et => if truthy et then includes et "Site Change" else Normal false
  end.

(** [treatment.eventType && (treatment.eventType.includes('Sensor Start') ||
    treatment.eventType.includes('Sensor Change'))] *)
Definition isSensorChange (t : value) : completion bool :=
  match get t "eventType" with
  | TypeError e => TypeError e
  | Normal et =>
      if truthy et then
        match includes et "Sensor Start" with
        | TypeError e => TypeError e
        | Normal true => Normal true
        | Normal false => includes et "Sensor Change"
        end
      else Normal false
  end.

(** The typed view of a decoded record whose [mills] is a number; a record
    without one has no typed view.  The handler works on the records as
    they come ([selectLatest]); on records that all have a typed view, or a
    [mills] that is missing, the two agree ([selectLatest_numbers]). *)
Definition as_treatment (t : value) : option treatment :=
  match get t "eventType", get t "mills" with
  | Normal et, Normal (VNum z) => Some {| eventType := et; mills := z |}
  | _, _ => None
  end.

Fixpoint candidates (ts : list value) : list treatment :=
  match ts with
  | [] => []
  | t :: rest =>
      match as_treatment t with
      | Some c => c :: candidates rest
      | None => candidates rest
      end
  end.

(** The state object [getStateAsync] resolves to; the client reads the
    [changed] states, whose [val] is an epoch millisecond. *)
Record ioState : Type := { val : Z }.

Section Client.
Context `{Host}.

(** The call [this._getLatestTreatmentsInfo(treatments)]: the clock is read
    when the list is not empty. *)
Definition getLatestTreatmentsInfo (treatments : list value) : M rawInfo :=
  match treatments with
  | [] => ret rawNone
  | _ => let* now := Date_now in lift (selectLatest now treatments)
  end.

(** [this._recalcAges(baseId)] starts the read of the stored [changed]. *)
Definition _recalcAges (baseId : string) : M unit :=
  tell (GetStateAsync (baseId ++ ".changed")%string).

(** The callback of that read, run when the store answers. *)
Definition _recalcAges_then (baseId : string) (state : option ioState) : M unit :=
  match state with
  | Some st =>
      let* now := Date_now in
      let info := recalc now (val st) in
      setState (baseId ++ ".age")%string (StateObj (VNum now) true (VNum (age info))) ;;
      setState (baseId ++ ".days")%string (StateObj (VNum now) true (VNum (days info))) ;;
      setState (baseId ++ ".hours")%string (StateObj (VNum now) true (VNum (hours info)))
  | None => ret tt
  end.

(** The store answers the read [_recalcAges baseId] started with the state
    it holds under that id, and the callback runs on the answer. *)
Definition answer_recalcAges (getState : string -> option ioState)
  (baseId : string) : M unit :=
  _recalcAges_then baseId (getState (baseId ++ ".changed")%string).

(** The four facts of a category whose treatment was found. *)
Definition emitAge (baseId : string) (now : Z) (info : rawInfo) : M unit :=
  setState (baseId ++ ".age")%string (StateObj (VNum now) true (rage info)) ;;
  setState (baseId ++ ".days")%string (StateObj (VNum now) true (rdays info)) ;;
  setState (baseId ++ ".hours")%string (StateObj (VNum now) true (rhours info)) ;;
  let* changed := lift (Date_getTime (rmillis info)) in
  setState (baseId ++ ".changed")%string (StateObj (rmillis info) true changed).

Definition devicestatusPart (ts dataUpdate : value) : M unit :=
  let* devicestatus := prop dataUpdate "devicestatus" in
  let* c := and_prop devicestatus "length" in
  when c (
    let* status := lift (pop devicestatus) in
    let* device := prop status "device" in
    setState "data.device" (StateVal device true) ;;
    let* pump := prop status "pump" in
    when pump (
      let* clock := prop pump "clock" in
      let* time := lift (Date_getTime clock) in
      setState "data.clock" (StateObj ts true time) ;;
      let* reservoir := prop pump "reservoir" in
      setState "data.reservoir" (StateObj ts true reservoir) ;;
      let* iob := prop pump "iob" in
      when iob (
        let* bolusiob := prop iob "bolusiob" in
        setState "data.bolusiob" (StateObj ts true bolusiob)) ;;
      let* battery := prop pump "battery" in
      when battery (
        let* percent := prop battery "percent" in
        setState "data.pumpBattery" (StateObj ts true percent)) ;;
      let* pstatus := prop pump "status" in
      when pstatus (
        let* bolusing := prop pstatus "bolusing" in
        setState "data.bolusing" (StateObj ts true bolusing) ;;
        let* label := prop pstatus "status" in
        setState "data.status" (StateObj ts true label) ;;
        let* suspended := prop pstatus "suspended" in
        setState "data.suspended" (StateObj ts true suspended))) ;;
    let* uploader := prop status "uploader" in
    when uploader (
      let* battery := prop uploader "battery" in
      setState "data.uploaderBattery" (StateVal battery true))).

Definition sgvsPart (dataUpdate : value) : M unit :=
  let* sgvs := prop dataUpdate "sgvs" in
  let* c := and_prop sgvs "length" in
  when c (
    let* sgv := lift (pop sgvs) in
    let* ts := prop sgv "mills" in
    let* mgdl := prop sgv "mgdl" in
    setState "data.mgdl" (StateObj ts true mgdl) ;;
    let* ts := prop sgv "mills" in
    let* scaled := prop sgv "scaled" in
    setState "data.mgdlScaled" (StateObj ts true scaled) ;;
    let* ts := prop sgv "mills" in
    let* direction := prop sgv "direction" in
    setState "data.mgdlDirection" (StateObj ts true direction)).

(** The treatments of one category: [true] when its facts were emitted. *)
Definition category (baseId : string) (p : value -> completion bool)
  (now : Z) (treatments : value) : M bool :=
  let* selected := lift (filter treatments p) in
  let* info := getLatestTreatmentsInfo selected in
  if rfound info then emitAge baseId now info ;; ret true else ret false.

(** Returns [(siteChangeUpdated, sensorUpdated)]. *)
Definition treatmentsPart (now : Z) (dataUpdate : value) : M (bool * bool) :=
  let* treatments := prop dataUpdate "treatments" in
  let* c := and_prop treatments "length" in
  if truthy c then
    let* siteChangeUpdated := category "data.cage" isSiteChange now treatments in
    let* sensorUpdated := category "data.sage" isSensorChange now treatments in
    ret (siteChangeUpdated, sensorUpdated)
  else ret (false, false).

Definition foodPart (dataUpdate : value) : M unit :=
  let* food := prop dataUpdate "food" in
  let* c := and_prop food "length" in
  when c (let* sitechangeTreatments := lift (filter food isSiteChange) in ret tt).

Definition recoveryPart (flags : bool * bool) : M unit :=
  let '(siteChangeUpdated, sensorUpdated) := flags in
  (if negb siteChangeUpdated then
     log debug "[CLIENT] No cannula treatments found. Recalculate age" ;;
     _recalcAges "data.cage"
   else ret tt) ;;
  (if negb sensorUpdated then
     log debug "[CLIENT] No sensor treatments found. Recalculate age" ;;
     _recalcAges "data.sage"
   else ret tt).

(** The body of the [try] block of the [dataUpdate] handler. *)
Definition dataUpdate_body (dataUpdate : value) : M unit :=
  setState "data.rawUpdate" (StateJson dataUpdate true) ;;
  when dataUpdate (
    let* now := Date_now in
    let* lastUpdated := prop dataUpdate "lastUpdated" in
    let ts := or_else lastUpdated (VNum now) in
    when lastUpdated (setState "data.lastUpdate" (StateVal lastUpdated true)) ;;
    devicestatusPart ts dataUpdate ;;
    sgvsPart dataUpdate ;;
    let* flags := treatmentsPart now dataUpdate in
    foodPart dataUpdate ;;
    recoveryPart flags).

Definition on_dataUpdate (dataUpdate : value) : M unit :=
  log debug "[CLIENT] dataUpdate: " ;;
  try_catch (dataUpdate_body dataUpdate)
            (fun e => log error ("[CLIENT] Parse Error: " ++ e)%string).

(** *** The other handlers *)

Definition set_previousNotifyTimestamp (v : value) : M unit :=
  let* c := get_this in
  set_this {| previousNotifyTimestamp := v;
              secretHash := secretHash c;
              nsSocket := nsSocket c |}.

Definition set_nsSocket (h : option string) : M unit :=
  let* c := get_this in
  set_this {| previousNotifyTimestamp := previousNotifyTimestamp c;
              secretHash := secretHash c;
              nsSocket := h |}.

Definition on_disconnect : M unit :=
  tell (Emit "connection" false) ;;
  log debug "[CLIENT] own client disconnected".

Definition on_connect : M unit :=
  set_previousNotifyTimestamp VNull ;;
  log debug "[CLIENT] own client connected" ;;
  tell (Emit "connection" true) ;;
  let* c := get_this in
  match nsSocket c with
  | Some _ => tell (SocketEmit "authorize" "iobroker" (secretHash c) 48)
  | None => lift (TypeError "Cannot read property 'emit'")
  end.

(** The callback of [authorize]. *)
Definition on_authorized (data : value) : M unit :=
  let* read := prop data "read" in
  if truthy read then ret tt else log error "Cannot authenticate: ".

Definition on_notification (data : value) : M unit :=
  log debug "[CLIENT] notification: " ;;
  when data (
    let* timestamp := prop data "timestamp" in
    let* c := get_this in
    if truthy timestamp && strict_eq timestamp (previousNotifyTimestamp c)
    then ret tt
    else
      when timestamp (set_previousNotifyTimestamp timestamp) ;;
      let* ts := lift (Date_getTime (or_else timestamp VUndefined)) in
      let* ts' := (if truthy ts then ret ts
                   else let* now := Date_now in ret (VNum now)) in
      let* title := prop data "title" in
      let* title' := lift (to_string title) in
      let* message := prop data "message" in
      let* message' := lift (to_string message) in
      setState "data.notification"
        (StateObj ts' true (VStr (title' ++ " " ++ message')%string))).

Definition on_announcement (data : value) : M unit :=
  let* text := lift (to_string data) in
  log debug ("[CLIENT] announcement: " ++ text)%string.

(** [data && data.level && data.level === n] *)
Definition levelIs (data : value) (n : Z) : M value :=
  if truthy data then
    let* level := prop data "level" in
    if truthy level then ret (VBool (strict_eq level (VNum n))) else ret level
  else ret data.

Definition on_alarm (data : value) : M unit :=
  log debug "[CLIENT] alarm: " ;;
  let* v := levelIs data 1 in
  setState "data.alarm" (StateVal v true).

Definition on_urgent_alarm (data : value) : M unit :=
  log debug "[CLIENT] urgentAlarm: " ;;
  let* v := levelIs data 2 in
  setState "data.urgentAlarm" (StateVal v true).

Definition on_clear_alarm (data : value) : M unit :=
  log debug "[CLIENT] clear_alarm: " ;;
  let* clear := prop data "clear" in
  when clear (
    setState "data.alarm" (StateVal (VBool false) true) ;;
    setState "data.urgentAlarm" (StateVal (VBool false) true)).

Definition on_retroUpdate (retroData : value) : M unit :=
  log debug "[CLIENT] retroUpdate".

(** [this.close()] *)
Definition close : M unit :=
  let* c := get_this in
  match nsSocket c with
  | Some _ => tell SocketClose ;; set_nsSocket None
  | None => ret tt
  end.

(** *** The events of the socket and their dispatch *)

Inductive event : Type :=
| connect
| disconnect
| notification (data : value)
| announcement (data : value)
| alarm (data : value)
| urgent_alarm (data : value)
| clear_alarm (data : value)
| dataUpdate (data : value)
| retroUpdate (data : value).

Definition handle (ev : event) : M unit :=
  match ev with
  | connect => on_connect
  | disconnect => on_disconnect
  | notification data => on_notification data
  | announcement data => on_announcement data
  | alarm data => on_alarm data
  | urgent_alarm data => on_urgent_alarm data
  | clear_alarm data => on_clear_alarm data
  | dataUpdate data => on_dataUpdate data
  | retroUpdate data => on_retroUpdate data
  end.

(** The socket delivers events one at a time; what each handler did, and
    the machine the next one starts from.  An error a handler throws is
    left to the socket library; the next event finds the client as the
    handler left it. *)
Fixpoint deliver (clock : nat -> Z) (evs : list event) (s : machine)
  : list (completion unit * list effect) * machine :=
  match evs with
  | [] => ([], s)
  | ev :: rest =>
      let '(r, out, s') := handle ev clock s in
      let '(log, s'') := deliver clock rest s' in
      ((r, out) :: log, s'')
  end.

End Client.

(** The facts ([setState] calls) among the effects, by id. *)
Definition setsId (id : string) (e : effect) : bool :=
  match e with
  | SetState id' _ => (id =? id')%string
  | _ => false
  end.

(** ** What the age selection is compared with *)

(** The candidates the running maximum lets through, in order: a record is
    accepted when it is later than the last accepted one (later than
    [prevDate]) and not after [now]. *)
Fixpoint accepted (now prevDate : Z) (treatments : list treatment) : list Z :=
  match treatments with
  | [] => []
  | t :: rest =>
      if (mills t >? prevDate) && (mills t <=? now)
      then mills t :: accepted now (mills t) rest
      else accepted now prevDate rest
  end.

(** A timestamp strictly greater than 0 and not after [now]. *)
Definition qualifies (now : Z) (t : treatment) : bool :=
  (0 <? mills t) && (mills t <=? now).

(** The latest qualifying timestamp of a list; 0 when there is none. *)
Fixpoint latest (now : Z) (treatments : list treatment) : Z :=
  match treatments with
  | [] => 0
  | t :: rest =>
      if qualifies now t then Z.max (mills t) (latest now rest)
      else latest now rest
  end.

(** The reference the selection is compared with: take the latest
    timestamp that is not in the future, and compute its age. *)
Definition reference `{Host} (now : Z) (treatments : list treatment)
  : treatmentInfo :=
  if 0 <? latest now treatments then recalc now (latest now treatments)
  else noTreatment.

(** ** What the statements are written with *)

(** What holds of [prevDate] and the info after any number of visits;
    [acc] lists the records accepted so far. *)
Definition selection_inv `{Host} (now : Z) (acc : list Z) (st : Z * treatmentInfo) : Prop :=
  let '(prevDate, info) := st in
  0 <= prevDate /\
  (found info = false -> acc = [] /\ prevDate = 0 /\ info = noTreatment) /\
  (found info = true ->
     In (millis info) acc /\ In prevDate acc /\
     age info = diff_hours now (millis info) /\
     days info = diff_days now (millis info) /\
     hours info = age info - days info * 24 /\
     (forall c, In c acc ->
        0 < c /\ c <= prevDate /\ c <= now /\ age info <= diff_hours now c)).

(** ** Hosts *)

(** The number of a string of decimal digits, 0 for the empty string. *)
Fixpoint numeral (s : string) (acc : Z) : option Z :=
  match s with
  | EmptyString => Some acc
  | String c rest =>
      let d := Z.of_N (N_of_ascii c) - 48 in
      if (0 <=? d) && (d <=? 9) then numeral rest (acc * 10 + d) else None
  end.

(** A host on UTC, as far as the examples ask: its [Date.parse] reads the
    ISO form of the epoch, a string converts to a number when it is a
    plain numeral, and [moment] makes nothing of a value that is not a
    number.  The numbers of the examples are below 2^53. *)
Definition utc : Host :=
  {| utcOffset := fun _ => 0;
     Date_parse := fun s =>
       if (s =? "1970-01-01T00:00:00.000Z")%string then Some 0 else None;
     Number_toString := decimal;
     StringToNumber := fun s => numeral s 0;
     moment_valueOf := fun _ => None |}.

(** A host on Europe/Berlin around 25 October 2020, 01:00 UTC, the end of
    daylight-saving time: the offset goes from 120 to 60 minutes.  Its
    examples have numbers only. *)
Definition berlin : Host :=
  {| utcOffset := fun t => if t <? 1603587600000 then 120 else 60;
     Date_parse := fun _ => None;
     Number_toString := decimal;
     StringToNumber := fun _ => None;
     moment_valueOf := fun _ => None |}.

(** Three site changes, 50, 10 and 5 hours before 1600000000000. *)
Definition site_changes : list treatment :=
  [ {| eventType := VStr "Site Change"; mills := 1599820000000 |};
    {| eventType := VStr "Site Change"; mills := 1599964000000 |};
    {| eventType := VStr "Pump Site Change"; mills := 1599982000000 |} ].

(** A store that holds a cannula change of 30 hours before
    1600000000000, and no sensor change. *)
Definition stored_cage (id : string) : option ioState :=
  if (id =? "data.cage.changed")%string then Some {| val := 1599892000000 |}
  else None.

(** Every effect of [m] satisfies [P]. *)
Definition emits (P : effect -> Prop) {A} (m : M A) : Prop :=
  forall clock s, Forall P (outputs (m clock s)).

(** The property [k] of a payload, [undefined] where there is none. *)
Definition field (o : value) (k : string) : value :=
  match get o k with
  | Normal v => v
  | TypeError _ => VUndefined
  end.

(** The ids of the facts read off a device status. *)
Definition deviceIds : list string :=
  [ "data.device"; "data.clock"; "data.reservoir"; "data.bolusiob";
    "data.pumpBattery"; "data.bolusing"; "data.status"; "data.suspended";
    "data.uploaderBattery" ].

Definition isDeviceFact (e : effect) : bool :=
  existsb (fun id => setsId id e) deviceIds.

(** The client with the cursor moved to [timestamp]. *)
Definition remember (timestamp : value) (c : NightscoutClient) : NightscoutClient :=
  {| previousNotifyTimestamp := timestamp;
     secretHash := secretHash c;
     nsSocket := nsSocket c |}.

(** The [data.notification] fact, with [ts] its time and the title and
    the message as strings. *)
Definition notificationFact (ts : value) (title message : string) : effect :=
  SetState "data.notification"
    (StateObj ts true (VStr (title ++ " " ++ message)%string)).

(** What line 64 and the template of line 65 convert, in that order: the
    time of the timestamp, the title and the message. *)
Definition conversions `{Host} (data : value) : completion (value * string * string) :=
  match Date_getTime (or_else (field data "timestamp") VUndefined) with
  | TypeError e => TypeError e
  | Normal time =>
      match to_string (field data "title") with
      | TypeError e => TypeError e
      | Normal title =>
          match to_string (field data "message") with
          | TypeError e => TypeError e
          | Normal message => Normal (time, title, message)
          end
      end
  end.

(** Whether a run set [data.notification]. *)
Definition notified {A} (r : completion A * list effect * machine) : bool :=
  existsb (setsId "data.notification") (outputs r).

(** The facts of a found treatment, and those the recovery sets. *)
Definition ageFact (id : string) (now v : Z) : effect :=
  SetState id (StateObj (VNum now) true (VNum v)).

Definition recoveredFacts (baseId : string) (now : Z) (info : treatmentInfo)
  : list effect :=
  [ ageFact (baseId ++ ".age") now (age info);
    ageFact (baseId ++ ".days") now (days info);
    ageFact (baseId ++ ".hours") now (hours info) ].

Definition freshFacts (baseId : string) (now : Z) (info : rawInfo)
  (changed : value) : list effect :=
  [ SetState (baseId ++ ".age") (StateObj (VNum now) true (rage info));
    SetState (baseId ++ ".days") (StateObj (VNum now) true (rdays info));
    SetState (baseId ++ ".hours") (StateObj (VNum now) true (rhours info));
    SetState (baseId ++ ".changed") (StateObj (rmillis info) true changed) ].

(** The records of the treatments of a payload that the filter [p] of a
    category keeps; none when the payload has no treatments. *)
Definition selected (p : value -> completion bool) (data : value) : list value :=
  let treatments := field data "treatments" in
  if truthy treatments && truthy (field treatments "length") then
    match filter treatments p with
    | Normal kept => kept
    | TypeError _ => []
    end
  else [].

(** The treatment the pass that starts at [s] selects for a category: the
    clock is read once at the start of the pass, once more for the cannula
    when there are site changes, and then for the sensor. *)
Definition selection `{Host} (baseId : string) (data : value) (clock : nat -> Z)
  (s : machine) : completion rawInfo :=
  let cannula := selected isSiteChange data in
  if (baseId =? "data.cage")%string then
    selectLatest (clock (S (reads s))) cannula
  else
    selectLatest
      (clock (match cannula with [] => S (reads s) | _ => S (S (reads s)) end))
      (selected isSensorChange data).

(** A record whose [mills] is a number, or is missing, [null], [false] or
    [NaN]. *)
Definition plain (t : value) : bool :=
  match get t "mills" with
  | Normal (VNum _ | VUndefined | VNull | VBool false | VNaN) => true
  | _ => false
  end.

(** Effects on a [changed] state: setting it, or starting to read it. *)
Definition touchesChanged (e : effect) : bool :=
  match e with
  | SetState id _ =>
      (id =? "data.cage.changed")%string || (id =? "data.sage.changed")%string
  | GetStateAsync _ => true
  | _ => false
  end.

Definition readsState (id : string) (e : effect) : bool :=
  match e with
  | GetStateAsync id' => (id =? id')%string
  | _ => false
  end.

(** [k] calls of [close] in a row. *)
Fixpoint close_times (k : nat) : M unit :=
  match k with
  | O => ret tt
  | S k' => close ;; close_times k'
  end.

Definition isSocketClose (e : effect) : bool :=
  match e with
  | SocketClose => true
  | _ => false
  end.

(** ** What the further statements are written with *)

(** The effects of a run of events, in the order performed. *)
Definition transcript (log : list (completion unit * list effect)) : list effect :=
  List.concat (List.map snd log).

(** The last connection status the client told its observers. *)
Fixpoint lastEmit (out : list effect) : option bool :=
  match out with
  | [] => None
  | e :: rest =>
      match lastEmit rest with
      | Some b => Some b
      | None =>
          match e with
          | Emit event b => if (event =? "connection")%string then Some b else None
          | _ => None
          end
      end
  end.

(** The last of the events [connect] and [disconnect] among those
    delivered. *)
Fixpoint lastStatus (evs : list event) : option bool :=
  match evs with
  | [] => None
  | ev :: rest =>
      match lastStatus rest with
      | Some b => Some b
      | None =>
          match ev with
          | connect => Some true
          | disconnect => Some false
          | _ => None
          end
      end
  end.

(** What was last set under an id. *)
Fixpoint lastSet (id : string) (out : list effect) : option state_arg :=
  match out with
  | [] => None
  | e :: rest =>
      match lastSet id rest with
      | Some st => Some st
      | None =>
          match e with
          | SetState id' st => if (id =? id')%string then Some st else None
          | _ => None
          end
      end
  end.

(** A state is set acknowledged. *)
Definition acked (e : effect) : bool :=
  match e with
  | SetState _ (StateObj _ ack _) => ack
  | SetState _ (StateVal _ ack) => ack
  | SetState _ (StateJson _ ack) => ack
  | _ => true
  end.

(** The ids of the states of the adapter. *)
Definition stateKeys : list string :=
  [ "data.notification"; "data.alarm"; "data.urgentAlarm"; "data.rawUpdate";
    "data.lastUpdate"; "data.device"; "data.clock"; "data.reservoir";
    "data.bolusiob"; "data.pumpBattery"; "data.bolusing"; "data.status";
    "data.suspended"; "data.uploaderBattery"; "data.mgdl"; "data.mgdlScaled";
    "data.mgdlDirection";
    "data.cage.age"; "data.cage.days"; "data.cage.hours"; "data.cage.changed";
    "data.sage.age"; "data.sage.days"; "data.sage.hours"; "data.sage.changed" ].

(** An effect on the store stays within those ids, and reads only the two
    [changed] states. *)
Definition knownKey (e : effect) : bool :=
  match e with
  | SetState id _ => existsb (String.eqb id) stateKeys
  | GetStateAsync id =>
      (id =? "data.cage.changed")%string || (id =? "data.sage.changed")%string
  | _ => true
  end.

(** The cursor holds [null] or a truthy timestamp. *)
Definition cursor_ok (c : NightscoutClient) : Prop :=
  previousNotifyTimestamp c = VNull \/ truthy (previousNotifyTimestamp c) = true.

(** From [c] to [c'] the credential and the transport handle are kept, and
    so is a cursor that is [null] or truthy. *)
Definition evolves (c c' : NightscoutClient) : Prop :=
  secretHash c' = secretHash c /\
  nsSocket c' = nsSocket c /\
  (cursor_ok c -> cursor_ok c').

(** Every run of [m] takes the client to one it [evolves] to. *)
Definition evolving {A} (m : M A) : Prop :=
  forall clock s, evolves (this s) (this (after (m clock s))).

(** [sub] occurs in [s]. *)
Definition occurs (sub s : string) : Prop :=
  exists pre post, s = (pre ++ sub ++ post)%string.

(** An effect on the age states of a category. *)
Definition touchesAge (e : effect) : bool :=
  match e with
  | SetState id _ => String.prefix "data.cage." id || String.prefix "data.sage." id
  | GetStateAsync _ => true
  | _ => false
  end.

(** The only effects of a pass that throws at its device status or at its
    treatments before anything of them is set: the raw mirror and the time
    of the last update. *)
Definition preamble (e : effect) : bool :=
  match e with
  | SetState id _ => (id =? "data.rawUpdate")%string || (id =? "data.lastUpdate")%string
  | _ => false
  end.

(** The facts of a device status: the seven of the pump are state objects
    with the time [ts] of the pass, the device and the battery of the
    uploader are bare values. *)
Definition deviceShape (ts : value) (e : effect) : Prop :=
  match e with
  | SetState id (StateObj ts' ack _) =>
      ts' = ts /\ ack = true /\
      In id [ "data.clock"; "data.reservoir"; "data.bolusiob"; "data.pumpBattery";
              "data.bolusing"; "data.status"; "data.suspended" ]
  | SetState id (StateVal _ ack) =>
      ack = true /\ In id ["data.device"; "data.uploaderBattery"]
  | _ => False
  end.

(** [m] throws in every run, and every effect it performed satisfies [P]. *)
Definition fails (P : effect -> Prop) {A} (m : M A) : Prop :=
  forall clock s,
    (exists e, result (m clock s) = TypeError e) /\ Forall P (outputs (m clock s)).

(** The three facts of a glucose reading. *)
Definition sgvFacts (sgv : value) : list effect :=
  [ SetState "data.mgdl" (StateObj (field sgv "mills") true (field sgv "mgdl"));
    SetState "data.mgdlScaled" (StateObj (field sgv "mills") true (field sgv "scaled"));
    SetState "data.mgdlDirection"
      (StateObj (field sgv "mills") true (field sgv "direction")) ].

(** The cursor after a run of events, from the cursor before it: a
    [connect] makes it [null], a notification that is there with a truthy
    timestamp makes it that timestamp, and nothing else moves it. *)
Fixpoint cursorAfter (evs : list event) (cursor : value) : value :=
  match evs with
  | [] => cursor
  | ev :: rest =>
      cursorAfter rest
        match ev with
        | connect => VNull
        | notification data =>
            if truthy data && truthy (field data "timestamp")
            then field data "timestamp" else cursor
        | _ => cursor
        end
  end.

(** No run of [m] changes the client. *)
Definition keeps {A} (m : M A) : Prop :=
  forall clock s, this (after (m clock s)) = this s.

(** No run of [m] changes the client or reads the clock. *)
Definition still {A} (m : M A) : Prop :=
  forall clock s, after (m clock s) = s.

(** The pass over a payload that is there, from the raw mirror to the
    treatments (lines 93 to 166): what comes before the food records and
    the recovery. *)
Definition throughTreatments `{Host} (dataUpdate : value) : M (bool * bool) :=
  setState "data.rawUpdate" (StateJson dataUpdate true) ;;
  let* now := Date_now in
  let* lastUpdated := prop dataUpdate "lastUpdated" in
  let ts := or_else lastUpdated (VNum now) in
  when lastUpdated (setState "data.lastUpdate" (StateVal lastUpdated true)) ;;
  devicestatusPart ts dataUpdate ;;
  sgvsPart dataUpdate ;;
  treatmentsPart now dataUpdate.

(** The reads of the recovery step for the categories not found. *)
Definition recoveryReads (flags : bool * bool) : list effect :=
  (if fst flags then []
   else [ Log debug "[CLIENT] No cannula treatments found. Recalculate age";
          GetStateAsync "data.cage.changed" ]) ++
  (if snd flags then []
   else [ Log debug "[CLIENT] No sensor treatments found. Recalculate age";
          GetStateAsync "data.sage.changed" ]).

Definition isRead (e : effect) : bool :=
  match e with
  | GetStateAsync _ => true
  | _ => false
  end.

(** * Properties *)

(** ** Elapsed hours *)

Lemma diff_hours_mono (now c d : Z) :
  c <= d -> diff_hours now d <= diff_hours now c.
Proof.
  intros Hcd. unfold diff_hours. apply Z.quot_le_mono; lia.
Qed.

Lemma diff_hours_nonneg (now d : Z) : d <= now -> 0 <= diff_hours now d.
Proof.
  intros Hd. unfold diff_hours. apply Z.quot_pos; lia.
Qed.

Lemma diff_hours_back (now k r : Z) :
  0 <= k -> 0 <= r < 3600000 -> diff_hours now (now - (k * 3600000 + r)) = k.
Proof.
  intros Hk Hr. unfold diff_hours.
  replace (now - (now - (k * 3600000 + r))) with (r + k * 3600000) by lia.
  rewrite Z.quot_div_nonneg by lia.
  rewrite Z.div_add by lia. rewrite Z.div_small by lia. lia.
Qed.

Section AgeFacts.
Context `{Host}.

(** With no change of offset between the two instants, the elapsed days
    are the whole days in the elapsed hours. *)
Lemma diff_days_of_hours (now d : Z) :
  utcOffset d = utcOffset now ->
  diff_days now d = diff_hours now d ÷ 24.
Proof.
  intros Hoff. unfold diff_days, diff_hours, zoneDelta. rewrite Hoff.
  replace (now - d - (utcOffset now - utcOffset now) * 60000) with (now - d) by lia.
  rewrite Z.quot_quot by lia. reflexivity.
Qed.

Lemma selection_inv_init (now : Z) : selection_inv now [] (0, noTreatment).
Proof.
  cbn. repeat split; try lia; discriminate.
Qed.

Lemma visit_skip (now p : Z) (info : treatmentInfo) (t : treatment) :
  (mills t >? p) && (mills t <=? now) = false ->
  visit now (p, info) t = (p, info).
Proof.
  intros Hc. unfold visit. rewrite Hc. reflexivity.
Qed.

Lemma visit_inv (now : Z) (acc : list Z) (p : Z) (info : treatmentInfo)
  (t : treatment) :
  selection_inv now acc (p, info) ->
  (mills t >? p) && (mills t <=? now) = true ->
  selection_inv now (acc ++ [mills t]) (visit now (p, info) t).
Proof.
  intros (Hp & Hnone & Hsome) Hc.
  unfold visit. rewrite Hc.
  apply andb_true_iff in Hc. destruct Hc as [Hgt Hle].
  apply Z.gtb_lt in Hgt. apply Z.leb_le in Hle.
  pose proof (diff_hours_nonneg now (mills t) Hle) as Hage.
  destruct (found info) eqn:Hf; cbn [negb orb].
  - destruct (Hsome eq_refl) as (Hm & Hpin & Ha & Hd & Hh & Hall).
    destruct ((diff_hours now (mills t) >=? 0) && (diff_hours now (mills t) <? age info)) eqn:Hr.
    + apply andb_true_iff in Hr. destruct Hr as [_ Hlt]. apply Z.ltb_lt in Hlt.
      cbn. split; [lia|]. split; [discriminate|]. intros _.
      split; [apply in_or_app; right; left; reflexivity|].
      split; [apply in_or_app; right; left; reflexivity|].
      do 3 (split; [reflexivity|]).
      intros c Hin. apply in_app_or in Hin. destruct Hin as [Hin | [<- | []]].
      * destruct (Hall c Hin) as (? & ? & ? & ?).
        pose proof (diff_hours_mono now c (mills t)). lia.
      * lia.
    + assert (Hge : age info <= diff_hours now (mills t)).
      { apply andb_false_iff in Hr. destruct Hr as [Hr | Hr].
        - destruct (Z.geb_spec (diff_hours now (mills t)) 0); [discriminate | lia].
        - apply Z.ltb_ge in Hr. exact Hr. }
      cbn. split; [lia|]. rewrite Hf. split; [discriminate|]. intros _.
      split; [apply in_or_app; left; assumption|].
      split; [apply in_or_app; right; left; reflexivity|].
      do 3 (split; [assumption|]).
      intros c Hin. apply in_app_or in Hin. destruct Hin as [Hin | [<- | []]].
      * destruct (Hall c Hin) as (? & ? & ? & ?). lia.
      * lia.
  - destruct (Hnone eq_refl) as (-> & -> & ->).
    cbn. split; [lia|]. split; [discriminate|]. intros _.
    split; [left; reflexivity|]. split; [left; reflexivity|].
    do 3 (split; [reflexivity|]).
    intros c [<- | []]. lia.
Qed.

Lemma fold_visit_inv (now : Z) (treatments : list treatment) :
  forall acc p info,
    selection_inv now acc (p, info) ->
    selection_inv now (acc ++ accepted now p treatments)
      (fold_left (visit now) treatments (p, info)).
Proof.
  induction treatments as [|t rest IH]; intros acc p info Hinv.
  - cbn. rewrite app_nil_r. exact Hinv.
  - cbn [fold_left accepted].
    destruct ((mills t >? p) && (mills t <=? now)) eqn:Hc.
    + pose proof (visit_inv now acc p info t Hinv Hc) as Hinv'.
      assert (Hfst : fst (visit now (p, info) t) = mills t).
      { unfold visit. rewrite Hc.
        destruct (negb (found info) || _); reflexivity. }
      destruct (visit now (p, info) t) as [p' info'] eqn:Hv.
      cbn in Hfst. subst p'.
      replace (acc ++ mills t :: accepted now (mills t) rest)
        with ((acc ++ [mills t]) ++ accepted now (mills t) rest)
        by (rewrite <- app_assoc; reflexivity).
      apply IH. exact Hinv'.
    + rewrite visit_skip by exact Hc. apply IH. exact Hinv.
Qed.

(** The info [_getLatestTreatmentsInfo] returns, with the [prevDate] the
    loop ends with. *)
Lemma selection_result (now : Z) (treatments : list treatment) :
  exists prevDate,
    selection_inv now (accepted now 0 treatments)
      (prevDate, _getLatestTreatmentsInfo now treatments) /\
    fst (fold_left (visit now) treatments (0, noTreatment)) = prevDate.
Proof.
  pose proof (fold_visit_inv now treatments [] 0 noTreatment
                (selection_inv_init now)) as Hinv.
  cbn [app] in Hinv.
  destruct (fold_left (visit now) treatments (0, noTreatment)) as [p info] eqn:Hf.
  exists p. split; [|reflexivity].
  unfold _getLatestTreatmentsInfo. destruct treatments as [|t rest].
  - cbn in Hf. inversion Hf; subst. exact Hinv.
  - rewrite Hf. exact Hinv.
Qed.

(** [prevDate] is the running maximum of the qualifying timestamps. *)
Lemma fold_visit_prevDate (now : Z) (treatments : list treatment) :
  forall p info,
    0 <= p ->
    fst (fold_left (visit now) treatments (p, info))
    = Z.max p (latest now treatments).
Proof.
  induction treatments as [|t rest IH]; intros p info Hp.
  - cbn. lia.
  - cbn [fold_left latest]. unfold qualifies.
    destruct ((mills t >? p) && (mills t <=? now)) eqn:Hc.
    + assert (Hv : exists info', visit now (p, info) t = (mills t, info')).
      { unfold visit. rewrite Hc.
        destruct (negb (found info) || _); eexists; reflexivity. }
      destruct Hv as [info' ->].
      apply andb_true_iff in Hc. destruct Hc as [Hgt Hle].
      apply Z.gtb_lt in Hgt. pose proof Hle as Hle'. apply Z.leb_le in Hle'.
      rewrite IH by lia. rewrite Hle.
      replace (0 <? mills t) with true by (symmetry; apply Z.ltb_lt; lia).
      cbn [andb]. lia.
    + rewrite visit_skip by exact Hc. rewrite IH by exact Hp.
      destruct ((0 <? mills t) && (mills t <=? now)) eqn:Hq; [|reflexivity].
      apply andb_true_iff in Hq. destruct Hq as [Hpos Hle].
      rewrite Hle in Hc. rewrite andb_true_r in Hc.
      destruct (Z.gtb_spec (mills t) p); [discriminate | lia].
Qed.

Lemma latest_nonneg (now : Z) (treatments : list treatment) :
  0 <= latest now treatments.
Proof.
  induction treatments as [|t rest IH]; cbn; [lia|].
  destruct (qualifies now t); lia.
Qed.

Lemma latest_upper (now : Z) (treatments : list treatment) (t : treatment) :
  In t treatments -> qualifies now t = true -> mills t <= latest now treatments.
Proof.
  induction treatments as [|u rest IH]; intros Hin Hq; [destruct Hin|].
  cbn. destruct Hin as [-> | Hin].
  - rewrite Hq. lia.
  - specialize (IH Hin Hq). destruct (qualifies now u); lia.
Qed.

Lemma latest_member (now : Z) (treatments : list treatment) :
  0 < latest now treatments ->
  exists t, In t treatments /\ qualifies now t = true /\
            mills t = latest now treatments.
Proof.
  induction treatments as [|u rest IH]; cbn; intros Hpos; [lia|].
  destruct (qualifies now u) eqn:Hq.
  - destruct (Z.max_spec (mills u) (latest now rest)) as [[Hlt ->] | [Hge ->]].
    + destruct (IH ltac:(unfold qualifies in Hq; lia)) as (t & Hin & Hqt & Ht).
      exists t. auto.
    + exists u. auto.
  - destruct (IH Hpos) as (t & Hin & Hqt & Ht). exists t. auto.
Qed.

Lemma accepted_member (now : Z) (treatments : list treatment) :
  forall p c, 0 <= p -> In c (accepted now p treatments) ->
    exists t, In t treatments /\ qualifies now t = true /\ mills t = c.
Proof.
  induction treatments as [|u rest IH]; intros p c Hp Hin; [destruct Hin|].
  cbn in Hin. destruct ((mills u >? p) && (mills u <=? now)) eqn:Hc.
  - apply andb_true_iff in Hc. destruct Hc as [Hgt Hle].
    apply Z.gtb_lt in Hgt.
    destruct Hin as [<- | Hin].
    + exists u. split; [left; reflexivity|]. split; [|reflexivity].
      unfold qualifies. rewrite Hle.
      replace (0 <? mills u) with true by (symmetry; apply Z.ltb_lt; lia).
      reflexivity.
    + destruct (IH (mills u) c ltac:(lia) Hin) as (t & Ht & Hq & Hm).
      exists t. split; [right; exact Ht | split; assumption].
  - destruct (IH p c Hp Hin) as (t & Ht & Hq & Hm).
    exists t. split; [right; exact Ht | split; assumption].
Qed.

(** The loop ends with [prevDate] the latest qualifying timestamp. *)
Lemma selection_latest (now : Z) (treatments : list treatment) :
  selection_inv now (accepted now 0 treatments)
    (latest now treatments, _getLatestTreatmentsInfo now treatments).
Proof.
  destruct (selection_result now treatments) as (p & Hinv & Hfst).
  rewrite fold_visit_prevDate in Hfst by lia.
  pose proof (latest_nonneg now treatments).
  replace (latest now treatments) with p by lia. exact Hinv.
Qed.

Lemma quot_small_abs (a b : Z) : - b < a < b -> a ÷ b = 0.
Proof.
  intros Hab. destruct (Z.le_gt_cases 0 a) as [Hpos | Hneg].
  - apply Z.quot_small. lia.
  - replace a with (- (- a)) by lia. rewrite Z.quot_opp_l by lia.
    rewrite Z.quot_small by lia. reflexivity.
Qed.

(** A visit of a record that is [k] whole hours old. *)
Lemma visit_hours_old (now p k : Z) (info : treatmentInfo) (e : value) :
  0 <= k ->
  let d := now - k * 3600000 in
  visit now (p, info) {| eventType := e; mills := d |}
  = if d >? p then
      if negb (found info) || (k <? age info) then
        (d, {| found := true; age := k; days := diff_days now d;
               hours := k - diff_days now d * 24; millis := d |})
      else (d, info)
    else (p, info).
Proof.
  intros Hk d. unfold visit. cbn [mills].
  replace (d <=? now) with true by (symmetry; apply Z.leb_le; unfold d; lia).
  rewrite andb_true_r.
  replace (diff_hours now d) with k
    by (unfold d; replace (now - k * 3600000) with (now - (k * 3600000 + 0)) by lia;
        symmetry; apply diff_hours_back; lia).
  replace (k >=? 0) with true by (symmetry; apply Z.geb_le; lia).
  reflexivity.
Qed.

(** C6. Every Age Info the client computes satisfies
    [age = days * 24 + hours]: the one the selection over the treatments of
    an update returns (fresh path), and the one recomputed from a stored
    [changed] timestamp (recovery path), whose [age] is the whole elapsed
    hours and whose [days] is the whole elapsed days. *)
Theorem age_is_days_and_hours (now : Z) (treatments : list treatment)
  (treatmentDate : Z) :
  let fresh := _getLatestTreatmentsInfo now treatments in
  let recovered := recalc now treatmentDate in
  age fresh = days fresh * 24 + hours fresh /\
  age recovered = days recovered * 24 + hours recovered /\
  age recovered = diff_hours now treatmentDate /\
  days recovered = diff_days now treatmentDate.
Proof.
  cbn zeta. split.
  - destruct (selection_latest now treatments) as (_ & Hnone & Hsome).
    destruct (found (_getLatestTreatmentsInfo now treatments)) eqn:Hf.
    + destruct (Hsome eq_refl) as (_ & _ & _ & _ & Hh & _). lia.
    + destruct (Hnone eq_refl) as (_ & _ & ->). reflexivity.
  - cbn. repeat split. lia.
Qed.

(** C1. The record the selection returns is the accepted candidate with the
    smallest elapsed whole hours, which are not negative; a record later
    than now is never the one returned; and for records 50, 10 and 5 hours
    before now the result is the last one, with age 5, days 0 and hours 5
    (the local offset at the two instants differing by less than 19 hours,
    as it does across any daylight-saving switch). *)
Theorem latest_treatment_is_closest (now : Z) (treatments : list treatment) :
  let info := _getLatestTreatmentsInfo now treatments in
  (found info = true <-> accepted now 0 treatments <> []) /\
  (found info = true ->
     In (millis info) (accepted now 0 treatments) /\
     age info = diff_hours now (millis info) /\
     0 <= age info /\
     (forall c, In c (accepted now 0 treatments) ->
        age info <= diff_hours now c)) /\
  (forall t, In t treatments -> now < mills t ->
     found info = true -> millis info <> mills t) /\
  (forall e1 e2 e3,
     5 * 3600000 < now ->
     Z.abs (utcOffset (now - 5 * 3600000) - utcOffset now) < 1140 ->
     _getLatestTreatmentsInfo now
       [ {| eventType := e1; mills := now - 50 * 3600000 |};
         {| eventType := e2; mills := now - 10 * 3600000 |};
         {| eventType := e3; mills := now - 5 * 3600000 |} ]
     = {| found := true; age := 5; days := 0; hours := 5;
          millis := now - 5 * 3600000 |}).
Proof.
  cbn zeta.
  destruct (selection_latest now treatments) as (Hp & Hnone & Hsome).
  split; [|split; [|split]].
  - split.
    + intros Hf. destruct (Hsome Hf) as (Hin & _). intros Heq.
      rewrite Heq in Hin. destruct Hin.
    + intros Hne.
      destruct (found (_getLatestTreatmentsInfo now treatments)); [reflexivity|].
      destruct (Hnone eq_refl) as (Hnil & _). contradiction.
  - intros Hf. destruct (Hsome Hf) as (Hin & _ & Ha & _ & _ & Hall).
    split; [exact Hin|]. split; [exact Ha|]. split.
    + rewrite Ha. apply diff_hours_nonneg. apply (Hall _ Hin).
    + intros c Hc. apply (Hall c Hc).
  - intros t _ Hfuture Hf Heq.
    destruct (Hsome Hf) as (Hin & _ & _ & _ & _ & Hall).
    destruct (Hall _ Hin) as (_ & _ & Hle & _). lia.
  - intros e1 e2 e3 Hnow Hoff.
    unfold _getLatestTreatmentsInfo. cbn [fold_left].
    assert (Hd : diff_days now (now - 5 * 3600000) = 0).
    { unfold diff_days, zoneDelta. apply quot_small_abs. lia. }
    rewrite (visit_hours_old now 0 50) by lia. cbn [found negb orb noTreatment].
    destruct (Z.gtb_spec (now - 50 * 3600000) 0) as [H50 | H50].
    + cbv iota. rewrite (visit_hours_old now _ 10) by lia. cbn [found age negb orb noTreatment].
      replace (now - 10 * 3600000 >? now - 50 * 3600000) with true
        by (symmetry; apply Z.gtb_lt; lia).
      replace (10 <? 50) with true by reflexivity. cbv iota.
      rewrite (visit_hours_old now _ 5) by lia. cbn [found age negb orb noTreatment].
      replace (now - 5 * 3600000 >? now - 10 * 3600000) with true
        by (symmetry; apply Z.gtb_lt; lia).
      replace (5 <? 10) with true by reflexivity. cbv iota. cbn [snd].
      rewrite Hd. reflexivity.
    + cbv iota. rewrite (visit_hours_old now _ 10) by lia. cbn [found age negb orb noTreatment].
      destruct (Z.gtb_spec (now - 10 * 3600000) 0) as [H10 | H10].
      * cbv iota. rewrite (visit_hours_old now _ 5) by lia. cbn [found age negb orb noTreatment].
        replace (now - 5 * 3600000 >? now - 10 * 3600000) with true
          by (symmetry; apply Z.gtb_lt; lia).
        replace (5 <? 10) with true by reflexivity. cbv iota. cbn [snd].
        rewrite Hd. reflexivity.
      * cbv iota. rewrite (visit_hours_old now _ 5) by lia. cbn [found age negb orb noTreatment].
        replace (now - 5 * 3600000 >? 0) with true
          by (symmetry; apply Z.gtb_lt; lia).
        cbv iota. cbn [snd]. rewrite Hd. reflexivity.
Qed.

(** C9 (amended). The selection finds a record exactly when some record has
    a timestamp greater than 0 and not after now; its [found] and [age] are
    those of the reference "take the latest timestamp that is not in the
    future"; and its [days] and [hours] are those of the reference when the
    offset of local time at every such record is the offset at now. *)
Theorem selection_refines_latest (now : Z) (treatments : list treatment) :
  let info := _getLatestTreatmentsInfo now treatments in
  let ref := reference now treatments in
  (found info = true <->
     exists t, In t treatments /\ 0 < mills t /\ mills t <= now) /\
  found info = found ref /\
  age info = age ref /\
  ((forall t, In t treatments -> qualifies now t = true ->
      utcOffset (mills t) = utcOffset now) ->
   days info = days ref /\ hours info = hours ref).
Proof.
  cbn zeta.
  destruct (selection_latest now treatments) as (Hp & Hnone & Hsome).
  unfold reference.
  destruct (found (_getLatestTreatmentsInfo now treatments)) eqn:Hf.
  - destruct (Hsome eq_refl) as (Hin & Hpin & Ha & Hd & Hh & Hall).
    destruct (Hall _ Hpin) as (Hpos & _ & Hnow & Hmin).
    destruct (Hall _ Hin) as (_ & Hmp & _ & _).
    replace (0 <? latest now treatments) with true
      by (symmetry; apply Z.ltb_lt; exact Hpos).
    assert (Hage : age (_getLatestTreatmentsInfo now treatments)
                   = diff_hours now (latest now treatments)).
    { pose proof (diff_hours_mono now _ _ Hmp). lia. }
    split; [|split; [reflexivity|split; [exact Hage|]]].
    + split; [intros _|reflexivity].
      destruct (latest_member now treatments Hpos) as (t & Ht & Hq & Hm).
      exists t. split; [exact Ht|]. lia.
    + intros Hoff. cbn [days hours recalc].
      destruct (accepted_member now treatments 0 _ (Z.le_refl 0) Hin)
        as (t & Ht & Hq & Hm).
      destruct (latest_member now treatments Hpos) as (u & Hu & Hqu & Hmu).
      assert (Hdays : days (_getLatestTreatmentsInfo now treatments)
                      = diff_days now (latest now treatments)).
      { rewrite Hd. rewrite !diff_days_of_hours.
        - rewrite <- Ha, Hage. reflexivity.
        - rewrite <- Hmu. apply Hoff; assumption.
        - rewrite <- Hm. apply Hoff; assumption. }
      split; [exact Hdays|]. rewrite Hh, Hdays, Hage. reflexivity.
  - destruct (Hnone eq_refl) as (_ & Hzero & Hinfo).
    rewrite Hzero. cbn. rewrite Hinfo. cbn.
    split; [|repeat split].
    split; [discriminate|].
    intros (t & Ht & Hpos & Hle).
    assert (Hq : qualifies now t = true).
    { unfold qualifies. apply andb_true_iff.
      split; [apply Z.ltb_lt | apply Z.leb_le]; lia. }
    pose proof (latest_upper now treatments t Ht Hq). lia.
Qed.
End AgeFacts.

Lemma latest_treatment_is_closest_witness :
  let info := @_getLatestTreatmentsInfo utc 1600000000000 site_changes in
  (In (millis info) (accepted 1600000000000 0 site_changes) /\
   age info = diff_hours 1600000000000 (millis info) /\
   0 <= age info /\
   (forall c, In c (accepted 1600000000000 0 site_changes) ->
      age info <= diff_hours 1600000000000 c)) /\
  info = {| found := true; age := 5; days := 0; hours := 5;
            millis := 1599982000000 |}.
Proof.
  destruct (@latest_treatment_is_closest utc 1600000000000 site_changes)
    as (_ & Hfound & _ & Hexample).
  split.
  - apply Hfound. reflexivity.
  - apply Hexample; vm_compute; reflexivity.
Defined.

(** C9, as stated, fails on a host with daylight-saving time: of two
    records in the same whole hour before now the selection keeps the
    earlier, and the offset changed between them, so that [days] and
    [hours] are 0 and 24 where the latest record gives 1 and 0. *)
Lemma selection_differs_from_latest_under_dst :
  let now := 1603675200000 in
  let treatments :=
    [ {| eventType := VStr "Site Change"; mills := 1603587000000 |};
      {| eventType := VStr "Site Change"; mills := 1603588200000 |} ] in
  @_getLatestTreatmentsInfo berlin now treatments
  = {| found := true; age := 24; days := 0; hours := 24;
       millis := 1603587000000 |} /\
  @reference berlin now treatments
  = {| found := true; age := 24; days := 1; hours := 0;
       millis := 1603588200000 |} /\
  ~ (days (@_getLatestTreatmentsInfo berlin now treatments)
     = days (@reference berlin now treatments) /\
     hours (@_getLatestTreatmentsInfo berlin now treatments)
     = hours (@reference berlin now treatments)).
Proof.
  cbn zeta. split; [vm_compute; reflexivity|].
  split; [vm_compute; reflexivity|].
  vm_compute. intros [Hd _]. discriminate Hd.
Qed.

Lemma selection_refines_latest_witness :
  days (@_getLatestTreatmentsInfo utc 1600000000000 site_changes)
  = days (@reference utc 1600000000000 site_changes) /\
  hours (@_getLatestTreatmentsInfo utc 1600000000000 site_changes)
  = hours (@reference utc 1600000000000 site_changes).
Proof.
  apply (proj2 (proj2 (proj2
    (@selection_refines_latest utc 1600000000000 site_changes)))).
  intros t _ _. reflexivity.
Defined.

(** ** Runs of handlers *)

Lemma bind_lift_normal {A B} (a : A) (k : A -> M B) (clock : nat -> Z)
  (s : machine) :
  bind (lift (Normal a)) k clock s = k a clock s.
Proof.
  unfold bind, lift. destruct (k a clock s) as [[r out] s']. reflexivity.
Qed.

Lemma bind_ret {A B} (a : A) (k : A -> M B) (clock : nat -> Z) (s : machine) :
  bind (ret a) k clock s = k a clock s.
Proof. apply bind_lift_normal. Qed.

Lemma bind_tell {B} (e : effect) (k : unit -> M B) (clock : nat -> Z)
  (s : machine) :
  bind (tell e) k clock s
  = (result (k tt clock s), e :: outputs (k tt clock s), after (k tt clock s)).
Proof.
  unfold bind, tell. destruct (k tt clock s) as [[r out] s']. reflexivity.
Qed.

Lemma bind_run {A B} (m : M A) (k : A -> M B) (clock : nat -> Z)
  (a : A) (out : list effect) (s s' : machine) :
  m clock s = (Normal a, out, s') ->
  bind m k clock s
  = (result (k a clock s'), out ++ outputs (k a clock s'), after (k a clock s')).
Proof.
  intros Hm. unfold bind. rewrite Hm.
  destruct (k a clock s') as [[r out'] s'']. reflexivity.
Qed.

Lemma bind_normal_inv {A B} (m : M A) (k : A -> M B) (clock : nat -> Z)
  (s s' : machine) (b : B) (out : list effect) :
  bind m k clock s = (Normal b, out, s') ->
  exists a o1 s1 o2,
    m clock s = (Normal a, o1, s1) /\
    k a clock s1 = (Normal b, o2, s') /\
    out = o1 ++ o2.
Proof.
  unfold bind. destruct (m clock s) as [[[a | e] o1] s1]; [|discriminate].
  destruct (k a clock s1) as [[r o2] s2] eqn:Hk. intros Heq.
  inversion Heq; subst. exists a, o1, s1, o2. auto.
Qed.

Section Emits.
Variable P : effect -> Prop.

Lemma emits_ret {A} (a : A) : emits P (ret a).
Proof. intros clock s. constructor. Qed.

Lemma emits_lift {A} (c : completion A) : emits P (lift c).
Proof. intros clock s. constructor. Qed.

Lemma emits_tell (e : effect) : P e -> emits P (tell e).
Proof. intros He clock s. cbn. constructor; [exact He | constructor]. Qed.

Lemma emits_Date_now : emits P Date_now.
Proof. intros clock s. constructor. Qed.

Lemma emits_get_this : emits P get_this.
Proof. intros clock s. constructor. Qed.

Lemma emits_set_this (c : NightscoutClient) : emits P (set_this c).
Proof. intros clock s. constructor. Qed.

Lemma emits_bind {A B} (m : M A) (k : A -> M B) :
  emits P m -> (forall a, emits P (k a)) -> emits P (bind m k).
Proof.
  intros Hm Hk clock s. specialize (Hm clock s). unfold bind.
  destruct (m clock s) as [[[a | e] o1] s1]; cbn in *; [|exact Hm].
  specialize (Hk a clock s1). destruct (k a clock s1) as [[r o2] s2].
  cbn in *. apply Forall_app. split; assumption.
Qed.

Lemma emits_try_catch (body : M unit) (handler : string -> M unit) :
  emits P body -> (forall e, emits P (handler e)) ->
  emits P (try_catch body handler).
Proof.
  intros Hm Hk clock s. specialize (Hm clock s). unfold try_catch.
  destruct (body clock s) as [[[a | e] o1] s1]; cbn in *; [exact Hm|].
  specialize (Hk e clock s1). destruct (handler e clock s1) as [[r o2] s2].
  cbn in *. apply Forall_app. split; assumption.
Qed.

Lemma emits_when (c : value) (m : M unit) : emits P m -> emits P (when c m).
Proof.
  intros Hm. unfold when. destruct (truthy c); [exact Hm | apply emits_ret].
Qed.

Lemma emits_and_prop (o : value) (k : string) : emits P (and_prop o k).
Proof.
  unfold and_prop, prop. destruct (truthy o); [apply emits_lift | apply emits_ret].
Qed.
End Emits.

(** Decomposes a handler into its steps; a [tell] is left to [side]. *)
Ltac emits_steps side :=
  repeat first
    [ apply emits_ret
    | apply emits_lift
    | apply emits_Date_now
    | apply emits_get_this
    | apply emits_set_this
    | apply emits_and_prop
    | apply emits_tell; side
    | apply emits_when
    | apply emits_bind; [|intro]
    | apply emits_try_catch; [|intro]
    | match goal with
      | |- emits _ (if ?b then _ else _) => destruct b
      | |- emits _ (match ?o with Some _ => _ | None => _ end) => destruct o
      | |- emits _ (let '(_, _) := ?p in _) => destruct p
      end ].

(** A truthy value has properties to read. *)
Lemma get_truthy (o : value) (k : string) :
  truthy o = true -> exists v, get o k = Normal v.
Proof.
  destruct o; cbn; intros Ht; try discriminate; eexists; reflexivity.
Qed.

Lemma get_field (o : value) (k : string) :
  truthy o = true -> get o k = Normal (field o k).
Proof.
  intros Ht. unfold field. destruct (get_truthy o k Ht) as [v ->]. reflexivity.
Qed.

(** ** The dataUpdate handler *)

Section DataUpdate.
Context `{Host}.

Lemma on_dataUpdate_run (data : value) (clock : nat -> Z) (s : machine) :
  on_dataUpdate data clock s
  = match dataUpdate_body data clock s with
    | (Normal _, out, s') =>
        (Normal tt, Log debug "[CLIENT] dataUpdate: " :: out, s')
    | (TypeError e, out, s') =>
        (Normal tt,
         Log debug "[CLIENT] dataUpdate: "
           :: out ++ [Log error ("[CLIENT] Parse Error: " ++ e)%string],
         s')
    end.
Proof.
  unfold on_dataUpdate, log. rewrite bind_tell. unfold try_catch.
  destruct (dataUpdate_body data clock s) as [[[[] | e] out] s']; reflexivity.
Qed.

Lemma on_dataUpdate_returns (data : value) (clock : nat -> Z) (s : machine) :
  result (on_dataUpdate data clock s) = Normal tt.
Proof.
  rewrite on_dataUpdate_run.
  destruct (dataUpdate_body data clock s) as [[[[] | e] out] s']; reflexivity.
Qed.

(** Without a device status to pop, the device part does nothing. *)
Lemma devicestatusPart_silent (ts data : value) (clock : nat -> Z) (s : machine) :
  field data "devicestatus" = VUndefined \/ field data "devicestatus" = VArr [] ->
  outputs (devicestatusPart ts data clock s) = [].
Proof.
  unfold field, devicestatusPart, prop. intros Hd.
  destruct (get data "devicestatus") as [v | e]; [|reflexivity].
  rewrite bind_lift_normal. destruct Hd as [-> | ->]; reflexivity.
Qed.

Ltac unfold_parts :=
  unfold on_dataUpdate, dataUpdate_body, devicestatusPart, sgvsPart,
    treatmentsPart, category, getLatestTreatmentsInfo, emitAge, foodPart,
    recoveryPart, _recalcAges, setState, log, prop.

Ltac emits_parts side :=
  repeat first
    [ progress emits_steps side
    | match goal with
      | |- emits _ (match ?l with [] => _ | _ :: _ => _ end) => destruct l
      end ].

(** C7. A [dataUpdate] whose payload has no device status, or an empty
    sequence of them, returns without throwing and sets none of
    [data.device], [data.clock], [data.reservoir], [data.bolusiob],
    [data.pumpBattery], [data.bolusing], [data.status], [data.suspended],
    [data.uploaderBattery]. *)
Theorem no_devicestatus_no_device_facts (data : value) (clock : nat -> Z)
  (s : machine) :
  field data "devicestatus" = VUndefined \/ field data "devicestatus" = VArr [] ->
  result (on_dataUpdate data clock s) = Normal tt /\
  forallb (fun e => negb (isDeviceFact e)) (outputs (on_dataUpdate data clock s))
  = true.
Proof.
  intros Hd. split; [apply on_dataUpdate_returns|].
  apply forallb_forall. intros e He.
  assert (Hemits : emits (fun e => isDeviceFact e = false) (on_dataUpdate data)).
  { assert (Hdev : forall ts, emits (fun e => isDeviceFact e = false)
                                (devicestatusPart ts data)).
    { intros ts clock' s'. rewrite devicestatusPart_silent by exact Hd.
      constructor. }
    unfold on_dataUpdate, dataUpdate_body, setState, log, prop.
    apply emits_bind; [apply emits_tell; reflexivity | intros _].
    apply emits_try_catch; [|intro; apply emits_tell; reflexivity].
    apply emits_bind; [apply emits_tell; reflexivity | intros _].
    apply emits_when.
    apply emits_bind; [apply emits_Date_now | intros now].
    apply emits_bind; [apply emits_lift | intros lastUpdated].
    apply emits_bind; [apply emits_when; apply emits_tell; reflexivity | intros _].
    apply emits_bind; [apply Hdev | intros _].
    unfold_parts. emits_parts reflexivity. }
  specialize (Hemits clock s). rewrite Forall_forall in Hemits.
  rewrite (Hemits e He). reflexivity.
Qed.
End DataUpdate.

Lemma no_devicestatus_no_device_facts_witness :
  let s := {| this := {| previousNotifyTimestamp := VNull;
                         secretHash := VNull;
                         nsSocket := Some "http://localhost:1337" |};
              reads := 0 |} in
  let clock := fun _ : nat => 1600000000000 in
  let data :=
    VObj [ ("devicestatus", VArr []);
           ("sgvs", VArr [VObj [ ("mills", VNum 1599999000000);
                                 ("mgdl", VNum 120) ]]) ] in
  result (@on_dataUpdate utc data clock s) = Normal tt /\
  forallb (fun e => negb (isDeviceFact e))
    (outputs (@on_dataUpdate utc data clock s)) = true.
Proof.
  cbn zeta. apply (@no_devicestatus_no_device_facts utc). right. reflexivity.
Defined.

(** An update with three site changes, 50, 10 and 5 hours old: the facts of
    the cannula come from the last, and the sensor falls to the recovery. *)
Example site_change_update :
  let s := {| this := {| previousNotifyTimestamp := VNull;
                         secretHash := VNull;
                         nsSocket := Some "http://localhost:1337" |};
              reads := 0 |} in
  let clock := fun _ : nat => 1600000000000 in
  let record label at_ := VObj [("eventType", VStr label); ("mills", VNum at_)] in
  let data :=
    VObj [ ("treatments",
            VArr [ record "Site Change" 1599820000000;
                   record "Site Change" 1599964000000;
                   record "Pump Site Change" 1599982000000 ]) ] in
  outputs (@on_dataUpdate utc data clock s)
  = [ Log debug "[CLIENT] dataUpdate: ";
      SetState "data.rawUpdate" (StateJson data true);
      ageFact "data.cage.age" 1600000000000 5;
      ageFact "data.cage.days" 1600000000000 0;
      ageFact "data.cage.hours" 1600000000000 5;
      SetState "data.cage.changed"
        (StateObj (VNum 1599982000000) true (VNum 1599982000000));
      Log debug "[CLIENT] No sensor treatments found. Recalculate age";
      GetStateAsync "data.sage.changed" ].
Proof. reflexivity. Qed.

(** ** Notifications and the Dedup Cursor *)

Section Notification.
Context `{Host}.

Lemma on_notification_run (data : value) (clock : nat -> Z) (s : machine) :
  truthy data = true ->
  on_notification data clock s
  = let timestamp := field data "timestamp" in
    let heading := Log debug "[CLIENT] notification: " in
    if truthy timestamp && strict_eq timestamp (previousNotifyTimestamp (this s))
    then (Normal tt, [heading], s)
    else
      let moved := if truthy timestamp then remember timestamp (this s)
                   else this s in
      match Date_getTime (or_else timestamp VUndefined) with
      | TypeError e => (TypeError e, [heading], {| this := moved; reads := reads s |})
      | Normal ts =>
          let s' := {| this := moved;
                       reads := if truthy ts then reads s else S (reads s) |} in
          match to_string (field data "title") with
          | TypeError e => (TypeError e, [heading], s')
          | Normal title =>
              match to_string (field data "message") with
              | TypeError e => (TypeError e, [heading], s')
              | Normal message =>
                  (Normal tt,
                   [ heading;
                     notificationFact
                       (if truthy ts then ts else VNum (clock (reads s)))
                       title message ],
                   s')
              end
          end
      end.
Proof.
  intros Ht. unfold on_notification, when, log, notificationFact. rewrite Ht.
  unfold prop. rewrite !get_field by exact Ht.
  destruct s as [c n].
  cbv beta iota zeta delta
    [bind lift tell ret setState get_this set_previousNotifyTimestamp
     set_this Date_now when this reads app remember].
  destruct (truthy (field data "timestamp")
            && strict_eq (field data "timestamp") (previousNotifyTimestamp c));
    [reflexivity|].
  destruct (truthy (field data "timestamp"));
    (destruct (Date_getTime (or_else (field data "timestamp") VUndefined))
       as [ts | e]; [|reflexivity]);
    destruct (truthy ts);
    (destruct (to_string (field data "title")) as [title | e]; [|reflexivity]);
    (destruct (to_string (field data "message")) as [message | e];
     reflexivity).
Qed.

Lemma on_notification_no_payload (data : value) (clock : nat -> Z) (s : machine) :
  truthy data = false ->
  on_notification data clock s
  = (Normal tt, [Log debug "[CLIENT] notification: "], s).
Proof.
  intros Ht. unfold on_notification, when, log. rewrite Ht. reflexivity.
Qed.

(** The run of a payload that is not discarded, by its conversions. *)
Lemma on_notification_fresh (data : value) (clock : nat -> Z) (s : machine) :
  truthy data = true ->
  truthy (field data "timestamp")
  && strict_eq (field data "timestamp") (previousNotifyTimestamp (this s)) = false ->
  previousNotifyTimestamp (this (after (on_notification data clock s)))
  = (if truthy (field data "timestamp") then field data "timestamp"
     else previousNotifyTimestamp (this s)) /\
  match conversions data with
  | Normal (time, title, message) =>
      result (on_notification data clock s) = Normal tt /\
      outputs (on_notification data clock s)
      = [ Log debug "[CLIENT] notification: ";
          notificationFact (if truthy time then time else VNum (clock (reads s)))
            title message ]
  | TypeError e =>
      result (on_notification data clock s) = TypeError e /\
      outputs (on_notification data clock s)
      = [Log debug "[CLIENT] notification: "]
  end.
Proof.
  intros Ht Hdup. rewrite on_notification_run by exact Ht. cbn zeta.
  rewrite Hdup. unfold conversions.
  destruct (Date_getTime (or_else (field data "timestamp") VUndefined))
    as [ts | e].
  2:{ split; [|split; reflexivity]. cbn [after snd this].
      destruct (truthy (field data "timestamp")); reflexivity. }
  destruct (to_string (field data "title")) as [title | e].
  2:{ split; [|split; reflexivity]. cbn [after snd this].
      destruct (truthy (field data "timestamp")); reflexivity. }
  destruct (to_string (field data "message")) as [message | e];
    (split; [|split; reflexivity]); cbn [after snd this];
    destruct (truthy (field data "timestamp")); reflexivity.
Qed.

(** A truthy value is never [null]. *)
Lemma truthy_not_null (v : value) : truthy v && strict_eq v VNull = false.
Proof. destruct v; cbn; try reflexivity; apply andb_false_r. Qed.

Lemma on_connect_cursor (clock : nat -> Z) (s : machine) :
  previousNotifyTimestamp (this (after (on_connect clock s))) = VNull.
Proof.
  destruct s as [[cursor hash [sock|]] n]; reflexivity.
Qed.

Lemma Date_getTime_number (z : Z) :
  z <> 0 -> Z.abs z <= maxTime ->
  Date_getTime (or_else (VNum z) VUndefined) = Normal (VNum z) /\
  truthy (VNum z) = true.
Proof.
  intros Hz Hrange. unfold or_else. cbn [truthy].
  replace (z =? 0) with false by (symmetry; apply Z.eqb_neq; exact Hz).
  cbn [negb]. unfold Date_getTime.
  replace (Z.abs z <=? maxTime) with true by (symmetry; apply Z.leb_le; exact Hrange).
  split; reflexivity.
Qed.

Lemma strict_eq_eq (a b : value) : strict_eq a b = true -> a = b.
Proof.
  destruct a, b; cbn; intros Heq; try discriminate; try reflexivity.
  - apply Bool.eqb_prop in Heq. congruence.
  - apply Z.eqb_eq in Heq. congruence.
  - apply String.eqb_eq in Heq. congruence.
Qed.

Lemma notified_payload (data : value) (clock : nat -> Z) (s : machine) :
  notified (on_notification data clock s) = true -> truthy data = true.
Proof.
  destruct (truthy data) eqn:Ht; [reflexivity|].
  rewrite on_notification_no_payload by exact Ht. discriminate.
Qed.

(** A payload is set as a fact exactly when it is there, is not discarded,
    and its timestamp, title and message convert. *)
Lemma notified_run (data : value) (clock : nat -> Z) (s : machine) :
  truthy data = true ->
  notified (on_notification data clock s)
  = negb (truthy (field data "timestamp")
          && strict_eq (field data "timestamp") (previousNotifyTimestamp (this s)))
    && match conversions data with
       | Normal _ => true
       | TypeError _ => false
       end.
Proof.
  intros Ht.
  destruct (truthy (field data "timestamp")
            && strict_eq (field data "timestamp") (previousNotifyTimestamp (this s)))
    eqn:Hdup.
  - rewrite on_notification_run by exact Ht. cbn zeta. rewrite Hdup. reflexivity.
  - destruct (on_notification_fresh data clock s Ht Hdup) as [_ Hrun].
    unfold notified.
    destruct (conversions data) as [[[time title] message] | e];
      destruct Hrun as [_ ->]; reflexivity.
Qed.

Lemma deliver_app (clock : nat -> Z) (evs evs' : list event) (s : machine) :
  snd (deliver clock (evs ++ evs') s)
  = snd (deliver clock evs' (snd (deliver clock evs s))).
Proof.
  revert s. induction evs as [|ev rest IH]; intros s; [reflexivity|].
  cbn [app deliver]. destruct (handle ev clock s) as [[r out] s1].
  specialize (IH s1).
  destruct (deliver clock (rest ++ evs') s1) as [log1 s2].
  destruct (deliver clock rest s1) as [log2 s3]. cbn [snd] in *. exact IH.
Qed.

(** C3 (amended). For a payload that is there (truthy): when its timestamp
    is truthy and [===] the Dedup Cursor the notification is discarded,
    nothing is set and the cursor stays.  Otherwise the cursor becomes the
    timestamp when that is truthy; then the time of the timestamp, the
    title and the message are converted, and when the three convert,
    exactly one [data.notification] fact is set, acknowledged, whose [ts]
    is [new Date(timestamp).getTime()] when that is a time other than 0
    (the timestamp itself when it is a number in the range of a [Date]) and
    the current time otherwise, and whose value is the title, one space and
    the message, each as a string; when one of them cannot be converted
    the handler throws with nothing set, the cursor moved.  So the second
    of two consecutive notifications with the same truthy primitive
    timestamp is not set, and a timestamp that differs from the cursor is
    always set when the three convert. *)
Theorem notification_dedup (data : value) (clock : nat -> Z) (s : machine) :
  truthy data = true ->
  let timestamp := field data "timestamp" in
  let cursor := previousNotifyTimestamp (this s) in
  let r := on_notification data clock s in
  (truthy timestamp && strict_eq timestamp cursor = true ->
     result r = Normal tt /\
     outputs r = [Log debug "[CLIENT] notification: "] /\ after r = s) /\
  (truthy timestamp && strict_eq timestamp cursor = false ->
     previousNotifyTimestamp (this (after r))
     = (if truthy timestamp then timestamp else cursor) /\
     (forall time title message,
        conversions data = Normal (time, title, message) ->
        result r = Normal tt /\
        outputs r
        = [ Log debug "[CLIENT] notification: ";
            notificationFact (if truthy time then time else VNum (clock (reads s)))
              title message ]) /\
     (forall e,
        conversions data = TypeError e ->
        result r = TypeError e /\
        outputs r = [Log debug "[CLIENT] notification: "])) /\
  (forall z, timestamp = VNum z -> z <> 0 -> Z.abs z <= maxTime ->
     Date_getTime (or_else timestamp VUndefined) = Normal (VNum z) /\
     truthy (VNum z) = true) /\
  (forall data' clock',
     truthy timestamp && strict_eq timestamp timestamp = true ->
     field data' "timestamp" = timestamp ->
     notified (on_notification data' clock' (after r)) = false) /\
  (forall parts,
     strict_eq timestamp cursor = false -> conversions data = Normal parts ->
     notified r = true) /\
  (forall e, conversions data = TypeError e -> notified r = false).
Proof.
  intros Ht. cbn zeta.
  split; [|split; [|split; [|split; [|split]]]].
  - intros Hdup. rewrite on_notification_run by exact Ht. cbn zeta.
    rewrite Hdup. repeat split.
  - intros Hdup.
    destruct (on_notification_fresh data clock s Ht Hdup) as [Hcursor Hrun].
    split; [exact Hcursor|]. split.
    + intros time title message Hconv. rewrite Hconv in Hrun. exact Hrun.
    + intros e Hconv. rewrite Hconv in Hrun. exact Hrun.
  - intros z Hz Hz0 Hrange. rewrite Hz. apply Date_getTime_number; assumption.
  - intros data' clock' Hprim Hsame.
    destruct (truthy data') eqn:Ht'.
    2:{ rewrite on_notification_no_payload by exact Ht'. reflexivity. }
    rewrite notified_run by exact Ht'. rewrite Hsame.
    apply andb_true_iff in Hprim. destruct Hprim as [Htr Hprim].
    destruct (truthy (field data "timestamp")
              && strict_eq (field data "timestamp")
                   (previousNotifyTimestamp (this s))) eqn:Hdup.
    + rewrite on_notification_run by exact Ht. cbn zeta. rewrite Hdup.
      cbn [after snd]. rewrite Hdup. reflexivity.
    + destruct (on_notification_fresh data clock s Ht Hdup) as [-> _].
      rewrite Htr, Hprim. reflexivity.
  - intros parts Hne Hconv. rewrite notified_run by exact Ht.
    rewrite Hne, andb_false_r, Hconv. reflexivity.
  - intros e Hconv. rewrite notified_run by exact Ht. rewrite Hconv.
    apply andb_false_r.
Qed.

(** C10 (amended). A payload whose timestamp is absent, zero or otherwise
    falsy is set as a [data.notification] fact, whatever the cursor, with
    the current time as [ts], when the payload is there (truthy) and its
    title and message convert to strings; the cursor is left as it was,
    and the same payload delivered again is set again.  A payload that is
    not there sets nothing, and one whose title or message cannot be
    converted makes the handler throw with nothing set. *)
Theorem falsy_timestamp_always_notifies (data : value) (clock : nat -> Z)
  (s : machine) :
  truthy (field data "timestamp") = false ->
  (truthy data = true ->
   forall title message,
     to_string (field data "title") = Normal title ->
     to_string (field data "message") = Normal message ->
     on_notification data clock s
     = (Normal tt,
        [ Log debug "[CLIENT] notification: ";
          notificationFact (VNum (clock (reads s))) title message ],
        {| this := this s; reads := S (reads s) |}) /\
     notified (on_notification data clock s) = true /\
     (forall clock',
        notified (on_notification data clock' (after (on_notification data clock s)))
        = true)) /\
  (truthy data = true ->
   forall e,
     conversions data = TypeError e ->
     on_notification data clock s
     = (TypeError e, [Log debug "[CLIENT] notification: "],
        {| this := this s; reads := S (reads s) |})) /\
  (truthy data = false ->
   on_notification data clock s
   = (Normal tt, [Log debug "[CLIENT] notification: "], s)).
Proof.
  intros Hts.
  assert (Htime : Date_getTime (or_else (field data "timestamp") VUndefined)
                  = Normal VNaN).
  { unfold or_else. rewrite Hts. reflexivity. }
  split; [|split].
  - intros Ht title message Htitle Hmessage.
    assert (Hrun : forall clock0 s0,
      on_notification data clock0 s0
      = (Normal tt,
         [ Log debug "[CLIENT] notification: ";
           notificationFact (VNum (clock0 (reads s0))) title message ],
         {| this := this s0; reads := S (reads s0) |})).
    { intros clock0 s0. rewrite on_notification_run by exact Ht. cbn zeta.
      rewrite Hts, Htime, Htitle, Hmessage. reflexivity. }
    split; [apply Hrun|]. split.
    + rewrite Hrun. reflexivity.
    + intros clock'. rewrite (Hrun clock'). reflexivity.
  - intros Ht e Hconv. rewrite on_notification_run by exact Ht. cbn zeta.
    unfold conversions in Hconv. rewrite Htime in Hconv. rewrite Hts, Htime.
    cbn [truthy andb].
    destruct (to_string (field data "title")) as [title | e1];
      [|inversion Hconv; reflexivity].
    destruct (to_string (field data "message")) as [message | e2];
      [discriminate|inversion Hconv; reflexivity].
  - intros Ht. apply on_notification_no_payload. exact Ht.
Qed.

(** C5. Every [connect] resets the Dedup Cursor to [null]; a notification
    that was set as a fact is therefore set again when it arrives after a
    reconnect, whatever was delivered in between. *)
Theorem reconnect_resets_cursor (clock : nat -> Z) (s : machine) :
  previousNotifyTimestamp (this (after (on_connect clock s))) = VNull /\
  (forall data between,
     notified (handle (notification data) clock s) = true ->
     notified
       (handle (notification data) clock
          (snd (deliver clock
                  (notification data :: between ++ [disconnect; connect]) s)))
     = true).
Proof.
  split; [apply on_connect_cursor|].
  intros data between Hfirst. cbn [handle] in *.
  pose proof (notified_payload data clock s Hfirst) as Ht.
  rewrite notified_run in Hfirst by exact Ht.
  apply andb_true_iff in Hfirst. destruct Hfirst as [_ Hconv].
  replace (notification data :: between ++ [disconnect; connect])
    with ((notification data :: between ++ [disconnect]) ++ [connect])
    by (cbn; rewrite <- app_assoc; reflexivity).
  rewrite deliver_app.
  set (s1 := snd (deliver clock (notification data :: between ++ [disconnect]) s)).
  assert (Hcur : previousNotifyTimestamp (this (snd (deliver clock [connect] s1)))
                 = VNull).
  { cbn [deliver handle]. pose proof (on_connect_cursor clock s1) as Hc.
    destruct (on_connect clock s1) as [[r out] s2]. exact Hc. }
  rewrite notified_run by exact Ht. rewrite Hcur.
  rewrite truthy_not_null, Hconv. reflexivity.
Qed.
End Notification.

(** C3, as stated, fails: the value set for title "A" and message "B" is
    "A B", not their concatenation; and a timestamp that is there and
    parses, to the epoch itself, gets the current time as [ts]. *)
Lemma notification_counterexample :
  let s := {| this := {| previousNotifyTimestamp := VNull;
                         secretHash := VNull;
                         nsSocket := Some "http://localhost:1337" |};
              reads := 0 |} in
  let clock := fun _ : nat => 1600000000000 in
  let data := VObj [ ("timestamp", VNum 5); ("title", VStr "A");
                     ("message", VStr "B") ] in
  let epoch := VObj [ ("timestamp", VStr "1970-01-01T00:00:00.000Z");
                      ("title", VStr "A"); ("message", VStr "B") ] in
  outputs (@on_notification utc data clock s)
  = [ Log debug "[CLIENT] notification: ";
      SetState "data.notification" (StateObj (VNum 5) true (VStr "A B")) ] /\
  VStr "A B" <> VStr ("A" ++ "B") /\
  @Date_getTime utc (field epoch "timestamp") = Normal (VNum 0) /\
  outputs (@on_notification utc epoch clock s)
  = [ Log debug "[CLIENT] notification: ";
      SetState "data.notification"
        (StateObj (VNum 1600000000000) true (VStr "A B")) ].
Proof.
  cbn zeta. repeat split; try reflexivity. discriminate.
Qed.

Lemma notification_dedup_witness :
  let s := {| this := {| previousNotifyTimestamp := VNum 5;
                         secretHash := VNull;
                         nsSocket := Some "http://localhost:1337" |};
              reads := 0 |} in
  let clock := fun _ : nat => 1600000000000 in
  let data := VObj [ ("timestamp", VNum 5); ("title", VStr "A");
                     ("message", VStr "B") ] in
  let later := VObj [ ("timestamp", VNum 6); ("title", VStr "A");
                      ("message", VStr "B") ] in
  let broken := VObj [ ("timestamp", VNum 6);
                       ("title", VObj [("toString", VNum 1)]);
                       ("message", VStr "B") ] in
  (result (@on_notification utc data clock s) = Normal tt /\
   outputs (@on_notification utc data clock s)
   = [Log debug "[CLIENT] notification: "] /\
   after (@on_notification utc data clock s) = s) /\
  (result (@on_notification utc later clock s) = Normal tt /\
   outputs (@on_notification utc later clock s)
   = [ Log debug "[CLIENT] notification: ";
       SetState "data.notification" (StateObj (VNum 6) true (VStr "A B")) ]) /\
  previousNotifyTimestamp (this (after (@on_notification utc later clock s)))
  = VNum 6 /\
  notified (@on_notification utc later clock
              (after (@on_notification utc later clock s))) = false /\
  notified (@on_notification utc later clock s) = true /\
  (result (@on_notification utc broken clock s)
   = TypeError "Cannot convert object to primitive value" /\
   outputs (@on_notification utc broken clock s)
   = [Log debug "[CLIENT] notification: "]) /\
  previousNotifyTimestamp (this (after (@on_notification utc broken clock s)))
  = VNum 6.
Proof.
  cbn zeta.
  pose proof (@notification_dedup utc
                (VObj [ ("timestamp", VNum 5); ("title", VStr "A");
                        ("message", VStr "B") ])
                (fun _ => 1600000000000)
                {| this := {| previousNotifyTimestamp := VNum 5;
                              secretHash := VNull;
                              nsSocket := Some "http://localhost:1337" |};
                   reads := 0 |} eq_refl) as (Hsame & _).
  pose proof (@notification_dedup utc
                (VObj [ ("timestamp", VNum 6); ("title", VStr "A");
                        ("message", VStr "B") ])
                (fun _ => 1600000000000)
                {| this := {| previousNotifyTimestamp := VNum 5;
                              secretHash := VNull;
                              nsSocket := Some "http://localhost:1337" |};
                   reads := 0 |} eq_refl)
    as (_ & Hfresh & _ & Hagain & Hset & _).
  pose proof (@notification_dedup utc
                (VObj [ ("timestamp", VNum 6);
                        ("title", VObj [("toString", VNum 1)]);
                        ("message", VStr "B") ])
                (fun _ => 1600000000000)
                {| this := {| previousNotifyTimestamp := VNum 5;
                              secretHash := VNull;
                              nsSocket := Some "http://localhost:1337" |};
                   reads := 0 |} eq_refl)
    as (_ & Hbroken & _).
  cbn zeta in Hsame, Hfresh, Hagain, Hset, Hbroken.
  destruct (Hfresh eq_refl) as (Hcursor & Hconv & _).
  destruct (Hbroken eq_refl) as (Hcursor' & _ & Hthrow).
  split; [exact (Hsame eq_refl)|].
  split; [exact (Hconv (VNum 6) "A" "B" eq_refl)|].
  split; [exact Hcursor|].
  split; [apply (Hagain _ (fun _ => 1600000000000) eq_refl); reflexivity|].
  split; [exact (Hset (VNum 6, "A", "B") eq_refl eq_refl)|].
  split; [exact (Hthrow _ eq_refl)|].
  exact Hcursor'.
Defined.

(** C10, as stated, fails: a payload that is not there has no timestamp
    and nothing is set for it; and for a payload without a timestamp whose
    title cannot be converted to a string (the JSON text
    [{"title":{"toString":1}}]) the handler throws with nothing set. *)
Lemma falsy_timestamp_counterexample :
  let s := {| this := {| previousNotifyTimestamp := VNull;
                         secretHash := VNull;
                         nsSocket := Some "http://localhost:1337" |};
              reads := 0 |} in
  let clock := fun _ : nat => 1600000000000 in
  let broken := VObj [ ("title", VObj [("toString", VNum 1)]);
                       ("message", VStr "B") ] in
  (truthy (field VNull "timestamp") = false /\
   @on_notification utc VNull clock s
   = (Normal tt, [Log debug "[CLIENT] notification: "], s) /\
   notified (@on_notification utc VNull clock s) = false) /\
  (truthy (field broken "timestamp") = false /\
   @on_notification utc broken clock s
   = (TypeError "Cannot convert object to primitive value",
      [Log debug "[CLIENT] notification: "],
      {| this := this s; reads := 1 |}) /\
   notified (@on_notification utc broken clock s) = false).
Proof.
  cbn zeta. repeat split.
Qed.

Lemma falsy_timestamp_always_notifies_witness :
  let s := {| this := {| previousNotifyTimestamp := VNull;
                         secretHash := VNull;
                         nsSocket := Some "http://localhost:1337" |};
              reads := 0 |} in
  let clock := fun _ : nat => 1600000000000 in
  let data := VObj [ ("timestamp", VNum 0); ("title", VStr "A");
                     ("message", VStr "B") ] in
  @on_notification utc data clock s
  = (Normal tt,
     [ Log debug "[CLIENT] notification: ";
       SetState "data.notification"
         (StateObj (VNum 1600000000000) true (VStr "A B")) ],
     {| this := this s; reads := 1 |}).
Proof.
  cbn zeta.
  apply (proj1 (@falsy_timestamp_always_notifies utc
                  (VObj [ ("timestamp", VNum 0); ("title", VStr "A");
                          ("message", VStr "B") ])
                  (fun _ => 1600000000000)
                  {| this := {| previousNotifyTimestamp := VNull;
                                secretHash := VNull;
                                nsSocket := Some "http://localhost:1337" |};
                     reads := 0 |} eq_refl) eq_refl "A" "B" eq_refl eq_refl).
Defined.

Lemma reconnect_resets_cursor_witness :
  let s := {| this := {| previousNotifyTimestamp := VNull;
                         secretHash := VNull;
                         nsSocket := Some "http://localhost:1337" |};
              reads := 0 |} in
  let clock := fun _ : nat => 1600000000000 in
  let data := VObj [ ("timestamp", VNum 5); ("title", VStr "A");
                     ("message", VStr "B") ] in
  notified
    (@handle utc (notification data) clock
       (snd (@deliver utc clock
               (notification data :: [notification data] ++ [disconnect; connect])
               s)))
  = true.
Proof.
  cbn zeta.
  apply (proj2 (@reconnect_resets_cursor utc (fun _ => 1600000000000) _)).
  reflexivity.
Defined.

(** ** The recovery path *)

Lemma append_eqb (b x y : string) :
  ((b ++ x) =? (b ++ y))%string = (x =? y)%string.
Proof.
  induction b as [|a b IH]; [reflexivity|].
  cbn. rewrite Ascii.eqb_refl. exact IH.
Qed.

(** ** The selection on decoded records *)

Section RawSelection.
Context `{Host}.

Lemma get_total (t : value) (k k' : string) (v : value) :
  get t k = Normal v -> exists v', get t k' = Normal v'.
Proof.
  destruct t; cbn; intros Hget; try discriminate; eexists; reflexivity.
Qed.

Lemma visit_nonneg (now p : Z) (info : treatmentInfo) (t : treatment) :
  0 <= p -> 0 <= fst (visit now (p, info) t).
Proof.
  intros Hp. unfold visit.
  destruct ((mills t >? p) && (mills t <=? now)) eqn:Hq; [|exact Hp].
  apply andb_true_iff in Hq. destruct Hq as [Hgt _].
  apply Z.gtb_lt in Hgt.
  destruct (negb (found info) || _); cbn [fst]; lia.
Qed.

(** On a record whose [mills] is a number the callback is the typed one;
    a record whose [mills] is missing, [null], [false] or [NaN] is passed
    over. *)
Lemma rawVisit_plain (now p : Z) (info : treatmentInfo) (t : value) :
  0 <= p -> now <= maxTime -> plain t = true ->
  rawVisit now (VNum p, asRaw info) t
  = Normal
      match as_treatment t with
      | Some c => (VNum (fst (visit now (p, info) c)),
                   asRaw (snd (visit now (p, info) c)))
      | None => (VNum p, asRaw info)
      end.
Proof.
  intros Hp Hnow Hplain. unfold plain in Hplain. unfold rawVisit, as_treatment.
  destruct (get t "mills") as [m | e] eqn:Hm; [|discriminate].
  destruct (get_total t "mills" "eventType" m Hm) as [et ->].
  destruct m as [| | [|] | z | | | |]; try discriminate.
  - reflexivity.
  - cbn. replace (p <? 0) with false by (symmetry; apply Z.ltb_ge; exact Hp).
    reflexivity.
  - cbn. replace (p <? 0) with false by (symmetry; apply Z.ltb_ge; exact Hp).
    reflexivity.
  - unfold gt, le, ToPrimitive, less, ToNumber, visit. cbn [mills].
    rewrite Z.gtb_ltb, (Z.leb_antisym now z).
    destruct (p <? z) eqn:Hgt; [|reflexivity]. cbn [andb].
    destruct (now <? z) eqn:Hle; [reflexivity|]. cbn [negb].
    apply Z.ltb_lt in Hgt. apply Z.ltb_ge in Hle.
    unfold moment.
    replace (Z.abs z <=? maxTime) with true by (symmetry; apply Z.leb_le; lia).
    cbn [rfound rage asRaw].
    rewrite Z.geb_leb, (Z.leb_antisym (diff_hours now z) 0).
    destruct (negb (found info)
              || negb (diff_hours now z <? 0) && (diff_hours now z <? age info));
      reflexivity.
  - reflexivity.
Qed.

Lemma rawForEach_plain (now : Z) (treatments : list value) :
  now <= maxTime -> forallb plain treatments = true ->
  forall p info, 0 <= p ->
    rawForEach now treatments (VNum p, asRaw info)
    = Normal
        (VNum (fst (fold_left (visit now) (candidates treatments) (p, info))),
         asRaw (snd (fold_left (visit now) (candidates treatments) (p, info)))).
Proof.
  intros Hnow. induction treatments as [|t rest IH]; intros Hall p info Hp;
    [reflexivity|].
  cbn [forallb] in Hall. apply andb_true_iff in Hall. destruct Hall as [Ht Hrest].
  cbn [rawForEach candidates]. rewrite rawVisit_plain by assumption.
  destruct (as_treatment t) as [c|].
  - cbn [fold_left]. pose proof (visit_nonneg now p info c Hp) as Hp'.
    destruct (visit now (p, info) c) as [p' info']. cbn [fst snd] in *.
    apply IH; assumption.
  - apply IH; assumption.
Qed.

(** On records whose [mills] are numbers (or missing, [null], [false],
    [NaN]) the selection of the client is the typed selection on the
    candidates. *)
Lemma selectLatest_numbers (now : Z) (treatments : list value) :
  now <= maxTime -> forallb plain treatments = true ->
  selectLatest now treatments
  = Normal (asRaw (_getLatestTreatmentsInfo now (candidates treatments))).
Proof.
  intros Hnow Hall. unfold selectLatest.
  destruct treatments as [|t rest]; [reflexivity|].
  change (VNum 0, rawNone) with (VNum 0, asRaw noTreatment).
  rewrite rawForEach_plain by (assumption || lia). cbn [snd].
  unfold _getLatestTreatmentsInfo.
  destruct (candidates (t :: rest)); reflexivity.
Qed.

Lemma selection_found (now : Z) (treatments : list treatment) :
  found (_getLatestTreatmentsInfo now treatments) = (0 <? latest now treatments).
Proof.
  destruct (selection_latest now treatments) as (Hp & Hnone & Hsome).
  destruct (found (_getLatestTreatmentsInfo now treatments)) eqn:Hf.
  - destruct (Hsome eq_refl) as (_ & Hpin & _ & _ & _ & Hall).
    destruct (Hall _ Hpin) as (Hpos & _).
    symmetry. apply Z.ltb_lt. exact Hpos.
  - destruct (Hnone eq_refl) as (_ & -> & _). reflexivity.
Qed.

Lemma latest_qualifies (now : Z) (treatments : list treatment) :
  (0 <? latest now treatments) = existsb (qualifies now) treatments.
Proof.
  induction treatments as [|t rest IH]; [reflexivity|].
  cbn [latest existsb]. destruct (qualifies now t) eqn:Hq; [|exact IH].
  cbn [orb]. unfold qualifies in Hq. apply andb_true_iff in Hq.
  destruct Hq as [Hpos _]. apply Z.ltb_lt in Hpos. apply Z.ltb_lt. lia.
Qed.
End RawSelection.

(** ** The recovery path *)

Section Still.
Lemma still_ret {A} (a : A) : still (ret a).
Proof. intros clock s. reflexivity. Qed.
Lemma still_lift {A} (c : completion A) : still (lift c).
Proof. intros clock s. reflexivity. Qed.
Lemma still_tell (e : effect) : still (tell e).
Proof. intros clock s. reflexivity. Qed.
Lemma still_bind {A B} (m : M A) (k : A -> M B) :
  still m -> (forall a, still (k a)) -> still (bind m k).
Proof.
  intros Hm Hk clock s. unfold bind. specialize (Hm clock s).
  destruct (m clock s) as [[[a | e] out] s1]; cbn [after snd] in *; subst s1;
    [|reflexivity].
  specialize (Hk a clock s).
  destruct (k a clock s) as [[r out'] s2]. exact Hk.
Qed.
Lemma still_when (c : value) (m : M unit) : still m -> still (when c m).
Proof. intros Hm. unfold when. destruct (truthy c); [exact Hm | apply still_ret]. Qed.
Lemma still_and_prop (o : value) (k : string) : still (and_prop o k).
Proof. unfold and_prop, prop. destruct (truthy o); [apply still_lift | apply still_ret]. Qed.
Lemma still_run {A} (m : M A) (clock : nat -> Z) (s s' : machine)
  (r : completion A) (out : list effect) :
  still m -> m clock s = (r, out, s') -> s' = s.
Proof.
  intros Hm Hrun. specialize (Hm clock s). rewrite Hrun in Hm. exact Hm.
Qed.
End Still.

Ltac still_steps :=
  repeat first
    [ apply still_ret
    | apply still_lift
    | apply still_tell
    | apply still_and_prop
    | apply still_when
    | apply still_bind; [|intro] ].

Lemma bind_assoc {A B C} (m : M A) (f : A -> M B) (g : B -> M C)
  (clock : nat -> Z) (s : machine) :
  bind (bind m f) g clock s = bind m (fun x => bind (f x) g) clock s.
Proof.
  unfold bind. destruct (m clock s) as [[[a | e] out] s1]; [|reflexivity].
  destruct (f a clock s1) as [[[b | e] out1] s2]; [|reflexivity].
  destruct (g b clock s2) as [[r out2] s3]. rewrite app_assoc. reflexivity.
Qed.

Lemma bind_cong {A B} (m : M A) (f g : A -> M B) :
  (forall x clock s, f x clock s = g x clock s) ->
  forall clock s, bind m f clock s = bind m g clock s.
Proof.
  intros Hfg clock s. unfold bind.
  destruct (m clock s) as [[[a | e] out] s1]; [|reflexivity].
  rewrite Hfg. reflexivity.
Qed.

Section Recovery.
Context `{Host}.

Lemma _recalcAges_then_run (baseId : string) (st : ioState) (clock : nat -> Z)
  (s : machine) :
  _recalcAges_then baseId (Some st) clock s
  = (Normal tt,
     recoveredFacts baseId (clock (reads s)) (recalc (clock (reads s)) (val st)),
     {| this := this s; reads := S (reads s) |}).
Proof. reflexivity. Qed.

(** The run of one category: the filter, the selection, the facts. *)
Lemma category_run (baseId : string) (p : value -> completion bool) (now : Z)
  (treatments : value) (clock : nat -> Z) (s : machine) :
  category baseId p now treatments clock s
  = match filter treatments p with
    | TypeError e => (TypeError e, [], s)
    | Normal [] => (Normal false, [], s)
    | Normal kept =>
        let s' := {| this := this s; reads := S (reads s) |} in
        match selectLatest (clock (reads s)) kept with
        | TypeError e => (TypeError e, [], s')
        | Normal info =>
            if rfound info then
              match Date_getTime (rmillis info) with
              | TypeError e =>
                  (TypeError e,
                   [ SetState (baseId ++ ".age") (StateObj (VNum now) true (rage info));
                     SetState (baseId ++ ".days") (StateObj (VNum now) true (rdays info));
                     SetState (baseId ++ ".hours")
                       (StateObj (VNum now) true (rhours info)) ],
                   s')
              | Normal changed =>
                  (Normal true, freshFacts baseId now info changed, s')
              end
            else (Normal false, [], s')
        end
    end.
Proof.
  unfold category, getLatestTreatmentsInfo.
  destruct (filter treatments p) as [kept | e]; [|reflexivity].
  rewrite bind_lift_normal.
  destruct kept as [|t rest]; [reflexivity|].
  cbv beta iota zeta delta [bind Date_now ret lift emitAge setState tell app].
  destruct (selectLatest (clock (reads s)) (t :: rest)) as [info | e];
    [|reflexivity].
  destruct (rfound info); [|reflexivity].
  destruct (Date_getTime (rmillis info)); reflexivity.
Qed.

(** A category that completes: what it selected, and what it set. *)
Lemma category_normal (baseId : string) (p : value -> completion bool) (now : Z)
  (treatments : value) (clock : nat -> Z) (s s' : machine) (b : bool)
  (out : list effect) :
  category baseId p now treatments clock s = (Normal b, out, s') ->
  exists kept info,
    filter treatments p = Normal kept /\
    selectLatest (clock (reads s)) kept = Normal info /\
    b = rfound info /\
    s' = match kept with
         | [] => s
         | _ => {| this := this s; reads := S (reads s) |}
         end /\
    exists changed,
      out = if rfound info then freshFacts baseId now info changed else [].
Proof.
  rewrite category_run.
  destruct (filter treatments p) as [kept | e]; [|discriminate].
  destruct kept as [|t rest].
  - intros Heq. inversion Heq; subst. exists [], rawNone.
    do 4 (split; [reflexivity|]). exists VUndefined. reflexivity.
  - cbn zeta.
    destruct (selectLatest (clock (reads s)) (t :: rest)) as [info | e] eqn:Hsel;
      [|discriminate].
    destruct (rfound info) eqn:Hf.
    + destruct (Date_getTime (rmillis info)) as [changed | e]; [|discriminate].
      intros Heq. inversion Heq; subst. exists (t :: rest), info.
      rewrite Hf. split; [reflexivity|]. split; [exact Hsel|].
      do 2 (split; [reflexivity|]). exists changed. reflexivity.
    + intros Heq. inversion Heq; subst. exists (t :: rest), info.
      rewrite Hf. split; [reflexivity|]. split; [exact Hsel|].
      do 2 (split; [reflexivity|]). exists VUndefined. reflexivity.
Qed.

Lemma treatmentsPart_run (now : Z) (data : value) (clock : nat -> Z)
  (s s' : machine) (flags : bool * bool) (out : list effect) :
  truthy data = true ->
  treatmentsPart now data clock s = (Normal flags, out, s') ->
  exists cage sage cageChanged sageChanged,
    selectLatest (clock (reads s)) (selected isSiteChange data) = Normal cage /\
    selectLatest
      (clock (match selected isSiteChange data with
              | [] => reads s
              | _ => S (reads s)
              end))
      (selected isSensorChange data) = Normal sage /\
    flags = (rfound cage, rfound sage) /\
    out = (if rfound cage then freshFacts "data.cage" now cage cageChanged else []) ++
          (if rfound sage then freshFacts "data.sage" now sage sageChanged else []).
Proof.
  intros Ht. unfold treatmentsPart, prop. rewrite get_field by exact Ht.
  rewrite bind_lift_normal. unfold selected.
  set (treatments := field data "treatments").
  unfold and_prop, prop.
  destruct (truthy treatments) eqn:Htr.
  - rewrite get_field by exact Htr. rewrite bind_lift_normal. cbn [andb].
    destruct (truthy (field treatments "length")) eqn:Hlen.
    + intros Hrun.
      apply bind_normal_inv in Hrun.
      destruct Hrun as (a & o1 & s1 & o2 & Hcage & Hrun & ->).
      apply bind_normal_inv in Hrun.
      destruct Hrun as (b & o3 & s2 & o4 & Hsage & Hrun & ->).
      inversion Hrun; subst.
      destruct (category_normal _ _ _ _ _ _ _ _ _ Hcage)
        as (kept1 & cage & -> & Hsel1 & -> & -> & changed1 & ->).
      destruct (category_normal _ _ _ _ _ _ _ _ _ Hsage)
        as (kept2 & sage & -> & Hsel2 & -> & _ & changed2 & ->).
      exists cage, sage, changed1, changed2.
      split; [exact Hsel1|]. split.
      { destruct kept1; exact Hsel2. }
      split; [reflexivity|]. rewrite app_nil_r. reflexivity.
    + intros Hrun. inversion Hrun; subst.
      exists rawNone, rawNone, VUndefined, VUndefined. repeat split.
  - rewrite bind_ret. rewrite Htr. cbn [andb].
    intros Hrun. inversion Hrun; subst.
    exists rawNone, rawNone, VUndefined, VUndefined. repeat split.
Qed.

Lemma recoveryPart_run (flags : bool * bool) (clock : nat -> Z) (s : machine) :
  recoveryPart flags clock s = (Normal tt, recoveryReads flags, s).
Proof. destruct flags as [[|] [|]]; reflexivity. Qed.

Lemma emits_run (P : effect -> Prop) {A} (m : M A) (clock : nat -> Z)
  (s s' : machine) (r : completion A) (out : list effect) :
  emits P m -> m clock s = (r, out, s') -> Forall P out.
Proof.
  intros Hm Hrun. specialize (Hm clock s). rewrite Hrun in Hm. exact Hm.
Qed.

(** The pass over a payload that is there is the pass through the
    treatments, then the food records, then the recovery. *)
Lemma dataUpdate_body_split (data : value) (clock : nat -> Z) (s : machine) :
  truthy data = true ->
  dataUpdate_body data clock s
  = (let* flags := throughTreatments data in
     foodPart data ;; recoveryPart flags) clock s.
Proof.
  intros Ht. unfold dataUpdate_body, throughTreatments, when. rewrite Ht.
  rewrite bind_assoc. revert clock s. apply bind_cong. intros [] clock s.
  rewrite bind_assoc. revert clock s. apply bind_cong. intros now clock s.
  rewrite bind_assoc. revert clock s. apply bind_cong. intros lastUpdated clock s.
  rewrite bind_assoc. revert clock s. apply bind_cong. intros [] clock s.
  rewrite bind_assoc. revert clock s. apply bind_cong. intros [] clock s.
  rewrite bind_assoc. reflexivity.
Qed.

(** Nothing of the food records is performed. *)
Lemma foodPart_run (data : value) (clock : nat -> Z) (s : machine) :
  exists r, foodPart data clock s = (r, [], s).
Proof.
  unfold foodPart, prop.
  destruct (get data "food") as [food | e]; [|eexists; reflexivity].
  rewrite bind_lift_normal. unfold and_prop, prop.
  destruct (truthy food).
  - destruct (get food "length") as [c | e]; [|eexists; reflexivity].
    rewrite bind_lift_normal. unfold when.
    destruct (truthy c); [|eexists; reflexivity].
    destruct (filter food isSiteChange) as [kept | e]; eexists; reflexivity.
  - rewrite bind_ret. unfold when.
    destruct (truthy food); [|eexists; reflexivity].
    destruct (filter food isSiteChange) as [kept | e]; eexists; reflexivity.
Qed.

(** The pass through the treatments reads no state; before the treatments
    it touches no [changed] state. *)
Lemma throughTreatments_reads_nothing (data : value) :
  emits (fun e => isRead e = false) (throughTreatments data).
Proof.
  unfold throughTreatments, devicestatusPart, sgvsPart, treatmentsPart,
    category, getLatestTreatmentsInfo, emitAge, setState, log, prop.
  repeat first
    [ progress emits_steps reflexivity
    | match goal with
      | |- emits _ (match ?l with [] => _ | _ :: _ => _ end) => destruct l
      | |- emits _ (if ?b then _ else _) => destruct b
      end ].
Qed.

(** A pass that reaches the end of the [try] block: what it performed
    before the treatments touches no [changed] state, then come the facts
    of the categories for which the selection found a treatment, then the
    reads for the others. *)
Lemma dataUpdate_body_run (data : value) (clock : nat -> Z) (s s' : machine)
  (out : list effect) :
  truthy data = true ->
  dataUpdate_body data clock s = (Normal tt, out, s') ->
  exists pre cage sage cageChanged sageChanged,
    selection "data.cage" data clock s = Normal cage /\
    selection "data.sage" data clock s = Normal sage /\
    Forall (fun e => touchesChanged e = false) pre /\
    out = pre ++
          ((if rfound cage
            then freshFacts "data.cage" (clock (reads s)) cage cageChanged
            else []) ++
           (if rfound sage
            then freshFacts "data.sage" (clock (reads s)) sage sageChanged
            else [])) ++
          recoveryReads (rfound cage, rfound sage).
Proof.
  intros Ht Hrun. unfold dataUpdate_body, when in Hrun. rewrite Ht in Hrun.
  apply bind_normal_inv in Hrun.
  destruct Hrun as ([] & o1 & s1 & o2 & Hraw & Hrun & ->).
  apply bind_normal_inv in Hrun.
  destruct Hrun as (now & o3 & s2 & o4 & Hnow & Hrun & ->).
  apply bind_normal_inv in Hrun.
  destruct Hrun as (lastUpdated & o5 & s3 & o6 & Hlast & Hrun & ->).
  apply bind_normal_inv in Hrun.
  destruct Hrun as ([] & o7 & s4 & o8 & Hset & Hrun & ->).
  apply bind_normal_inv in Hrun.
  destruct Hrun as ([] & o9 & s5 & o10 & Hdev & Hrun & ->).
  apply bind_normal_inv in Hrun.
  destruct Hrun as ([] & o11 & s6 & o12 & Hsgv & Hrun & ->).
  apply bind_normal_inv in Hrun.
  destruct Hrun as (flags & o13 & s7 & o14 & Htr & Hrun & ->).
  apply bind_normal_inv in Hrun.
  destruct Hrun as ([] & o15 & s8 & o16 & Hfood & Hrun & ->).
  rewrite recoveryPart_run in Hrun. inversion Hrun; subst.
  assert (Hs1 : s1 = s) by (inversion Hraw; reflexivity). subst s1.
  assert (Hs2 : now = clock (reads s) /\
                s2 = {| this := this s; reads := S (reads s) |}).
  { unfold Date_now in Hnow. inversion Hnow; split; reflexivity. }
  destruct Hs2 as [-> ->].
  assert (Hs3 : s3 = {| this := this s; reads := S (reads s) |}).
  { eapply still_run; [|exact Hlast]. unfold prop. still_steps. }
  subst s3.
  assert (Hs4 : s4 = {| this := this s; reads := S (reads s) |}).
  { eapply still_run; [|exact Hset]. unfold setState. still_steps. }
  subst s4.
  assert (Hs5 : s5 = {| this := this s; reads := S (reads s) |}).
  { eapply still_run; [|exact Hdev].
    unfold devicestatusPart, setState, prop. still_steps. }
  subst s5.
  assert (Hs6 : s6 = {| this := this s; reads := S (reads s) |}).
  { eapply still_run; [|exact Hsgv].
    unfold sgvsPart, setState, prop. still_steps. }
  subst s6.
  destruct (treatmentsPart_run _ _ _ _ _ _ _ Ht Htr)
    as (cage & sage & cageChanged & sageChanged & Hcage & Hsage & -> & ->).
  cbn [reads] in Hcage, Hsage.
  assert (Hfood' : o15 = []).
  { destruct (foodPart_run data clock s7) as [r Hr]. rewrite Hr in Hfood.
    inversion Hfood; reflexivity. }
  subst o15.
  exists (o1 ++ o3 ++ o5 ++ o7 ++ o9 ++ o11), cage, sage, cageChanged, sageChanged.
  split; [exact Hcage|]. split; [exact Hsage|]. split.
  - repeat (apply Forall_app; split).
    + eapply emits_run; [|exact Hraw]. unfold setState. emits_steps reflexivity.
    + eapply emits_run; [|exact Hnow]. emits_steps reflexivity.
    + eapply emits_run; [|exact Hlast]. unfold prop. emits_steps reflexivity.
    + eapply emits_run; [|exact Hset]. unfold setState. emits_steps reflexivity.
    + eapply emits_run; [|exact Hdev].
      unfold devicestatusPart, setState, prop. emits_steps reflexivity.
    + eapply emits_run; [|exact Hsgv].
      unfold sgvsPart, setState, prop. emits_steps reflexivity.
  - cbn [app]. rewrite <- !app_assoc. reflexivity.
Qed.

(** A pass that throws performed what the pass through the treatments
    had performed, and so read no state. *)
Lemma dataUpdate_body_throw (data : value) (clock : nat -> Z) (s : machine)
  (e : string) :
  result (dataUpdate_body data clock s) = TypeError e ->
  Forall (fun x => isRead x = false) (outputs (dataUpdate_body data clock s)).
Proof.
  destruct (truthy data) eqn:Ht.
  - rewrite dataUpdate_body_split by exact Ht. unfold bind.
    pose proof (throughTreatments_reads_nothing data clock s) as Hpre.
    destruct (throughTreatments data clock s) as [[[flags | e1] o1] s1];
      cbn [outputs fst snd] in Hpre; [|intros _; exact Hpre].
    destruct (foodPart_run data clock s1) as [r ->].
    destruct r as [[] | e2].
    + rewrite recoveryPart_run. discriminate.
    + intros _. cbn [outputs fst snd]. rewrite app_nil_r. exact Hpre.
  - unfold dataUpdate_body, when. rewrite Ht. discriminate.
Qed.

Lemma untouched (e : effect) (id : string) :
  touchesChanged e = false ->
  readsState id e = false /\
  setsId "data.cage.changed" e = false /\
  setsId "data.sage.changed" e = false.
Proof.
  destruct e as [id' st | id' | | | |];
    try (intros _; repeat split; reflexivity); [|discriminate].
  unfold touchesChanged, setsId, readsState. intros Hno.
  apply orb_false_iff in Hno. destruct Hno as [Hc Hs].
  rewrite (String.eqb_sym "data.cage.changed" id'), Hc.
  rewrite (String.eqb_sym "data.sage.changed" id'), Hs. repeat split.
Qed.

Lemma untouched_all (pre : list effect) (id : string) :
  Forall (fun e => touchesChanged e = false) pre ->
  existsb (readsState id) pre = false /\
  existsb (setsId "data.cage.changed") pre = false /\
  existsb (setsId "data.sage.changed") pre = false.
Proof.
  induction 1 as [|e rest He _ (IH1 & IH2 & IH3)]; [repeat split|].
  destruct (untouched e id He) as (H1 & H2 & H3). cbn.
  rewrite H1, H2, H3, IH1, IH2, IH3. repeat split.
Qed.

Lemma reads_nothing (out : list effect) (id : string) :
  Forall (fun e => isRead e = false) out -> existsb (readsState id) out = false.
Proof.
  induction 1 as [|e rest He _ IH]; [reflexivity|].
  cbn [existsb]. rewrite IH, orb_false_r.
  destruct e; try reflexivity. discriminate.
Qed.

Lemma quot_one (a b : Z) : 0 < b -> b <= a < 2 * b -> a ÷ b = 1.
Proof.
  intros Hb Hab. rewrite Z.quot_div_nonneg by lia.
  symmetry. apply (Z.div_unique a b 1 (a - b)); lia.
Qed.

(** C2 (amended). In a [dataUpdate] whose payload is there and whose pass
    reaches the end of the [try] block, the selection of each category
    (cage or sage) on the records of the payload that its filter keeps
    returns, and the stored [changed] state of the category is read exactly
    when that selection found no treatment, and a [changed] fact is set for
    it exactly when it found one; on records whose [mills] are numbers a
    treatment is found exactly when one of them has a timestamp greater
    than 0 and not after now.  When the store holds a state under that
    id, the callback of the read sets the [age], [days] and [hours] facts
    computed from its [val] against now, and no [changed] fact; when it
    holds none, the callback does nothing.  A stored [changed] of 30 hours
    before now gives age 30, days 1, hours 6 (the local offsets at the two
    instants differing by at most 6 hours).  A pass that throws reads no
    state, and neither does the handler without a payload. *)
Theorem recovery_path (data : value) (clock : nat -> Z) (s : machine)
  (getState : string -> option ioState) :
  (truthy data = true ->
   result (dataUpdate_body data clock s) = Normal tt ->
   forall baseId, baseId = "data.cage" \/ baseId = "data.sage" ->
     exists info,
       selection baseId data clock s = Normal info /\
       existsb (readsState (baseId ++ ".changed"))
         (outputs (on_dataUpdate data clock s)) = negb (rfound info) /\
       existsb (setsId (baseId ++ ".changed"))
         (outputs (on_dataUpdate data clock s)) = rfound info) /\
  (forall now treatments,
     now <= maxTime -> forallb plain treatments = true ->
     exists info,
       selectLatest now treatments = Normal info /\
       rfound info = existsb (qualifies now) (candidates treatments)) /\
  (forall baseId st,
     let now := clock (reads s) in
     getState (baseId ++ ".changed")%string = Some st ->
     answer_recalcAges getState baseId clock s
     = (Normal tt, recoveredFacts baseId now (recalc now (val st)),
        {| this := this s; reads := S (reads s) |}) /\
     existsb (setsId (baseId ++ ".changed"))
       (outputs (answer_recalcAges getState baseId clock s)) = false) /\
  (forall baseId,
     getState (baseId ++ ".changed")%string = None ->
     answer_recalcAges getState baseId clock s = (Normal tt, [], s)) /\
  (forall baseId st,
     let now := clock (reads s) in
     getState (baseId ++ ".changed")%string = Some st ->
     val st = now - 30 * 3600000 ->
     Z.abs (utcOffset (val st) - utcOffset now) <= 360 ->
     outputs (answer_recalcAges getState baseId clock s)
     = [ ageFact (baseId ++ ".age") now 30;
         ageFact (baseId ++ ".days") now 1;
         ageFact (baseId ++ ".hours") now 6 ]) /\
  (forall e id,
     result (dataUpdate_body data clock s) = TypeError e ->
     existsb (readsState id) (outputs (on_dataUpdate data clock s)) = false) /\
  (truthy data = false ->
   on_dataUpdate data clock s
   = (Normal tt,
      [ Log debug "[CLIENT] dataUpdate: ";
        SetState "data.rawUpdate" (StateJson data true) ], s)).
Proof.
  split; [|split; [|split; [|split; [|split; [|split]]]]].
  - intros Ht Hres baseId HbaseId. rewrite on_dataUpdate_run.
    destruct (dataUpdate_body data clock s) as [[r out] s'] eqn:Hrun.
    cbn in Hres. subst r.
    destruct (dataUpdate_body_run data clock s s' out Ht Hrun)
      as (pre & cage & sage & cageChanged & sageChanged
          & Hcage & Hsage & Hpre & ->).
    destruct (untouched_all pre (baseId ++ ".changed") Hpre) as (Hr & Hc & Hs).
    destruct HbaseId as [-> | ->]; [exists cage | exists sage];
      (split; [assumption|]);
      cbn [outputs fst snd existsb readsState setsId orb];
      rewrite !existsb_app; cbn [append] in Hr |- *; rewrite Hr;
      [rewrite Hc | rewrite Hs];
      unfold recoveryReads; cbn [fst snd];
      destruct (rfound cage), (rfound sage); split; reflexivity.
  - intros now treatments Hnow Hplain.
    exists (asRaw (_getLatestTreatmentsInfo now (candidates treatments))).
    split; [apply selectLatest_numbers; assumption|].
    cbn [asRaw rfound].
    rewrite selection_found. apply latest_qualifies.
  - intros baseId st now Hst. unfold answer_recalcAges. rewrite Hst.
    rewrite _recalcAges_then_run. split; [reflexivity|].
    cbn [outputs fst snd recoveredFacts ageFact existsb setsId].
    rewrite !append_eqb. reflexivity.
  - intros baseId Hst. unfold answer_recalcAges. rewrite Hst. reflexivity.
  - intros baseId st. cbn zeta. intros Hst Hval Hoff.
    unfold answer_recalcAges. rewrite Hst. rewrite _recalcAges_then_run.
    unfold outputs, recoveredFacts, recalc. cbn [fst snd age days hours].
    assert (Hage : diff_hours (clock (reads s)) (val st) = 30).
    { rewrite Hval.
      replace (clock (reads s) - 30 * 3600000)
        with (clock (reads s) - (30 * 3600000 + 0)) by lia.
      apply diff_hours_back; lia. }
    assert (Hdays : diff_days (clock (reads s)) (val st) = 1).
    { unfold diff_days, zoneDelta. apply quot_one; lia. }
    rewrite Hage, Hdays. reflexivity.
  - intros e id Hres. pose proof (dataUpdate_body_throw data clock s e Hres) as Hno.
    rewrite on_dataUpdate_run.
    destruct (dataUpdate_body data clock s) as [[r out] s'].
    cbn in Hres. subst r. cbn [outputs fst snd] in Hno |- *.
    cbn [existsb readsState orb]. rewrite existsb_app.
    rewrite (reads_nothing out id Hno). reflexivity.
  - intros Ht. rewrite on_dataUpdate_run. unfold dataUpdate_body, when.
    rewrite Ht. reflexivity.
Qed.

End Recovery.

(** C2, as stated, fails on a payload whose pass throws before the
    treatments are reached: the last device status is [null], no treatment
    is found, and the stored [changed] states are not read, so that the
    cannula change the store holds is not set again. *)
Lemma decode_failure_skips_recovery :
  let s := {| this := {| previousNotifyTimestamp := VNull;
                         secretHash := VNull;
                         nsSocket := Some "http://localhost:1337" |};
              reads := 0 |} in
  let clock := fun _ : nat => 1600000000000 in
  let data := VObj [("devicestatus", VArr [VNull])] in
  stored_cage "data.cage.changed" = Some {| val := 1599892000000 |} /\
  @on_dataUpdate utc data clock s
  = (Normal tt,
     [ Log debug "[CLIENT] dataUpdate: ";
       SetState "data.rawUpdate" (StateJson data true);
       Log error "[CLIENT] Parse Error: Cannot read property 'device'" ],
     {| this := this s; reads := 1 |}) /\
  existsb (setsId "data.cage.changed") (outputs (@on_dataUpdate utc data clock s))
  = false /\
  existsb (readsState "data.cage.changed")
    (outputs (@on_dataUpdate utc data clock s)) = false.
Proof.
  cbn zeta. repeat split.
Qed.

Lemma recovery_path_witness :
  let s := {| this := {| previousNotifyTimestamp := VNull;
                         secretHash := VNull;
                         nsSocket := Some "http://localhost:1337" |};
              reads := 0 |} in
  let clock := fun _ : nat => 1600000000000 in
  let record label at_ := VObj [("eventType", VStr label); ("mills", VNum at_)] in
  let data :=
    VObj [ ("treatments",
            VArr [ record "Site Change" 1599982000000;
                   record "Sensor Start" 1600000000001 ]) ] in
  let broken := VObj [("devicestatus", VArr [VNull])] in
  (exists info,
     @selection utc "data.cage" data clock s = Normal info /\
     existsb (readsState "data.cage.changed")
       (outputs (@on_dataUpdate utc data clock s)) = negb (rfound info) /\
     existsb (setsId "data.cage.changed")
       (outputs (@on_dataUpdate utc data clock s)) = rfound info) /\
  (exists info,
     @selection utc "data.sage" data clock s = Normal info /\
     existsb (readsState "data.sage.changed")
       (outputs (@on_dataUpdate utc data clock s)) = negb (rfound info) /\
     existsb (setsId "data.sage.changed")
       (outputs (@on_dataUpdate utc data clock s)) = rfound info) /\
  outputs (@answer_recalcAges utc stored_cage "data.cage" clock s)
  = [ ageFact "data.cage.age" 1600000000000 30;
      ageFact "data.cage.days" 1600000000000 1;
      ageFact "data.cage.hours" 1600000000000 6 ] /\
  @answer_recalcAges utc stored_cage "data.sage" clock s = (Normal tt, [], s) /\
  existsb (readsState "data.cage.changed")
    (outputs (@on_dataUpdate utc broken clock s)) = false /\
  @on_dataUpdate utc VNull clock s
  = (Normal tt,
     [ Log debug "[CLIENT] dataUpdate: ";
       SetState "data.rawUpdate" (StateJson VNull true) ], s).
Proof.
  cbn zeta.
  destruct (@recovery_path utc
              (VObj [ ("treatments",
                       VArr [ VObj [("eventType", VStr "Site Change");
                                    ("mills", VNum 1599982000000)];
                              VObj [("eventType", VStr "Sensor Start");
                                    ("mills", VNum 1600000000001)] ]) ])
              (fun _ => 1600000000000)
              {| this := {| previousNotifyTimestamp := VNull;
                            secretHash := VNull;
                            nsSocket := Some "http://localhost:1337" |};
                 reads := 0 |} stored_cage)
    as (Hread & _ & _ & Hnone & Hexample & _ & _).
  destruct (@recovery_path utc (VObj [("devicestatus", VArr [VNull])])
              (fun _ => 1600000000000)
              {| this := {| previousNotifyTimestamp := VNull;
                            secretHash := VNull;
                            nsSocket := Some "http://localhost:1337" |};
                 reads := 0 |} stored_cage)
    as (_ & _ & _ & _ & _ & Hthrow & _).
  destruct (@recovery_path utc VNull
              (fun _ => 1600000000000)
              {| this := {| previousNotifyTimestamp := VNull;
                            secretHash := VNull;
                            nsSocket := Some "http://localhost:1337" |};
                 reads := 0 |} stored_cage)
    as (_ & _ & _ & _ & _ & _ & Habsent).
  split; [apply (Hread eq_refl eq_refl "data.cage"); left; reflexivity|].
  split; [apply (Hread eq_refl eq_refl "data.sage"); right; reflexivity|].
  split.
  { apply (Hexample "data.cage" {| val := 1599892000000 |});
      vm_compute; [reflexivity | reflexivity | discriminate]. }
  split; [apply (Hnone "data.sage"); reflexivity|].
  split.
  { apply (Hthrow "Cannot read property 'device'" "data.cage.changed").
    reflexivity. }
  apply Habsent. reflexivity.
Defined.

(** ** Failures of handlers *)

Section Failures.
Context `{Host}.

(** C4. The [dataUpdate] handler catches what its pass throws: it returns,
    with what the pass had performed and the error logged; the handlers of
    [alarm], [urgent_alarm] and [retroUpdate] cannot throw.  The handlers
    of [notification] and [announcement] have no [try]: they throw exactly
    when a value they turn into a string or a date cannot be converted,
    and the error leaves the handler.  The [clear_alarm] handler reads
    [data.clear] unguarded: without a payload it throws, and the error
    leaves the handler. *)
Theorem clear_alarm_failure_escapes (clock : nat -> Z) (s : machine) :
  (forall data,
     handle (dataUpdate data) clock s
     = match dataUpdate_body data clock s with
       | (Normal _, out, s') =>
           (Normal tt, Log debug "[CLIENT] dataUpdate: " :: out, s')
       | (TypeError e, out, s') =>
           (Normal tt,
            Log debug "[CLIENT] dataUpdate: "
              :: out ++ [Log error ("[CLIENT] Parse Error: " ++ e)%string],
            s')
       end) /\
  (forall data,
     result (handle (notification data) clock s)
     = if truthy data
          && negb (truthy (field data "timestamp")
                   && strict_eq (field data "timestamp")
                        (previousNotifyTimestamp (this s)))
       then match conversions data with
            | Normal _ => Normal tt
            | TypeError e => TypeError e
            end
       else Normal tt) /\
  (forall data,
     result (handle (announcement data) clock s)
     = match to_string data with
       | Normal _ => Normal tt
       | TypeError e => TypeError e
       end) /\
  (forall data, result (handle (alarm data) clock s) = Normal tt) /\
  (forall data, result (handle (urgent_alarm data) clock s) = Normal tt) /\
  (forall data, result (handle (retroUpdate data) clock s) = Normal tt) /\
  handle (clear_alarm VNull) clock s
  = (TypeError "Cannot read property 'clear'",
     [Log debug "[CLIENT] clear_alarm: "], s) /\
  handle (clear_alarm VUndefined) clock s
  = (TypeError "Cannot read property 'clear'",
     [Log debug "[CLIENT] clear_alarm: "], s) /\
  handle (announcement (VObj [("toString", VNum 1)])) clock s
  = (TypeError "Cannot convert object to primitive value", [], s) /\
  result (handle (notification (VObj [("title", VObj [("toString", VNum 1)])]))
            clock s)
  = TypeError "Cannot convert object to primitive value".
Proof.
  assert (Hlevel : forall data n clock' s',
            exists v, levelIs data n clock' s' = (Normal v, [], s')).
  { intros data n clock' s'. unfold levelIs.
    destruct (truthy data) eqn:Ht; [|eexists; reflexivity].
    unfold prop. rewrite get_field by exact Ht. rewrite bind_lift_normal.
    destruct (truthy (field data "level")); eexists; reflexivity. }
  assert (Hnote : forall data,
     result (handle (notification data) clock s)
     = if truthy data
          && negb (truthy (field data "timestamp")
                   && strict_eq (field data "timestamp")
                        (previousNotifyTimestamp (this s)))
       then match conversions data with
            | Normal _ => Normal tt
            | TypeError e => TypeError e
            end
       else Normal tt).
  { intros data. cbn [handle]. destruct (truthy data) eqn:Ht.
    - cbn [andb].
      destruct (truthy (field data "timestamp")
                && strict_eq (field data "timestamp")
                     (previousNotifyTimestamp (this s))) eqn:Hdup.
      + rewrite on_notification_run by exact Ht. cbn zeta. rewrite Hdup.
        reflexivity.
      + destruct (on_notification_fresh data clock s Ht Hdup) as [_ Hrun].
        cbn [negb].
        destruct (conversions data) as [[[time title] message] | e];
          destruct Hrun as [-> _]; reflexivity.
    - rewrite on_notification_no_payload by exact Ht. reflexivity. }
  split; [intros data; apply on_dataUpdate_run|].
  split; [exact Hnote|].
  split.
  { intros data. cbn [handle]. unfold on_announcement, log, bind, lift.
    destruct (to_string data); reflexivity. }
  split.
  { intros data. cbn [handle]. unfold on_alarm, log, setState.
    rewrite bind_tell. cbn [result fst].
    destruct (Hlevel data 1 clock s) as [v Hv].
    unfold bind. rewrite Hv. reflexivity. }
  split.
  { intros data. cbn [handle]. unfold on_urgent_alarm, log, setState.
    rewrite bind_tell. cbn [result fst].
    destruct (Hlevel data 2 clock s) as [v Hv].
    unfold bind. rewrite Hv. reflexivity. }
  split; [intros data; reflexivity|].
  split; [reflexivity|]. split; [reflexivity|]. split; [reflexivity|].
  rewrite Hnote. reflexivity.
Qed.
End Failures.

(** ** Closing *)

(** C8. [close] never throws; after it the transport handle is [null]; it
    closes the socket when there was one and does nothing when there was
    none; any number of further calls do nothing and leave the handle
    [null], so that the socket is closed at most once; and on a client
    that was only constructed it closes the socket and returns. *)
Theorem close_idempotent (clock : nat -> Z) (s : machine) :
  let r := close clock s in
  result r = Normal tt /\
  nsSocket (this (after r)) = None /\
  outputs r = match nsSocket (this s) with
              | Some _ => [SocketClose]
              | None => []
              end /\
  (forall k clock', close_times k clock' (after r) = (Normal tt, [], after r)) /\
  (forall k,
     (List.length (List.filter isSocketClose (outputs (close_times (S k) clock s)))
      <= 1)%nat) /\
  (forall URL hash remoteSecret sha1 n,
     close clock {| this := NightscoutClient_new URL hash remoteSecret sha1;
                    reads := n |}
     = (Normal tt, [SocketClose],
        {| this := {| previousNotifyTimestamp := VNull;
                      secretHash := secretHash
                        (NightscoutClient_new URL hash remoteSecret sha1);
                      nsSocket := None |};
           reads := n |})).
Proof.
  assert (Hagain : forall k clock' s',
            nsSocket (this s') = None ->
            close_times k clock' s' = (Normal tt, [], s')).
  { induction k as [|k IH]; intros clock' s' Hnone; [reflexivity|].
    cbn [close_times]. unfold bind.
    replace (close clock' s') with (Normal tt, @nil effect, s')
      by (destruct s' as [[cursor hash sock] n]; cbn in Hnone; subst sock;
          reflexivity).
    rewrite (IH clock' s' Hnone). reflexivity. }
  assert (Hnone : nsSocket (this (after (close clock s))) = None).
  { destruct s as [[cursor hash [sock|]] n]; reflexivity. }
  cbn zeta. split; [destruct s as [[cursor hash [sock|]] n]; reflexivity|].
  split; [exact Hnone|].
  split; [destruct s as [[cursor hash [sock|]] n]; reflexivity|].
  split; [intros k clock'; apply Hagain; exact Hnone|].
  split; [|reflexivity].
  intros k. cbn [close_times]. unfold bind.
  pose proof (Hagain k clock (after (close clock s)) Hnone) as Hrest.
  destruct s as [[cursor hash [sock|]] n]; cbn in Hrest |- *;
    rewrite Hrest; cbn; auto.
Qed.

(** * Further properties *)

(** ** The age selection *)

Section SelectionFacts.
Context `{Host}.

Lemma selection_as_fold (now : Z) (treatments : list treatment) :
  _getLatestTreatmentsInfo now treatments
  = snd (fold_left (visit now) treatments (0, noTreatment)).
Proof. destruct treatments; reflexivity. Qed.

Lemma visit_prevDate_nonneg (now p : Z) (info : treatmentInfo) (t : treatment) :
  0 <= p -> 0 <= fst (visit now (p, info) t).
Proof.
  intros Hp. unfold visit.
  destruct ((mills t >? p) && (mills t <=? now)) eqn:Hc; [|exact Hp].
  apply andb_true_iff in Hc. destruct Hc as [Hgt _]. apply Z.gtb_lt in Hgt.
  destruct (negb (found info) || _); cbn; lia.
Qed.

Lemma visit_unqualified (now p : Z) (info : treatmentInfo) (t : treatment) :
  0 <= p -> qualifies now t = false -> visit now (p, info) t = (p, info).
Proof.
  intros Hp Hq. apply visit_skip. unfold qualifies in Hq.
  destruct (mills t <=? now); [|apply andb_false_r].
  rewrite andb_true_r in *. apply Z.ltb_ge in Hq.
  destruct (Z.gtb_spec (mills t) p); [lia | reflexivity].
Qed.

Lemma fold_visit_qualifying (now : Z) (treatments : list treatment) :
  forall st, 0 <= fst st ->
    fold_left (visit now) treatments st
    = fold_left (visit now) (List.filter (qualifies now) treatments) st.
Proof.
  induction treatments as [|t rest IH]; intros [p info] Hp; [reflexivity|].
  cbn [fold_left List.filter]. cbn [fst] in Hp.
  destruct (qualifies now t) eqn:Hq.
  - cbn [fold_left]. apply IH. apply visit_prevDate_nonneg. exact Hp.
  - rewrite visit_unqualified by assumption. apply IH. exact Hp.
Qed.

(** [found] and [age] are those of the latest qualifying timestamp. *)
Lemma selection_found_age (now : Z) (treatments : list treatment) :
  let info := _getLatestTreatmentsInfo now treatments in
  found info = (0 <? latest now treatments) /\
  age info = if 0 <? latest now treatments
             then diff_hours now (latest now treatments) else 0.
Proof.
  cbn zeta. destruct (selection_latest now treatments) as (Hp & Hnone & Hsome).
  destruct (found (_getLatestTreatmentsInfo now treatments)) eqn:Hf.
  - destruct (Hsome eq_refl) as (Hin & Hpin & Ha & _ & _ & Hall).
    destruct (Hall _ Hpin) as (Hpos & _ & _ & Hmin).
    destruct (Hall _ Hin) as (_ & Hmp & _ & _).
    replace (0 <? latest now treatments) with true
      by (symmetry; apply Z.ltb_lt; exact Hpos).
    split; [reflexivity|].
    pose proof (diff_hours_mono now _ _ Hmp). lia.
  - destruct (Hnone eq_refl) as (_ & -> & ->). split; reflexivity.
Qed.

Lemma latest_perm (now : Z) (l l' : list treatment) :
  Permutation l l' -> latest now l = latest now l'.
Proof.
  induction 1 as [|t l l' _ IH|t u l|l l' l'' _ IH1 _ IH2]; cbn.
  - reflexivity.
  - rewrite IH. reflexivity.
  - destruct (qualifies now t), (qualifies now u); lia.
  - congruence.
Qed.

(** X1. Records whose timestamp is not after 0 or is after now play no
    part: the selection over a list is the selection over its qualifying
    records. *)
Theorem selection_ignores_unqualified (now : Z) (treatments : list treatment) :
  _getLatestTreatmentsInfo now treatments
  = _getLatestTreatmentsInfo now (List.filter (qualifies now) treatments).
Proof.
  rewrite !selection_as_fold. f_equal.
  apply fold_visit_qualifying. cbn. lia.
Qed.

(** X2. [found] and [age] do not depend on the order of the treatments,
    while [millis], the timestamp kept as [changed], does: of two records
    in the same whole hour the first in the list is kept. *)
Theorem selection_order (now : Z) (l l' : list treatment) :
  Permutation l l' ->
  found (_getLatestTreatmentsInfo now l) = found (_getLatestTreatmentsInfo now l') /\
  age (_getLatestTreatmentsInfo now l) = age (_getLatestTreatmentsInfo now l') /\
  (forall e,
     millis (_getLatestTreatmentsInfo 7200000
               [ {| eventType := e; mills := 1 |}; {| eventType := e; mills := 2 |} ])
     = 1 /\
     millis (_getLatestTreatmentsInfo 7200000
               [ {| eventType := e; mills := 2 |}; {| eventType := e; mills := 1 |} ])
     = 2).
Proof.
  intros Hperm.
  destruct (selection_found_age now l) as [Hf Ha].
  destruct (selection_found_age now l') as [Hf' Ha'].
  rewrite Hf, Hf', Ha, Ha', (latest_perm now l l' Hperm).
  repeat split.
Qed.

(** X3. The timestamp a found treatment is stored with gives the same Age
    Info back: recomputing from [millis] against the same now returns the
    info of the selection; that timestamp is positive and not after now,
    and it is the value of the [changed] fact when now is in the range of
    a [Date]. *)
Theorem recalc_of_selected (now : Z) (treatments : list treatment) :
  let info := _getLatestTreatmentsInfo now treatments in
  found info = true ->
  recalc now (millis info) = info /\
  0 < millis info <= now /\
  (now <= maxTime ->
   Date_getTime (VNum (millis info)) = Normal (VNum (millis info))).
Proof.
  cbn zeta. intros Hf.
  destruct (selection_latest now treatments) as (_ & _ & Hsome).
  destruct (Hsome Hf) as (Hin & _ & Ha & Hd & Hh & Hall).
  destruct (Hall _ Hin) as (Hpos & _ & Hnow & _).
  split; [|split; [lia|]].
  - destruct (_getLatestTreatmentsInfo now treatments) as [f a d h m].
    cbn in *. subst f. unfold recalc. rewrite <- Hd, <- Ha, <- Hh. reflexivity.
  - intros Hrange. unfold Date_getTime.
    replace (Z.abs (millis (_getLatestTreatmentsInfo now treatments)) <=? maxTime)
      with true by (symmetry; apply Z.leb_le; lia).
    reflexivity.
Qed.

Lemma rem_hours (a : Z) : 0 <= a -> 0 <= a - a ÷ 24 * 24 < 24.
Proof.
  intros Ha. rewrite Z.quot_div_nonneg by lia.
  pose proof (Z.mod_pos_bound a 24 ltac:(lia)) as Hm.
  rewrite Z.mod_eq in Hm by lia. lia.
Qed.

(** X4. For a timestamp not after now, with the same local offset at both
    instants, the recomputed [age] and [days] are not negative and [hours]
    is between 0 and 23; so it is for the info the selection found. *)
Theorem age_parts_bounds (now : Z) (treatments : list treatment)
  (treatmentDate : Z) :
  (treatmentDate <= now ->
   utcOffset treatmentDate = utcOffset now ->
   let r := recalc now treatmentDate in
   0 <= age r /\ 0 <= days r /\ 0 <= hours r < 24) /\
  (let info := _getLatestTreatmentsInfo now treatments in
   found info = true ->
   utcOffset (millis info) = utcOffset now ->
   0 <= age info /\ 0 <= days info /\ 0 <= hours info < 24).
Proof.
  assert (Hbounds : forall t, t <= now -> utcOffset t = utcOffset now ->
            0 <= diff_hours now t /\ 0 <= diff_days now t /\
            0 <= diff_hours now t - diff_days now t * 24 < 24).
  { intros t Ht Hoff. pose proof (diff_hours_nonneg now t Ht) as Ha.
    rewrite (diff_days_of_hours now t Hoff).
    split; [exact Ha|]. split; [apply Z.quot_pos; lia | apply rem_hours; exact Ha]. }
  split.
  - intros Ht Hoff. cbn. apply Hbounds; assumption.
  - cbn zeta. intros Hf Hoff.
    destruct (selection_latest now treatments) as (_ & _ & Hsome).
    destruct (Hsome Hf) as (Hin & _ & Ha & Hd & Hh & Hall).
    destruct (Hall _ Hin) as (_ & _ & Hnow & _).
    rewrite Hh, Hd, Ha. apply Hbounds; assumption.
Qed.

(** X5. The recovery has no guard against a stored timestamp in the future:
    for a stored [changed] an hour or more after now the [age] fact it
    sets is negative.  For a fixed stored timestamp the age never goes
    down as now advances. *)
Theorem recovery_has_no_future_guard (getState : string -> option ioState)
  (baseId : string) (st : ioState) (clock : nat -> Z) (s : machine) :
  (getState (baseId ++ ".changed")%string = Some st ->
   clock (reads s) + 3600000 <= val st ->
   exists a, a < 0 /\
     In (ageFact (baseId ++ ".age") (clock (reads s)) a)
        (outputs (answer_recalcAges getState baseId clock s))) /\
  (forall now now', now <= now' ->
     age (recalc now (val st)) <= age (recalc now' (val st))).
Proof.
  split.
  - intros Hst Hfuture. unfold answer_recalcAges. rewrite Hst.
    exists (diff_hours (clock (reads s)) (val st)). split.
    + unfold diff_hours.
      assert (Hq : (clock (reads s) - val st) ÷ 3600000 <= (- 3600000) ÷ 3600000)
        by (apply Z.quot_le_mono; lia).
      change ((- 3600000) ÷ 3600000) with (-1) in Hq. lia.
    + left. reflexivity.
  - intros now now' Hle. cbn. unfold diff_hours. apply Z.quot_le_mono; lia.
Qed.
End SelectionFacts.

Lemma selection_order_witness :
  found (@_getLatestTreatmentsInfo utc 1600000000000 site_changes)
  = found (@_getLatestTreatmentsInfo utc 1600000000000 (rev site_changes)) /\
  age (@_getLatestTreatmentsInfo utc 1600000000000 site_changes)
  = age (@_getLatestTreatmentsInfo utc 1600000000000 (rev site_changes)).
Proof.
  destruct (@selection_order utc 1600000000000 site_changes (rev site_changes)
              (Permutation_rev site_changes)) as (Hf & Ha & _).
  split; assumption.
Defined.

Lemma recalc_of_selected_witness :
  @recalc utc 1600000000000
    (millis (@_getLatestTreatmentsInfo utc 1600000000000 site_changes))
  = @_getLatestTreatmentsInfo utc 1600000000000 site_changes.
Proof.
  apply (@recalc_of_selected utc 1600000000000 site_changes). reflexivity.
Defined.

Lemma age_parts_bounds_witness :
  let r := @recalc utc 1600000000000 1599892000000 in
  0 <= age r /\ 0 <= days r /\ 0 <= hours r < 24.
Proof.
  apply (proj1 (@age_parts_bounds utc 1600000000000 [] 1599892000000));
    [vm_compute; discriminate | reflexivity].
Defined.

Lemma recovery_has_no_future_guard_witness :
  exists a, a < 0 /\
    In (ageFact "data.cage.age" 1599000000000 a)
       (outputs (@answer_recalcAges utc stored_cage "data.cage"
                   (fun _ => 1599000000000)
                   {| this := NightscoutClient_new "http://localhost:1337"
                                VNull VNull (fun v => v);
                      reads := 0 |})).
Proof.
  apply (proj1 (@recovery_has_no_future_guard utc stored_cage "data.cage"
                  {| val := 1599892000000 |} (fun _ => 1599000000000)
                  {| this := NightscoutClient_new "http://localhost:1337"
                               VNull VNull (fun v => v);
                     reads := 0 |}));
    [reflexivity | vm_compute; discriminate].
Defined.

(** ** What every handler keeps to *)

Ltac unfold_handlers :=
  unfold on_connect, on_disconnect, on_notification, on_announcement,
    on_alarm, on_urgent_alarm, on_clear_alarm, on_retroUpdate, on_authorized,
    on_dataUpdate, dataUpdate_body, devicestatusPart, sgvsPart,
    treatmentsPart, category, getLatestTreatmentsInfo, emitAge, foodPart,
    recoveryPart, _recalcAges, _recalcAges_then, levelIs,
    set_previousNotifyTimestamp, setState, log, prop.

Ltac emits_all side :=
  repeat first
    [ progress emits_steps side
    | match goal with
      | |- emits _ (match ?l with [] => _ | _ :: _ => _ end) => destruct l
      end ].

Lemma transcript_cons (r : completion unit) (out : list effect)
  (log : list (completion unit * list effect)) :
  transcript ((r, out) :: log) = out ++ transcript log.
Proof. reflexivity. Qed.

Lemma lastEmit_app (out out' : list effect) :
  lastEmit (out ++ out')
  = match lastEmit out' with
    | Some b => Some b
    | None => lastEmit out
    end.
Proof.
  induction out as [|e rest IH]; cbn [app lastEmit].
  - destruct (lastEmit out'); reflexivity.
  - rewrite IH. destruct (lastEmit out'); reflexivity.
Qed.

Lemma lastSet_app (id : string) (out out' : list effect) :
  lastSet id (out ++ out')
  = match lastSet id out' with
    | Some st => Some st
    | None => lastSet id out
    end.
Proof.
  induction out as [|e rest IH]; cbn [app lastSet].
  - destruct (lastSet id out'); reflexivity.
  - rewrite IH. destruct (lastSet id out'); reflexivity.
Qed.

Lemma lastEmit_none (out : list effect) :
  Forall (fun e => match e with Emit _ _ => False | _ => True end) out ->
  lastEmit out = None.
Proof.
  induction 1 as [|e rest He _ IH]; [reflexivity|].
  cbn [lastEmit]. rewrite IH. destruct e; try reflexivity. contradiction.
Qed.

Lemma evolves_refl (c : NightscoutClient) : evolves c c.
Proof. repeat split. auto. Qed.

Lemma evolves_trans (a b c : NightscoutClient) :
  evolves a b -> evolves b c -> evolves a c.
Proof.
  intros (Hh & Hs & Hc) (Hh' & Hs' & Hc'). repeat split; try congruence. auto.
Qed.

Section Evolving.

Lemma evolving_ret {A} (a : A) : evolving (ret a).
Proof. intros clock s. apply evolves_refl. Qed.

Lemma evolving_lift {A} (c : completion A) : evolving (lift c).
Proof. intros clock s. apply evolves_refl. Qed.

Lemma evolving_tell (e : effect) : evolving (tell e).
Proof. intros clock s. apply evolves_refl. Qed.

Lemma evolving_Date_now : evolving Date_now.
Proof. intros clock s. apply evolves_refl. Qed.

Lemma evolving_get_this : evolving get_this.
Proof. intros clock s. apply evolves_refl. Qed.

Lemma evolving_bind {A B} (m : M A) (k : A -> M B) :
  evolving m -> (forall a, evolving (k a)) -> evolving (bind m k).
Proof.
  intros Hm Hk clock s. specialize (Hm clock s). unfold bind.
  destruct (m clock s) as [[[a | e] o1] s1]; cbn in *; [|exact Hm].
  specialize (Hk a clock s1). destruct (k a clock s1) as [[r o2] s2].
  cbn in *. eapply evolves_trans; eassumption.
Qed.

Lemma evolving_try_catch (body : M unit) (handler : string -> M unit) :
  evolving body -> (forall e, evolving (handler e)) ->
  evolving (try_catch body handler).
Proof.
  intros Hm Hk clock s. specialize (Hm clock s). unfold try_catch.
  destruct (body clock s) as [[[a | e] o1] s1]; cbn in *; [exact Hm|].
  specialize (Hk e clock s1). destruct (handler e clock s1) as [[r o2] s2].
  cbn in *. eapply evolves_trans; eassumption.
Qed.

Lemma evolving_when (c : value) (m : M unit) :
  (truthy c = true -> evolving m) -> evolving (when c m).
Proof.
  intros Hm. unfold when. destruct (truthy c); [auto | apply evolving_ret].
Qed.

Lemma evolving_and_prop (o : value) (k : string) : evolving (and_prop o k).
Proof.
  unfold and_prop, prop. destruct (truthy o); [apply evolving_lift | apply evolving_ret].
Qed.

(** Moving the cursor to [null] or to a truthy timestamp. *)
Lemma evolving_cursor (v : value) :
  v = VNull \/ truthy v = true -> evolving (set_previousNotifyTimestamp v).
Proof.
  intros Hv clock [c n]. cbn. repeat split. intros _. exact Hv.
Qed.
End Evolving.

Ltac evolving_steps :=
  repeat first
    [ apply evolving_ret
    | apply evolving_lift
    | apply evolving_Date_now
    | apply evolving_get_this
    | apply evolving_and_prop
    | apply evolving_tell
    | apply evolving_cursor; solve [auto]
    | apply evolving_when; intro
    | apply evolving_bind; [|intro]
    | apply evolving_try_catch; [|intro]
    | match goal with
      | |- evolving (if ?b then _ else _) => destruct b
      | |- evolving (match ?o with Some _ => _ | None => _ end) => destruct o
      | |- evolving (let '(_, _) := ?p in _) => destruct p
      | |- evolving (match ?l with [] => _ | _ :: _ => _ end) => destruct l
      end ].

Section HandlerFacts.
Context `{Host}.

Lemma handle_emits (P : effect -> Prop) (ev : event) :
  (forall id st, acked (SetState id st) = true ->
                 knownKey (SetState id st) = true -> P (SetState id st)) ->
  (forall id, knownKey (GetStateAsync id) = true -> P (GetStateAsync id)) ->
  (forall lvl msg, P (Log lvl msg)) ->
  (forall b, P (Emit "connection" b)) ->
  (forall client secret history, P (SocketEmit "authorize" client secret history)) ->
  emits P (handle ev).
Proof.
  intros Hset Hget Hlog Hemit Hsock.
  destruct ev; cbn [handle]; unfold_handlers;
    emits_all ltac:(first [ apply Hlog | apply Hemit | apply Hsock
                          | apply Hget; reflexivity
                          | apply Hset; reflexivity ]).
Qed.

(** X6. Whatever the event and its payload, every state the handler sets
    is set acknowledged, under one of the ids of the adapter, and the only
    states it reads are [data.cage.changed] and [data.sage.changed]; so it
    is for the callbacks of those reads. *)
Theorem handlers_set_known_acknowledged_states (ev : event) (clock : nat -> Z)
  (s : machine) (state : option ioState) :
  forallb (fun e => acked e && knownKey e) (outputs (handle ev clock s)) = true /\
  forallb (fun e => acked e && knownKey e)
    (outputs (_recalcAges_then "data.cage" state clock s)) = true /\
  forallb (fun e => acked e && knownKey e)
    (outputs (_recalcAges_then "data.sage" state clock s)) = true.
Proof.
  split; [|split; destruct state; reflexivity].
  apply forallb_forall. intros e He.
  assert (Hall : emits (fun e => acked e && knownKey e = true) (handle ev)).
  { apply handle_emits; intros; try reflexivity;
      apply andb_true_iff; split; first [assumption | reflexivity]. }
  specialize (Hall clock s). rewrite Forall_forall in Hall. apply Hall. exact He.
Qed.

Lemma handle_lastEmit (ev : event) (clock : nat -> Z) (s : machine) :
  lastEmit (outputs (handle ev clock s)) = lastStatus [ev].
Proof.
  destruct ev; cbn [lastStatus handle];
    try (apply lastEmit_none; revert clock s;
         match goal with |- forall clock s, Forall ?P (outputs (?m clock s)) =>
           change (emits P m) end;
         unfold_handlers; emits_all ltac:(exact I)).
  - destruct s as [[cursor hash [sock|]] n]; reflexivity.
  - reflexivity.
Qed.

(** X7. The connection status last told to the observers is that of the
    last [connect] or [disconnect] delivered: true after a [connect], false
    after a [disconnect], whatever other events came since. *)
Theorem connection_status_follows_events (evs : list event) (clock : nat -> Z)
  (s : machine) :
  lastEmit (transcript (fst (deliver clock evs s))) = lastStatus evs.
Proof.
  revert s. induction evs as [|ev rest IH]; intros s; [reflexivity|].
  cbn [deliver lastStatus].
  pose proof (handle_lastEmit ev clock s) as Hev.
  destruct (handle ev clock s) as [[r out] s1]. cbn [outputs fst snd] in Hev.
  specialize (IH s1). destruct (deliver clock rest s1) as [log s2].
  cbn [fst] in *. rewrite transcript_cons, lastEmit_app, IH, Hev.
  cbn [lastStatus]. reflexivity.
Qed.

Lemma handle_evolving (ev : event) : evolving (handle ev).
Proof.
  destruct ev; cbn [handle]; unfold_handlers; evolving_steps.
Qed.

(** X8. No event changes the credential or the transport handle, and the
    Dedup Cursor of a client whose cursor is [null] or a truthy timestamp
    stays so: it never holds [undefined], 0 or an empty string. *)
Theorem events_keep_the_client (evs : list event) (clock : nat -> Z) (s : machine) :
  let s' := snd (deliver clock evs s) in
  secretHash (this s') = secretHash (this s) /\
  nsSocket (this s') = nsSocket (this s) /\
  (cursor_ok (this s) -> cursor_ok (this s')).
Proof.
  cbn zeta. change (evolves (this s) (this (snd (deliver clock evs s)))).
  revert s. induction evs as [|ev rest IH]; intros s; [apply evolves_refl|].
  cbn [deliver]. pose proof (handle_evolving ev clock s) as Hev.
  destruct (handle ev clock s) as [[r out] s1]. cbn [after snd] in Hev.
  specialize (IH s1). destruct (deliver clock rest s1) as [log s2].
  cbn [snd] in *. eapply evolves_trans; eassumption.
Qed.
End HandlerFacts.

Lemma events_keep_the_client_witness :
  let s := {| this := NightscoutClient_new "http://localhost:1337" VNull VNull
                        (fun v => v);
              reads := 0 |} in
  cursor_ok
    (this (snd (@deliver utc (fun _ => 1600000000000)
                  [ notification (VObj [("timestamp", VNum 5)]);
                    notification (VObj [("timestamp", VNum 0)]);
                    connect ] s))).
Proof.
  cbn zeta.
  apply (@events_keep_the_client utc
           [ notification (VObj [("timestamp", VNum 5)]);
             notification (VObj [("timestamp", VNum 0)]);
             connect ]).
  left. reflexivity.
Defined.

(** ** Alarms *)

Lemma get_defined (o : value) (k : string) :
  o <> VNull -> o <> VUndefined -> get o k = Normal (field o k).
Proof.
  intros Hn Hu. unfold field. destruct o; try reflexivity; contradiction.
Qed.

Lemma field_truthy_get (o : value) (k : string) :
  truthy (field o k) = true -> get o k = Normal (field o k).
Proof.
  unfold field. destruct (get o k); [reflexivity | discriminate].
Qed.

Lemma deliver_app_fst (H : Host) (clock : nat -> Z) (evs evs' : list event)
  (s : machine) :
  fst (deliver clock (evs ++ evs') s)
  = fst (deliver clock evs s)
    ++ fst (deliver clock evs' (snd (deliver clock evs s))).
Proof.
  revert s. induction evs as [|ev rest IH]; intros s; [reflexivity|].
  cbn [app deliver]. destruct (handle ev clock s) as [[r out] s1].
  specialize (IH s1).
  destruct (deliver clock (rest ++ evs') s1) as [log1 s2].
  destruct (deliver clock rest s1) as [log2 s3]. cbn [fst snd] in *.
  rewrite IH. reflexivity.
Qed.

Lemma transcript_app (log log' : list (completion unit * list effect)) :
  transcript (log ++ log') = transcript log ++ transcript log'.
Proof.
  unfold transcript. rewrite map_app, concat_app. reflexivity.
Qed.

Section Alarms.
Context `{Host}.

Lemma levelIs_run (data : value) (n : Z) (clock : nat -> Z) (s : machine) :
  levelIs data n clock s
  = (Normal (if truthy data then
               if truthy (field data "level")
               then VBool (strict_eq (field data "level") (VNum n))
               else field data "level"
             else data),
     [], s).
Proof.
  unfold levelIs. destruct (truthy data) eqn:Ht; [|reflexivity].
  unfold prop. rewrite get_field by exact Ht. rewrite bind_lift_normal.
  destruct (truthy (field data "level")); reflexivity.
Qed.

Lemma level_value (data : value) (n : Z) :
  n <> 0 ->
  let v := if truthy data then
             if truthy (field data "level")
             then VBool (strict_eq (field data "level") (VNum n))
             else field data "level"
           else data in
  (v = VBool true <-> truthy data = true /\ field data "level" = VNum n) /\
  (v = VBool true \/ truthy v = false).
Proof.
  intros Hn. cbn zeta. destruct (truthy data) eqn:Ht.
  - destruct (truthy (field data "level")) eqn:Hl.
    + destruct (strict_eq (field data "level") (VNum n)) eqn:Heq.
      * apply strict_eq_eq in Heq. split; [tauto | left; reflexivity].
      * split; [|right; reflexivity]. split; [discriminate|].
        intros [_ Hlevel]. rewrite Hlevel in Heq. cbn in Heq.
        rewrite Z.eqb_refl in Heq. discriminate.
    + split; [|right; exact Hl]. split.
      * intros Hv. rewrite Hv in Hl. discriminate.
      * intros [_ Hlevel]. rewrite Hlevel in Hl. cbn in Hl.
        destruct (Z.eqb_spec n 0); [contradiction | discriminate].
  - split; [|right; exact Ht]. split.
    + intros Hv. rewrite Hv in Ht. discriminate.
    + intros [Hd _]. discriminate.
Qed.

(** X9. The [alarm] handler always sets [data.alarm], acknowledged, and
    never throws: to [true] exactly when the payload is there and its
    [level] is the number 1, and to a falsy value otherwise ([false], or
    the missing payload or level itself).  So does [urgent_alarm] with
    [data.urgentAlarm] and level 2. *)
Theorem alarm_levels (data : value) (clock : nat -> Z) (s : machine) :
  exists v u,
    on_alarm data clock s
    = (Normal tt,
       [Log debug "[CLIENT] alarm: "; SetState "data.alarm" (StateVal v true)], s) /\
    (v = VBool true <-> truthy data = true /\ field data "level" = VNum 1) /\
    (v = VBool true \/ truthy v = false) /\
    on_urgent_alarm data clock s
    = (Normal tt,
       [ Log debug "[CLIENT] urgentAlarm: ";
         SetState "data.urgentAlarm" (StateVal u true) ], s) /\
    (u = VBool true <-> truthy data = true /\ field data "level" = VNum 2) /\
    (u = VBool true \/ truthy u = false).
Proof.
  eexists. eexists.
  split; [|split; [|split; [|split; [|split]]]].
  - unfold on_alarm, log, setState. rewrite bind_tell.
    unfold bind. rewrite levelIs_run. reflexivity.
  - apply (level_value data 1). lia.
  - apply (level_value data 1). lia.
  - unfold on_urgent_alarm, log, setState. rewrite bind_tell.
    unfold bind. rewrite levelIs_run. reflexivity.
  - apply (level_value data 2). lia.
  - apply (level_value data 2). lia.
Qed.

Lemma on_clear_alarm_run (data : value) (clock : nat -> Z) (s : machine) :
  truthy (field data "clear") = true ->
  on_clear_alarm data clock s
  = (Normal tt,
     [ Log debug "[CLIENT] clear_alarm: ";
       SetState "data.alarm" (StateVal (VBool false) true);
       SetState "data.urgentAlarm" (StateVal (VBool false) true) ], s).
Proof.
  intros Hc. unfold on_clear_alarm, log, setState, prop, when.
  rewrite bind_tell, (field_truthy_get _ _ Hc), bind_lift_normal, Hc.
  reflexivity.
Qed.

(** X10. A [clear_alarm] whose [clear] is truthy leaves both alarm states
    [false], whatever was delivered before it; one whose payload is there
    with a falsy [clear] sets nothing. *)
Theorem clear_alarm_resets (evs : list event) (data : value) (clock : nat -> Z)
  (s : machine) :
  (truthy (field data "clear") = true ->
   let out := transcript (fst (deliver clock (evs ++ [clear_alarm data]) s)) in
   lastSet "data.alarm" out = Some (StateVal (VBool false) true) /\
   lastSet "data.urgentAlarm" out = Some (StateVal (VBool false) true)) /\
  (data <> VNull -> data <> VUndefined ->
   truthy (field data "clear") = false ->
   on_clear_alarm data clock s
   = (Normal tt, [Log debug "[CLIENT] clear_alarm: "], s)).
Proof.
  split.
  - intros Hc. cbn zeta. rewrite deliver_app_fst, transcript_app.
    cbn [deliver handle].
    rewrite (on_clear_alarm_run data clock _ Hc).
    rewrite !lastSet_app. split; reflexivity.
  - intros Hn Hu Hc. unfold on_clear_alarm, log, setState, prop, when.
    rewrite bind_tell, (get_defined _ _ Hn Hu), bind_lift_normal, Hc.
    reflexivity.
Qed.

(** X11. The callback of [authorize] logs an error exactly when the reply
    has no truthy [read]; it reads the reply unguarded, so that a reply of
    [null] or none throws. *)
Theorem authorize_reply (data : value) (clock : nat -> Z) (s : machine) :
  (data <> VNull -> data <> VUndefined ->
   on_authorized data clock s
   = (Normal tt,
      if truthy (field data "read") then []
      else [Log error "Cannot authenticate: "], s)) /\
  (data = VNull \/ data = VUndefined ->
   on_authorized data clock s = (TypeError "Cannot read property 'read'", [], s)).
Proof.
  split.
  - intros Hn Hu. unfold on_authorized, prop.
    rewrite (get_defined _ _ Hn Hu), bind_lift_normal.
    destruct (truthy (field data "read")); reflexivity.
  - intros [-> | ->]; reflexivity.
Qed.

(** X12. The first [connect] of a constructed client resets nothing but
    tells the observers and sends [authorize] as client [iobroker] with
    history 48 and the credential: the hash given to the constructor when
    there is one, else the digest of the configured secret when there is
    one, else [null]. *)
Theorem first_connect_authorizes (URL : string) (hash remoteSecret : value)
  (sha1 : value -> value) (clock : nat -> Z) (n : nat) :
  let c := NightscoutClient_new URL hash remoteSecret sha1 in
  on_connect clock {| this := c; reads := n |}
  = (Normal tt,
     [ Log debug "[CLIENT] own client connected";
       Emit "connection" true;
       SocketEmit "authorize" "iobroker" (secretHash c) 48 ],
     {| this := c; reads := n |}) /\
  (truthy hash = true -> secretHash c = hash) /\
  (truthy hash = false -> truthy remoteSecret = true ->
   secretHash c = sha1 remoteSecret) /\
  (truthy hash = false -> truthy remoteSecret = false -> secretHash c = VNull).
Proof.
  cbn zeta. split; [reflexivity|].
  unfold NightscoutClient_new, or_else. cbn [secretHash].
  repeat split; intros Hh; rewrite Hh; cbn [negb andb]; try reflexivity;
    intros Hr; rewrite Hr; reflexivity.
Qed.
End Alarms.

Lemma clear_alarm_resets_witness :
  let s := {| this := NightscoutClient_new "http://localhost:1337" VNull VNull
                        (fun v => v);
              reads := 0 |} in
  let out :=
    transcript
      (fst (@deliver utc (fun _ => 1600000000000)
              ([alarm (VObj [("level", VNum 1)])]
               ++ [clear_alarm (VObj [("clear", VBool true)])]) s)) in
  lastSet "data.alarm" out = Some (StateVal (VBool false) true) /\
  lastSet "data.urgentAlarm" out = Some (StateVal (VBool false) true).
Proof.
  cbn zeta.
  apply (proj1 (@clear_alarm_resets utc [alarm (VObj [("level", VNum 1)])]
                  (VObj [("clear", VBool true)]) (fun _ => 1600000000000) _)).
  reflexivity.
Defined.

Lemma authorize_reply_witness :
  let s := {| this := NightscoutClient_new "http://localhost:1337" VNull VNull
                        (fun v => v);
              reads := 0 |} in
  @on_authorized (VObj [("read", VBool false)]) (fun _ => 1600000000000) s
  = (Normal tt, [Log error "Cannot authenticate: "], s) /\
  @on_authorized VNull (fun _ => 1600000000000) s
  = (TypeError "Cannot read property 'read'", [], s).
Proof.
  cbn zeta. split.
  - apply (proj1 (authorize_reply (VObj [("read", VBool false)])
                    (fun _ => 1600000000000) _)); discriminate.
  - apply (proj2 (authorize_reply VNull (fun _ => 1600000000000) _)).
    left. reflexivity.
Defined.

Lemma first_connect_authorizes_witness :
  secretHash (NightscoutClient_new "http://localhost:1337" (VStr "abc") VNull
                (fun v => v))
  = VStr "abc".
Proof.
  apply (proj1 (proj2 (first_connect_authorizes "http://localhost:1337"
                         (VStr "abc") VNull (fun v => v)
                         (fun _ => 1600000000000) 0%nat))).
  reflexivity.
Defined.

(** ** The parts of a data update *)

Lemma prefix_app (p s : string) :
  String.prefix p s = true <-> exists post, s = (p ++ post)%string.
Proof.
  revert s. induction p as [|a p IH]; intros s.
  - split; [intros _; exists s; reflexivity | destruct s; reflexivity].
  - destruct s as [|b s]; cbn.
    + split; [discriminate | intros [post Hp]; discriminate].
    + destruct (Ascii.ascii_dec a b) as [-> | Hne].
      * rewrite IH. split; intros [post Hp]; exists post; congruence.
      * split; [discriminate|]. intros [post Hp]. congruence.
Qed.

Lemma str_includes_occurs (s sub : string) :
  str_includes s sub = true <-> occurs sub s.
Proof.
  unfold occurs. induction s as [|a s IH]; cbn [str_includes].
  - rewrite orb_false_r, prefix_app. split.
    + intros [post Hp]. exists "", post. exact Hp.
    + intros (pre & post & Hp). destruct pre; [|discriminate].
      exists post. exact Hp.
  - rewrite orb_true_iff, prefix_app, IH. split.
    + intros [[post Hp] | (pre & post & Hp)].
      * exists "", post. exact Hp.
      * exists (String a pre), post. cbn. congruence.
    + intros (pre & post & Hp). destruct pre as [|b pre].
      * left. exists post. exact Hp.
      * right. exists pre, post. cbn in Hp. congruence.
Qed.

Lemma existsb_strict_eq (items : list value) (sub : string) :
  existsb (fun x => strict_eq x (VStr sub)) items = true <-> In (VStr sub) items.
Proof.
  rewrite existsb_exists. split.
  - intros (x & Hin & Heq). apply strict_eq_eq in Heq. congruence.
  - intros Hin. exists (VStr sub). split; [exact Hin|]. cbn. apply String.eqb_refl.
Qed.

Lemma includes_true (et : value) (sub : string) :
  includes et sub = Normal true <->
  (exists s, et = VStr s /\ occurs sub s) \/
  (exists items, et = VArr items /\ In (VStr sub) items).
Proof.
  destruct et; cbn;
    try (split; [discriminate
                | intros [(s' & Hs & _) | (items' & Hi & _)]; discriminate]).
  - split.
    + intros Hn. left. exists s. split; [reflexivity|].
      apply str_includes_occurs. congruence.
    + intros [(s' & Hs & Ho) | (items' & Hi & _)]; [|discriminate].
      inversion Hs; subst. apply str_includes_occurs in Ho. rewrite Ho.
      reflexivity.
  - split.
    + intros Hn. right. exists items. split; [reflexivity|].
      apply existsb_strict_eq. congruence.
    + intros [(s' & Hs & _) | (items' & Hi & Ho)]; [discriminate|].
      inversion Hi; subst. apply existsb_strict_eq in Ho. rewrite Ho.
      reflexivity.
Qed.

Lemma occurs_nonempty (sub s : string) :
  sub <> "" -> occurs sub s -> truthy (VStr s) = true.
Proof.
  intros Hsub (pre & post & ->). cbn.
  destruct pre; [|reflexivity]. destruct sub; [contradiction | reflexivity].
Qed.

(** X13. A treatment counts as a site change exactly when its [eventType]
    is a string in which "Site Change" occurs, or an array with the element
    "Site Change"; and as a sensor change exactly when "Sensor Start" or
    "Sensor Change" occurs in the string, or is an element of the array. *)
Theorem treatment_filters (t : value) :
  (isSiteChange t = Normal true <->
   (exists s, field t "eventType" = VStr s /\ occurs "Site Change" s) \/
   (exists items, field t "eventType" = VArr items /\
                  In (VStr "Site Change") items)) /\
  (isSensorChange t = Normal true <->
   (exists s, field t "eventType" = VStr s /\
              (occurs "Sensor Start" s \/ occurs "Sensor Change" s)) \/
   (exists items, field t "eventType" = VArr items /\
                  (In (VStr "Sensor Start") items \/
                   In (VStr "Sensor Change") items))).
Proof.
  unfold isSiteChange, isSensorChange, field.
  destruct (get t "eventType") as [et | e]; cbv beta iota.
  - destruct (truthy et) eqn:Ht.
    + split; [apply includes_true|].
      pose proof (includes_true et "Sensor Start") as Hstart.
      pose proof (includes_true et "Sensor Change") as Hchange.
      destruct (includes et "Sensor Start") as [[|] | e] eqn:Hinc.
      * split; [intros _|reflexivity].
        destruct (proj1 Hstart eq_refl) as [(s & Hs & Ho) | (items & Hi & Ho)];
          [left; exists s | right; exists items]; auto.
      * rewrite Hchange. split.
        -- intros [(s & Hs & Ho) | (items & Hi & Ho)];
             [left; exists s | right; exists items]; auto.
        -- intros [(s & Hs & [Ho | Ho]) | (items & Hi & [Ho | Ho])].
           ++ assert (Hf : Normal false = Normal true) by
                (apply Hstart; left; exists s; auto). discriminate.
           ++ left. exists s. auto.
           ++ assert (Hf : Normal false = Normal true) by
                (apply Hstart; right; exists items; auto). discriminate.
           ++ right. exists items. auto.
      * split; [discriminate|].
        destruct et; cbn in Hinc; try discriminate Hinc;
          intros [(s' & Hs & _) | (items' & Hi & _)]; discriminate.
    + assert (Hno : forall sub s, sub <> "" -> et = VStr s -> occurs sub s -> False).
      { intros sub s Hsub -> Ho.
        rewrite (occurs_nonempty sub s Hsub Ho) in Ht. discriminate. }
      assert (Harr : forall items, et = VArr items -> False).
      { intros items ->. cbn in Ht. discriminate. }
      split; (split; [discriminate|]).
      * intros [(s & Hs & Ho) | (items & Hi & _)]; exfalso.
        -- apply (Hno "Site Change" s); [discriminate | assumption..].
        -- apply (Harr items Hi).
      * intros [(s & Hs & [Ho | Ho]) | (items & Hi & _)]; exfalso.
        -- apply (Hno "Sensor Start" s); [discriminate | assumption..].
        -- apply (Hno "Sensor Change" s); [discriminate | assumption..].
        -- apply (Harr items Hi).
  - split; (split; [discriminate|]);
      intros [(s & Hs & _) | (items & Hi & _)]; discriminate.
Qed.

Section Parts.
Context `{Host}.

(** The last element of a sequence that is not empty is popped and handed
    on. *)
Lemma pop_last (k : value -> M unit) (older : list value) (x : value)
  (clock : nat -> Z) (s : machine) :
  bind (and_prop (VArr (older ++ [x])) "length")
    (fun c => when c (bind (lift (pop (VArr (older ++ [x])))) k)) clock s
  = k x clock s.
Proof.
  unfold and_prop, prop. cbn [truthy].
  change (get (VArr (older ++ [x])) "length")
    with (@Normal value (VNum (Z.of_nat (List.length (older ++ [x]))))).
  rewrite bind_lift_normal. unfold when. cbn [truthy].
  replace (Z.of_nat (List.length (older ++ [x])) =? 0) with false
    by (symmetry; apply Z.eqb_neq; rewrite length_app; cbn; lia).
  cbn [negb]. unfold pop. rewrite last_last. apply bind_lift_normal.
Qed.

(** X14. Every [dataUpdate] first sets [data.rawUpdate] to the payload as
    it came, whatever the payload and whatever fails later; when there is
    no payload that is all it does. *)
Theorem raw_mirror_first (data : value) (clock : nat -> Z) (s : machine) :
  exists rest,
    outputs (on_dataUpdate data clock s)
    = Log debug "[CLIENT] dataUpdate: "
        :: SetState "data.rawUpdate" (StateJson data true) :: rest /\
    (truthy data = false -> rest = [] /\ after (on_dataUpdate data clock s) = s).
Proof.
  rewrite on_dataUpdate_run. unfold dataUpdate_body, setState. rewrite bind_tell.
  unfold when. destruct (truthy data) eqn:Ht.
  - match goal with |- context [result ?r] => destruct r as [[[[] | e] out] s'] end;
      cbn [result outputs after fst snd]; eexists; (split; [reflexivity|]);
      discriminate.
  - cbn. exists []. repeat split.
Qed.

(** X15. Of the glucose readings only the last counts: when it is a record,
    its three facts are set with its own [mills] as time, whatever the
    readings before it. *)
Theorem latest_reading_only (data : value) (older : list value) (sgv : value)
  (clock : nat -> Z) (s : machine) :
  truthy data = true ->
  field data "sgvs" = VArr (older ++ [sgv]) ->
  sgv <> VNull -> sgv <> VUndefined ->
  sgvsPart data clock s = (Normal tt, sgvFacts sgv, s).
Proof.
  intros Ht Hsgvs Hn Hu. unfold sgvsPart, prop.
  rewrite (get_field _ _ Ht), bind_lift_normal, Hsgvs, pop_last.
  rewrite !(get_defined sgv _ Hn Hu). reflexivity.
Qed.

(** X16. Of the device statuses only the last counts: the device part of
    an update does what it does on the update whose only status is that
    one. *)
Theorem latest_devicestatus_only (ts data : value) (older : list value)
  (status : value) (clock : nat -> Z) (s : machine) :
  truthy data = true ->
  field data "devicestatus" = VArr (older ++ [status]) ->
  devicestatusPart ts data clock s
  = devicestatusPart ts (VObj [("devicestatus", VArr [status])]) clock s.
Proof.
  intros Ht Hdev. unfold devicestatusPart, prop.
  rewrite (get_field _ _ Ht), bind_lift_normal, Hdev, pop_last.
  change (get (VObj [("devicestatus", VArr [status])]) "devicestatus")
    with (@Normal value (VArr ([] ++ [status]))).
  rewrite bind_lift_normal, pop_last. reflexivity.
Qed.

(** X17. The device part sets nothing but the facts of the device: those
    of the pump as state objects with the time of the pass, acknowledged,
    the device and the battery of the uploader as bare acknowledged
    values. *)
Theorem device_facts_shape (ts data : value) (clock : nat -> Z) (s : machine) :
  Forall (deviceShape ts) (outputs (devicestatusPart ts data clock s)).
Proof.
  revert clock s. change (emits (deviceShape ts) (devicestatusPart ts data)).
  unfold devicestatusPart, setState, prop.
  emits_steps ltac:(cbn; repeat split; auto 10).
Qed.

Lemma devicestatus_null (ts data : value) (older : list value)
  (clock : nat -> Z) (s : machine) :
  truthy data = true ->
  field data "devicestatus" = VArr (older ++ [VNull]) ->
  devicestatusPart ts data clock s
  = (TypeError "Cannot read property 'device'", [], s).
Proof.
  intros Ht Hdev. unfold devicestatusPart, prop.
  rewrite (get_field _ _ Ht), bind_lift_normal, Hdev, pop_last. reflexivity.
Qed.

(** X18. When the last device status of an update is [null] the pass ends
    there: besides the raw mirror and the time of the last update nothing
    is set, whatever readings and treatments the update holds, no stored
    [changed] is read, and the error is logged. *)
Theorem null_devicestatus_ends_pass (data : value) (older : list value)
  (clock : nat -> Z) (s : machine) :
  truthy data = true ->
  field data "devicestatus" = VArr (older ++ [VNull]) ->
  on_dataUpdate data clock s
  = (Normal tt,
     [ Log debug "[CLIENT] dataUpdate: ";
       SetState "data.rawUpdate" (StateJson data true) ]
     ++ (if truthy (field data "lastUpdated")
         then [SetState "data.lastUpdate" (StateVal (field data "lastUpdated") true)]
         else [])
     ++ [Log error "[CLIENT] Parse Error: Cannot read property 'device'"],
     {| this := this s; reads := S (reads s) |}).
Proof.
  intros Ht Hdev. rewrite on_dataUpdate_run.
  assert (Hbody :
    dataUpdate_body data clock s
    = (TypeError "Cannot read property 'device'",
       SetState "data.rawUpdate" (StateJson data true)
         :: (if truthy (field data "lastUpdated")
             then [SetState "data.lastUpdate"
                     (StateVal (field data "lastUpdated") true)]
             else []),
       {| this := this s; reads := S (reads s) |})).
  { unfold dataUpdate_body, setState, when, prop.
    rewrite Ht, (get_field _ _ Ht).
    cbv beta iota zeta delta [bind tell ret lift Date_now].
    destruct (truthy (field data "lastUpdated")); cbv beta iota;
      rewrite (devicestatus_null _ _ older _ _ Ht Hdev); reflexivity. }
  rewrite Hbody. destruct (truthy (field data "lastUpdated")); reflexivity.
Qed.

Lemma fails_bind_left (P : effect -> Prop) {A B} (m : M A) (k : A -> M B) :
  fails P m -> fails P (bind m k).
Proof.
  intros Hm clock s. destruct (Hm clock s) as [[e He] Hall]. unfold bind.
  destruct (m clock s) as [[[a | e'] o1] s1]; cbn in *; [discriminate|].
  split; [exists e'; reflexivity | exact Hall].
Qed.

Lemma fails_bind_right (P : effect -> Prop) {A B} (m : M A) (k : A -> M B) :
  emits P m -> (forall a, fails P (k a)) -> fails P (bind m k).
Proof.
  intros Hm Hk clock s. specialize (Hm clock s). unfold bind.
  destruct (m clock s) as [[[a | e'] o1] s1]; cbn in *.
  - destruct (Hk a clock s1) as [[e He] Hall].
    destruct (k a clock s1) as [[r o2] s2]. cbn in *.
    split; [exists e; exact He | apply Forall_app; split; assumption].
  - split; [exists e'; reflexivity | exact Hm].
Qed.

Lemma filter_items_null (p : value -> completion bool) (items : list value) :
  (exists e, p VNull = TypeError e) -> In VNull items ->
  exists e, filter_items p items = TypeError e.
Proof.
  intros [e0 Hp]. induction items as [|x rest IH]; intros Hin; [destruct Hin|].
  cbn. destruct Hin as [-> | Hin].
  - rewrite Hp. exists e0. reflexivity.
  - destruct (p x) as [b | e]; [|exists e; reflexivity].
    destruct (IH Hin) as [e ->]. exists e. reflexivity.
Qed.

Lemma treatmentsPart_null (data : value) (items : list value) (now : Z)
  (clock : nat -> Z) (s : machine) :
  truthy data = true ->
  field data "treatments" = VArr items ->
  In VNull items ->
  exists e, treatmentsPart now data clock s = (TypeError e, [], s).
Proof.
  intros Ht Htr Hin. unfold treatmentsPart, prop.
  rewrite (get_field _ _ Ht), bind_lift_normal, Htr.
  unfold and_prop, prop. cbn [truthy].
  change (get (VArr items) "length")
    with (@Normal value (VNum (Z.of_nat (List.length items)))).
  rewrite bind_lift_normal. cbn [truthy].
  replace (Z.of_nat (List.length items) =? 0) with false
    by (symmetry; apply Z.eqb_neq; destruct items; [destruct Hin | cbn; lia]).
  cbn [negb]. unfold category. cbn [filter].
  destruct (filter_items_null isSiteChange items
              (ex_intro _ _ eq_refl) Hin) as [e ->].
  exists e. reflexivity.
Qed.

(** X19. One [null] among the treatments of an update discards them all:
    no fact of the cannula or of the sensor is set, though site or sensor
    changes are among the others, no stored [changed] is read, and the
    pass ends with the error logged. *)
Theorem null_treatment_discards_treatments (data : value) (items : list value)
  (clock : nat -> Z) (s : machine) :
  truthy data = true ->
  field data "treatments" = VArr items ->
  In VNull items ->
  existsb touchesAge (outputs (on_dataUpdate data clock s)) = false /\
  exists out e,
    outputs (on_dataUpdate data clock s)
    = out ++ [Log error ("[CLIENT] Parse Error: " ++ e)%string].
Proof.
  intros Ht Htr Hin.
  assert (Hfails : fails (fun e => touchesAge e = false) (dataUpdate_body data)).
  { unfold dataUpdate_body, when. rewrite Ht.
    apply fails_bind_right;
      [unfold setState; emits_steps reflexivity | intros _].
    apply fails_bind_right; [emits_steps reflexivity | intros now].
    apply fails_bind_right; [unfold prop; emits_steps reflexivity | intros lu].
    apply fails_bind_right;
      [unfold setState; emits_steps reflexivity | intros _].
    apply fails_bind_right;
      [unfold devicestatusPart, setState, prop; emits_steps reflexivity | intros _].
    apply fails_bind_right;
      [unfold sgvsPart, setState, prop; emits_steps reflexivity | intros _].
    apply fails_bind_left. intros clock' s'.
    destruct (treatmentsPart_null data items now clock' s' Ht Htr Hin) as [e ->].
    split; [exists e; reflexivity | constructor]. }
  rewrite on_dataUpdate_run. destruct (Hfails clock s) as [[e He] Hall].
  destruct (dataUpdate_body data clock s) as [[[[] | e'] out] s']; [discriminate|].
  cbn [result outputs fst snd] in *. split.
  - cbn [existsb touchesAge orb]. rewrite existsb_app. cbn [existsb touchesAge].
    rewrite orb_false_r. apply not_true_is_false. intros Hex.
    apply existsb_exists in Hex. destruct Hex as (x & Hx & Htouch).
    rewrite Forall_forall in Hall. rewrite (Hall x Hx) in Htouch. discriminate.
  - exists (Log debug "[CLIENT] dataUpdate: " :: out), e'. reflexivity.
Qed.
End Parts.

Lemma alarm_levels_witness :
  exists v u,
    @on_alarm (VObj [("level", VNum 1)]) (fun _ => 1600000000000)
      {| this := NightscoutClient_new "http://localhost:1337" VNull VNull
                   (fun v => v);
         reads := 0 |}
    = (Normal tt,
       [Log debug "[CLIENT] alarm: "; SetState "data.alarm" (StateVal v true)],
       {| this := NightscoutClient_new "http://localhost:1337" VNull VNull
                    (fun v => v);
          reads := 0 |}) /\
    v = VBool true /\ (u = VBool true \/ truthy u = false).
Proof.
  destruct (alarm_levels (VObj [("level", VNum 1)]) (fun _ => 1600000000000)
              {| this := NightscoutClient_new "http://localhost:1337" VNull VNull
                           (fun v => v);
                 reads := 0 |})
    as (v & u & Hrun & Hv & _ & _ & _ & Hu).
  exists v, u. split; [exact Hrun|]. split; [|exact Hu].
  apply Hv. split; reflexivity.
Defined.

Lemma treatment_filters_witness :
  isSiteChange (VObj [("eventType", VStr "Pump Site Change"); ("mills", VNum 5)])
  = Normal true /\
  isSensorChange (VObj [("eventType", VStr "Sensor Start")]) = Normal true.
Proof.
  split.
  - apply (proj1 (treatment_filters _)). left. exists "Pump Site Change".
    split; [reflexivity|]. exists "Pump ", "". reflexivity.
  - apply (proj2 (treatment_filters _)). left. exists "Sensor Start".
    split; [reflexivity|]. left. exists "", "". reflexivity.
Defined.

Lemma latest_reading_only_witness :
  let s := {| this := NightscoutClient_new "http://localhost:1337" VNull VNull
                        (fun v => v);
              reads := 0 |} in
  let sgv := VObj [ ("mills", VNum 1599999000000); ("mgdl", VNum 120);
                    ("scaled", VNum 120); ("direction", VStr "Flat") ] in
  @sgvsPart (VObj [("sgvs", VArr ([VObj [("mgdl", VNum 90)]] ++ [sgv]))])
    (fun _ => 1600000000000) s
  = (Normal tt, sgvFacts sgv, s).
Proof.
  cbn zeta.
  apply (latest_reading_only
           (VObj [("sgvs", VArr ([VObj [("mgdl", VNum 90)]]
                                 ++ [VObj [ ("mills", VNum 1599999000000);
                                            ("mgdl", VNum 120);
                                            ("scaled", VNum 120);
                                            ("direction", VStr "Flat") ]]))])
           [VObj [("mgdl", VNum 90)]]);
    [reflexivity | reflexivity | discriminate | discriminate].
Defined.

Lemma latest_devicestatus_only_witness :
  let s := {| this := NightscoutClient_new "http://localhost:1337" VNull VNull
                        (fun v => v);
              reads := 0 |} in
  let status := VObj [("device", VStr "pump-1")] in
  let data := VObj [("devicestatus", VArr ([VNull] ++ [status]))] in
  @devicestatusPart utc (VNum 1600000000000) data (fun _ => 1600000000000) s
  = @devicestatusPart utc (VNum 1600000000000)
      (VObj [("devicestatus", VArr [status])]) (fun _ => 1600000000000) s.
Proof.
  cbn zeta.
  apply (@latest_devicestatus_only utc (VNum 1600000000000)
           (VObj [("devicestatus",
                   VArr ([VNull] ++ [VObj [("device", VStr "pump-1")]]))])
           [VNull]); reflexivity.
Defined.

Lemma null_devicestatus_ends_pass_witness :
  let s := {| this := NightscoutClient_new "http://localhost:1337" VNull VNull
                        (fun v => v);
              reads := 0 |} in
  let data :=
    VObj [ ("lastUpdated", VNum 1599999000000);
           ("devicestatus", VArr ([] ++ [VNull]));
           ("sgvs", VArr [VObj [("mills", VNum 1599999000000); ("mgdl", VNum 120)]]) ] in
  outputs (@on_dataUpdate utc data (fun _ => 1600000000000) s)
  = [ Log debug "[CLIENT] dataUpdate: ";
      SetState "data.rawUpdate" (StateJson data true);
      SetState "data.lastUpdate" (StateVal (VNum 1599999000000) true);
      Log error "[CLIENT] Parse Error: Cannot read property 'device'" ].
Proof.
  cbn zeta.
  rewrite (@null_devicestatus_ends_pass utc
             (VObj [ ("lastUpdated", VNum 1599999000000);
                     ("devicestatus", VArr ([] ++ [VNull]));
                     ("sgvs", VArr [VObj [ ("mills", VNum 1599999000000);
                                           ("mgdl", VNum 120) ]]) ])
             [] (fun _ => 1600000000000)
             {| this := NightscoutClient_new "http://localhost:1337" VNull VNull
                          (fun v => v);
                reads := 0 |}
             eq_refl eq_refl).
  reflexivity.
Defined.

Lemma null_treatment_discards_treatments_witness :
  let s := {| this := NightscoutClient_new "http://localhost:1337" VNull VNull
                        (fun v => v);
              reads := 0 |} in
  let data :=
    VObj [ ("treatments",
            VArr [ VObj [("eventType", VStr "Site Change");
                         ("mills", VNum 1599982000000)];
                   VNull ]) ] in
  existsb touchesAge (outputs (@on_dataUpdate utc data (fun _ => 1600000000000) s))
  = false.
Proof.
  cbn zeta.
  apply (@null_treatment_discards_treatments utc
           (VObj [ ("treatments",
                    VArr [ VObj [("eventType", VStr "Site Change");
                                 ("mills", VNum 1599982000000)];
                           VNull ]) ])
           [ VObj [("eventType", VStr "Site Change");
                   ("mills", VNum 1599982000000)];
             VNull ]);
    [reflexivity | reflexivity | right; left; reflexivity].
Defined.

(** ** The cursor over a run of events *)

Section Keeps.

Lemma keeps_ret {A} (a : A) : keeps (ret a).
Proof. intros clock s. reflexivity. Qed.

Lemma keeps_lift {A} (c : completion A) : keeps (lift c).
Proof. intros clock s. reflexivity. Qed.

Lemma keeps_tell (e : effect) : keeps (tell e).
Proof. intros clock s. reflexivity. Qed.

Lemma keeps_Date_now : keeps Date_now.
Proof. intros clock s. reflexivity. Qed.

Lemma keeps_bind {A B} (m : M A) (k : A -> M B) :
  keeps m -> (forall a, keeps (k a)) -> keeps (bind m k).
Proof.
  intros Hm Hk clock s. specialize (Hm clock s). unfold bind.
  destruct (m clock s) as [[[a | e] o1] s1]; cbn in *; [|exact Hm].
  specialize (Hk a clock s1). destruct (k a clock s1) as [[r o2] s2].
  cbn in *. congruence.
Qed.

Lemma keeps_try_catch (body : M unit) (handler : string -> M unit) :
  keeps body -> (forall e, keeps (handler e)) -> keeps (try_catch body handler).
Proof.
  intros Hm Hk clock s. specialize (Hm clock s). unfold try_catch.
  destruct (body clock s) as [[[a | e] o1] s1]; cbn in *; [exact Hm|].
  specialize (Hk e clock s1). destruct (handler e clock s1) as [[r o2] s2].
  cbn in *. congruence.
Qed.

Lemma keeps_when (c : value) (m : M unit) : keeps m -> keeps (when c m).
Proof.
  intros Hm. unfold when. destruct (truthy c); [exact Hm | apply keeps_ret].
Qed.

Lemma keeps_and_prop (o : value) (k : string) : keeps (and_prop o k).
Proof.
  unfold and_prop, prop. destruct (truthy o); [apply keeps_lift | apply keeps_ret].
Qed.
End Keeps.

Ltac keeps_steps :=
  repeat first
    [ apply keeps_ret
    | apply keeps_lift
    | apply keeps_Date_now
    | apply keeps_and_prop
    | apply keeps_tell
    | apply keeps_when
    | apply keeps_bind; [|intro]
    | apply keeps_try_catch; [|intro]
    | match goal with
      | |- keeps (if ?b then _ else _) => destruct b
      | |- keeps (let '(_, _) := ?p in _) => destruct p
      | |- keeps (match ?l with [] => _ | _ :: _ => _ end) => destruct l
      end ].

Section Cursor.
Context `{Host}.

Lemma handle_cursor (ev : event) (clock : nat -> Z) (s : machine) :
  previousNotifyTimestamp (this (after (handle ev clock s)))
  = cursorAfter [ev] (previousNotifyTimestamp (this s)).
Proof.
  assert (Hkeeps : forall m : M unit, keeps m ->
            previousNotifyTimestamp (this (after (m clock s)))
            = previousNotifyTimestamp (this s)).
  { intros m Hm. rewrite (Hm clock s). reflexivity. }
  destruct ev; cbn [handle cursorAfter];
    try (apply Hkeeps; unfold_handlers; keeps_steps).
  - apply on_connect_cursor.
  - destruct (truthy data) eqn:Ht; cbn [andb].
    + destruct (truthy (field data "timestamp")
                && strict_eq (field data "timestamp")
                     (previousNotifyTimestamp (this s))) eqn:Hdup.
      * rewrite on_notification_run by exact Ht. cbn zeta. rewrite Hdup.
        cbn [after snd]. apply andb_true_iff in Hdup.
        destruct Hdup as [-> Heq]. apply strict_eq_eq in Heq.
        symmetry. exact Heq.
      * destruct (on_notification_fresh data clock s Ht Hdup) as [-> _].
        reflexivity.
    + rewrite on_notification_no_payload by exact Ht. reflexivity.
Qed.

(** X20. After any run of events the Dedup Cursor is the timestamp of the
    last notification that was there with a truthy timestamp since the
    last [connect], [null] when there was none since, and the cursor before
    the run when there was neither; no other event moves it. *)
Theorem cursor_tracks_last_timestamp (evs : list event) (clock : nat -> Z)
  (s : machine) :
  previousNotifyTimestamp (this (snd (deliver clock evs s)))
  = cursorAfter evs (previousNotifyTimestamp (this s)).
Proof.
  revert s. induction evs as [|ev rest IH]; intros s; [reflexivity|].
  cbn [deliver]. pose proof (handle_cursor ev clock s) as Hev.
  destruct (handle ev clock s) as [[r out] s1]. cbn [after snd] in Hev.
  specialize (IH s1). destruct (deliver clock rest s1) as [log s2].
  cbn [snd] in *. rewrite IH, Hev. reflexivity.
Qed.

(** X21. The food records of an update never set or read a state.  A
    [null] among them throws: the handler then performed what the pass had
    performed through the treatments, logged the error and returned,
    without the reads of the recovery; when the food part completes, those
    reads follow the treatments. *)
Theorem food_is_inert (data : value) (items : list value) (clock : nat -> Z)
  (s : machine) :
  outputs (foodPart data clock s) = [] /\
  (truthy data = true -> field data "food" = VArr items -> In VNull items ->
   forall flags out s',
     throughTreatments data clock s = (Normal flags, out, s') ->
     (exists e, foodPart data clock s' = (TypeError e, [], s')) /\
     (exists e,
        on_dataUpdate data clock s
        = (Normal tt,
           Log debug "[CLIENT] dataUpdate: "
             :: out ++ [Log error ("[CLIENT] Parse Error: " ++ e)%string],
           s')) /\
     Forall (fun x => isRead x = false) (outputs (on_dataUpdate data clock s))) /\
  (truthy data = true ->
   forall flags out s',
     throughTreatments data clock s = (Normal flags, out, s') ->
     result (foodPart data clock s') = Normal tt ->
     on_dataUpdate data clock s
     = (Normal tt,
        Log debug "[CLIENT] dataUpdate: " :: out ++ recoveryReads flags, s')).
Proof.
  split; [|split].
  - destruct (foodPart_run data clock s) as [r ->]. reflexivity.
  - intros Ht Hfood Hin flags out s' Hrun.
    assert (Hthrow : exists e, foodPart data clock s' = (TypeError e, [], s')).
    { unfold foodPart, prop.
      rewrite (get_field _ _ Ht), bind_lift_normal, Hfood.
      unfold and_prop, prop. cbn [truthy].
      change (get (VArr items) "length")
        with (@Normal value (VNum (Z.of_nat (List.length items)))).
      rewrite bind_lift_normal. unfold when. cbn [truthy].
      replace (Z.of_nat (List.length items) =? 0) with false
        by (symmetry; apply Z.eqb_neq; destruct items; [destruct Hin | cbn; lia]).
      cbn [negb filter].
      destruct (filter_items_null isSiteChange items
                  (ex_intro _ _ eq_refl) Hin) as [e ->].
      exists e. reflexivity. }
    split; [exact Hthrow|].
    destruct Hthrow as [e He].
    assert (Hall : on_dataUpdate data clock s
                   = (Normal tt,
                      Log debug "[CLIENT] dataUpdate: "
                        :: out ++ [Log error ("[CLIENT] Parse Error: " ++ e)%string],
                      s')).
    { rewrite on_dataUpdate_run, dataUpdate_body_split by exact Ht.
      unfold bind. rewrite Hrun, He. rewrite app_nil_r. reflexivity. }
    split; [exists e; exact Hall|].
    rewrite Hall. cbn [outputs fst snd].
    constructor; [reflexivity|]. apply Forall_app. split.
    + eapply emits_run; [apply throughTreatments_reads_nothing | exact Hrun].
    + constructor; [reflexivity | constructor].
  - intros Ht flags out s' Hrun Hfood.
    rewrite on_dataUpdate_run, dataUpdate_body_split by exact Ht.
    unfold bind. rewrite Hrun.
    destruct (foodPart_run data clock s') as [r Hr]. rewrite Hr in Hfood |- *.
    cbn in Hfood. subst r. rewrite recoveryPart_run. reflexivity.
Qed.
End Cursor.

Lemma food_is_inert_witness :
  let s := {| this := NightscoutClient_new "http://localhost:1337" VNull VNull
                        (fun v => v);
              reads := 0 |} in
  let clock := fun _ : nat => 1600000000000 in
  let treatments :=
    VArr [ VObj [("eventType", VStr "Site Change");
                 ("mills", VNum 1599982000000)] ] in
  let data := VObj [("treatments", treatments); ("food", VArr [VNull])] in
  let bare := VObj [("treatments", treatments)] in
  (exists e,
     @on_dataUpdate utc data clock s
     = (Normal tt,
        Log debug "[CLIENT] dataUpdate: "
          :: [ SetState "data.rawUpdate" (StateJson data true);
               ageFact "data.cage.age" 1600000000000 5;
               ageFact "data.cage.days" 1600000000000 0;
               ageFact "data.cage.hours" 1600000000000 5;
               SetState "data.cage.changed"
                 (StateObj (VNum 1599982000000) true (VNum 1599982000000)) ]
          ++ [Log error ("[CLIENT] Parse Error: " ++ e)%string],
        {| this := this s; reads := 2 |})) /\
  @on_dataUpdate utc bare clock s
  = (Normal tt,
     Log debug "[CLIENT] dataUpdate: "
       :: [ SetState "data.rawUpdate" (StateJson bare true);
            ageFact "data.cage.age" 1600000000000 5;
            ageFact "data.cage.days" 1600000000000 0;
            ageFact "data.cage.hours" 1600000000000 5;
            SetState "data.cage.changed"
              (StateObj (VNum 1599982000000) true (VNum 1599982000000)) ]
       ++ recoveryReads (true, false),
     {| this := this s; reads := 2 |}).
Proof.
  cbn zeta. split.
  - apply (proj1 (proj2 (@food_is_inert utc
                     (VObj [ ("treatments",
                              VArr [ VObj [("eventType", VStr "Site Change");
                                           ("mills", VNum 1599982000000)] ]);
                             ("food", VArr [VNull]) ])
                     [VNull] (fun _ => 1600000000000)
                     {| this := NightscoutClient_new "http://localhost:1337"
                                  VNull VNull (fun v => v);
                        reads := 0 |}))
             eq_refl eq_refl (or_introl eq_refl) (true, false)).
    reflexivity.
  - apply (proj2 (proj2 (@food_is_inert utc
                     (VObj [ ("treatments",
                              VArr [ VObj [("eventType", VStr "Site Change");
                                           ("mills", VNum 1599982000000)] ]) ])
                     [] (fun _ => 1600000000000)
                     {| this := NightscoutClient_new "http://localhost:1337"
                                  VNull VNull (fun v => v);
                        reads := 0 |}))
             eq_refl (true, false)); reflexivity.
Defined.

Lemma raw_mirror_first_witness :
  outputs (@on_dataUpdate utc VNull (fun _ => 1600000000000)
             {| this := NightscoutClient_new "http://localhost:1337" VNull VNull
                          (fun v => v);
                reads := 0 |})
  = [ Log debug "[CLIENT] dataUpdate: ";
      SetState "data.rawUpdate" (StateJson VNull true) ].
Proof.
  destruct (@raw_mirror_first utc VNull (fun _ => 1600000000000)
              {| this := NightscoutClient_new "http://localhost:1337" VNull VNull
                           (fun v => v);
                 reads := 0 |}) as (rest & Hout & Hnil).
  destruct (Hnil eq_refl) as [Hrest _]. rewrite Hrest in Hout. exact Hout.
Defined.

(** ** Timestamps that are not numbers *)

Section Coercion.
Context `{Host}.

(** X22. On records whose [mills] are numbers (or missing, [null], [false],
    [NaN]), with now in the range of a [Date], the selection the handler
    runs on the decoded records returns the info of the selection on the
    numbers, as values. *)
Theorem selection_on_numbers (now : Z) (treatments : list value) :
  now <= maxTime -> forallb plain treatments = true ->
  selectLatest now treatments
  = Normal (asRaw (_getLatestTreatmentsInfo now (candidates treatments))).
Proof. apply selectLatest_numbers. Qed.

(** X23. A site change whose [mills] is a string that converts to a number
    greater than 0 and not after now passes the two comparisons of the
    selection; when [moment] makes nothing of the string the record is
    found all the same, its age, days and hours are set to [NaN], and the
    [changed] fact carries the string as [ts]; the recovery is left to the
    sensor alone. *)
Theorem string_mills_coerced (m : string) (z : Z) (clock : nat -> Z)
  (s : machine) :
  StringToNumber m = Some z -> 0 < z <= clock (S (reads s)) ->
  moment_valueOf (VStr m) = None ->
  let now := clock (reads s) in
  let data :=
    VObj [ ("treatments",
            VArr [VObj [("eventType", VStr "Site Change"); ("mills", VStr m)]]) ] in
  exists changed,
    Date_getTime (VStr m) = Normal changed /\
    outputs (on_dataUpdate data clock s)
    = [ Log debug "[CLIENT] dataUpdate: ";
        SetState "data.rawUpdate" (StateJson data true);
        SetState "data.cage.age" (StateObj (VNum now) true VNaN);
        SetState "data.cage.days" (StateObj (VNum now) true VNaN);
        SetState "data.cage.hours" (StateObj (VNum now) true VNaN);
        SetState "data.cage.changed" (StateObj (VStr m) true changed);
        Log debug "[CLIENT] No sensor treatments found. Recalculate age";
        GetStateAsync "data.sage.changed" ].
Proof.
  intros Hnum Hz Hmoment. cbn zeta.
  assert (Hsel : selectLatest (clock (S (reads s)))
                   [VObj [("eventType", VStr "Site Change"); ("mills", VStr m)]]
                 = Normal {| rfound := true; rage := VNaN; rdays := VNaN;
                             rhours := VNaN; rmillis := VStr m |}).
  { unfold selectLatest, rawForEach, rawVisit, gt, le, ToPrimitive, less,
      ToNumber, moment. cbn [get lookup String.eqb Ascii.eqb Bool.eqb].
    rewrite Hnum, Hmoment.
    replace (0 <? z) with true by (symmetry; apply Z.ltb_lt; lia).
    replace (clock (S (reads s)) <? z) with false
      by (symmetry; apply Z.ltb_ge; lia).
    reflexivity. }
  destruct (Date_getTime (VStr m)) as [changed | e] eqn:Hdate;
    [|discriminate Hdate].
  exists changed. split; [reflexivity|].
  set (record := VObj [("eventType", VStr "Site Change"); ("mills", VStr m)]) in *.
  set (data := VObj [("treatments", VArr [record])]).
  set (s1 := {| this := this s; reads := S (reads s) |}).
  set (s2 := {| this := this s; reads := S (S (reads s)) |}).
  set (info := {| rfound := true; rage := VNaN; rdays := VNaN; rhours := VNaN;
                  rmillis := VStr m |}) in *.
  assert (Hcage : category "data.cage" isSiteChange (clock (reads s))
                    (VArr [record]) clock s1
                  = (Normal true,
                     freshFacts "data.cage" (clock (reads s)) info changed, s2)).
  { rewrite category_run.
    change (filter (VArr [record]) isSiteChange) with (Normal [record]).
    cbn zeta. cbn [reads s1]. rewrite Hsel. cbn [rfound rmillis info].
    rewrite Hdate. reflexivity. }
  assert (Hsage : category "data.sage" isSensorChange (clock (reads s))
                    (VArr [record]) clock s2
                  = (Normal false, [], s2)).
  { rewrite category_run. reflexivity. }
  assert (Htr : treatmentsPart (clock (reads s)) data clock s1
                = (Normal (true, false),
                   freshFacts "data.cage" (clock (reads s)) info changed, s2)).
  { unfold treatmentsPart.
    rewrite (bind_run _ _ _ (VArr [record]) [] s1 s1 eq_refl).
    rewrite (bind_run _ _ _ (VNum 1) [] s1 s1 eq_refl).
    change (truthy (VNum 1)) with true. cbv iota.
    rewrite (bind_run _ _ _ _ _ _ _ Hcage).
    rewrite (bind_run _ _ _ _ _ _ _ Hsage).
    cbn [result outputs after fst snd ret app]. rewrite app_nil_r. reflexivity. }
  assert (Hrun : throughTreatments data clock s
                 = (Normal (true, false),
                    SetState "data.rawUpdate" (StateJson data true)
                      :: freshFacts "data.cage" (clock (reads s)) info changed,
                    s2)).
  { unfold throughTreatments.
    rewrite (bind_run _ _ _ tt
               [SetState "data.rawUpdate" (StateJson data true)] s s eq_refl).
    rewrite (bind_run _ _ _ (clock (reads s)) [] s s1 eq_refl).
    rewrite (bind_run _ _ _ VUndefined [] s1 s1 eq_refl).
    rewrite (bind_run _ _ _ tt [] s1 s1 eq_refl).
    rewrite (bind_run _ _ _ tt [] s1 s1 eq_refl).
    rewrite (bind_run _ _ _ tt [] s1 s1 eq_refl).
    rewrite Htr. reflexivity. }
  rewrite on_dataUpdate_run, dataUpdate_body_split by reflexivity.
  rewrite (bind_run _ _ _ _ _ _ _ Hrun).
  rewrite (bind_run _ _ _ tt [] s2 s2 eq_refl).
  rewrite recoveryPart_run. reflexivity.
Qed.
End Coercion.

Lemma selection_on_numbers_witness :
  @selectLatest utc 1600000000000
    [ VObj [("eventType", VStr "Site Change"); ("mills", VNum 1599820000000)];
      VObj [("eventType", VStr "Site Change")];
      VObj [("eventType", VStr "Site Change"); ("mills", VNum 1599982000000)] ]
  = Normal {| rfound := true; rage := VNum 5; rdays := VNum 0; rhours := VNum 5;
              rmillis := VNum 1599982000000 |}.
Proof.
  apply (@selection_on_numbers utc 1600000000000
           [ VObj [("eventType", VStr "Site Change"); ("mills", VNum 1599820000000)];
             VObj [("eventType", VStr "Site Change")];
             VObj [("eventType", VStr "Site Change");
                   ("mills", VNum 1599982000000)] ]);
    [vm_compute; discriminate | reflexivity].
Defined.

Lemma string_mills_coerced_witness :
  let s := {| this := NightscoutClient_new "http://localhost:1337" VNull VNull
                        (fun v => v);
              reads := 0 |} in
  let clock := fun _ : nat => 1600000000000 in
  let data :=
    VObj [ ("treatments",
            VArr [VObj [("eventType", VStr "Site Change");
                        ("mills", VStr "1599982000000")]]) ] in
  exists changed,
    @Date_getTime utc (VStr "1599982000000") = Normal changed /\
    outputs (@on_dataUpdate utc data clock s)
    = [ Log debug "[CLIENT] dataUpdate: ";
        SetState "data.rawUpdate" (StateJson data true);
        SetState "data.cage.age" (StateObj (VNum 1600000000000) true VNaN);
        SetState "data.cage.days" (StateObj (VNum 1600000000000) true VNaN);
        SetState "data.cage.hours" (StateObj (VNum 1600000000000) true VNaN);
        SetState "data.cage.changed"
          (StateObj (VStr "1599982000000") true changed);
        Log debug "[CLIENT] No sensor treatments found. Recalculate age";
        GetStateAsync "data.sage.changed" ].
Proof.
  cbn zeta.
  apply (@string_mills_coerced utc "1599982000000" 1599982000000
           (fun _ => 1600000000000)
           {| this := NightscoutClient_new "http://localhost:1337" VNull VNull
                        (fun v => v);
              reads := 0 |});
    [reflexivity | vm_compute; split; [reflexivity | discriminate] | reflexivity].
Defined.
